(** * The ibazel watch loop: a shallow embedding and its properties

    The development follows the engine of the watcher (package [main]):
    the two iteration functions of the state machine, the query-driven
    reconciliation of the watch sets, the run-mode dispatcher and the
    signal handler.  Calls to collaborators that live outside the engine
    (the build-tool client, the watcher facades, the lifecycle listeners,
    the logger, the subprocess handles) are recorded in a trace; what
    those collaborators answer is read from an environment. *)

From Stdlib Require Import ZArith String Ascii List Lia.
From stdpp Require Import base strings gmap list.
Import ListNotations.

Local Open Scope string_scope.
Local Open Scope list_scope.

(** ** Go's [strings] package, on ASCII strings *)

Module strings.

Fixpoint HasPrefix (s prefix : string) : bool :=
    match prefix, s with
    | EmptyString, _ => true
    | String p ps, String c cs => if Ascii.eqb c p then HasPrefix cs ps else false
    | String _ _, EmptyString => false
    end.

Fixpoint drop (n : nat) (s : string) : string :=
    match n, s with
    | O, _ => s
    | S n', String _ r => drop n' r
    | S _, EmptyString => EmptyString
    end.

Definition TrimPrefix (s prefix : string) : string :=
    if HasPrefix s prefix then drop (String.length prefix) s else s.

Definition HasSuffix (s suffix : string) : bool :=
    let n := String.length s in
    let m := String.length suffix in
    (m <=? n)%nat && String.eqb (drop (n - m) s) suffix.

  (** [strings.Replace s old new 1]: only the first occurrence. *)
Fixpoint Replace1 (s old new : string) : string :=
    if HasPrefix s old then new +:+ drop (String.length old) s
    else match s with
         | EmptyString => EmptyString
         | String c r => String c (Replace1 r old new)
         end.

Definition Join (l : list string) (sep : string) : string := String.concat sep l.

Definition isSeparator (c : ascii) : bool :=
    let n := nat_of_ascii c in
    negb (((48 <=? n) && (n <=? 57)) || ((65 <=? n) && (n <=? 90))
          || ((97 <=? n) && (n <=? 122)) || (n =? 95))%nat.

Definition upper (c : ascii) : ascii :=
    let n := nat_of_ascii c in
    if ((97 <=? n) && (n <=? 122))%nat then ascii_of_nat (n - 32) else c.

Fixpoint Title_from (prev : ascii) (s : string) : string :=
    match s with
    | EmptyString => EmptyString
    | String c r => String (if isSeparator prev then upper c else c) (Title_from c r)
    end.

Definition Title (s : string) : string := Title_from " "%char s.

  (** [fmt.Sprintf format arg] for a format with one [%s] verb. *)
Definition Sprintf1 (format arg : string) : string := Replace1 format "%s" arg.

End strings.

(** ** Go's [path/filepath], Unix flavour *)

Module filepath.

Definition Separator : string := "/".

Definition ToSlash (path : string) : string := path.

  (** [Split] cuts after the last separator: directory part (with its
      trailing separator) and file part. *)
Fixpoint Split (path : string) : string * string :=
    match path with
    | EmptyString => (EmptyString, EmptyString)
    | String c r =>
        let '(d, f) := Split r in
        match d with
        | EmptyString =>
            if Ascii.eqb c "/"%char then ("/", f) else (EmptyString, String c f)
        | String _ _ => (String c d, f)
        end
    end.

Fixpoint fields (path : string) : list string :=
    match path with
    | EmptyString => [EmptyString]
    | String c r =>
        if Ascii.eqb c "/"%char then EmptyString :: fields r
        else match fields r with
             | h :: t => String c h :: t
             | [] => [String c EmptyString]
             end
    end.

  (** One element of the path in [Clean]; [out] is the output so far,
      last element first. *)
Definition clean_elem (rooted : bool) (out : list string) (e : string) : list string :=
    if String.eqb e "" || String.eqb e "." then out
    else if String.eqb e ".." then
      match out with
      | top :: rest => if String.eqb top ".." then e :: out else rest
      | [] => if rooted then [] else [e]
      end
    else e :: out.

Definition Clean (path : string) : string :=
    if String.eqb path "" then "."
    else
      let rooted := strings.HasPrefix path "/" in
      let body := String.concat "/" (rev (fold_left (clean_elem rooted) (fields path) [])) in
      if rooted then "/" +:+ body
      else if String.eqb body "" then "." else body.

  (** [Join] of two elements. *)
Definition Join (a b : string) : string :=
    if negb (String.eqb a "") then Clean (a +:+ "/" +:+ b)
    else if negb (String.eqb b "") then Clean b
    else "".

End filepath.


(** ** Data model *)

(** [type State string] with its six constants. *)
Inductive State := DEBOUNCE_QUERY | QUERY | WAIT | DEBOUNCE_RUN | RUN | QUIT.

#[global] Instance State_eq_dec : EqDecision State.
Proof. solve_decision. Defined.

Definition sourceQuery : string := "kind('source file', deps(set(%s)))".
Definition buildQuery : string := "buildfiles(deps(set(%s)))".

(** The two watcher facades of the engine; they are the keys of
    [filesWatched]. *)
Inductive fSNotifyWatcher := buildFileWatcher | sourceFileWatcher.

#[global] Instance fSNotifyWatcher_eq_dec : EqDecision fSNotifyWatcher.
Proof. solve_decision. Defined.

#[global] Instance fSNotifyWatcher_countable : Countable fSNotifyWatcher.
Proof.
  refine (inj_countable'
            (fun w => match w with buildFileWatcher => false | sourceFileWatcher => true end)
            (fun b : bool => if b then sourceFileWatcher else buildFileWatcher) _).
  by intros [].
Defined.

(** Events of the notification library: a name and an [Op] bit mask. *)
Module fsnotify.

Definition Create : Z := 1.
Definition Write : Z := 2.
Definition Remove : Z := 4.
Definition Rename : Z := 8.
Definition Chmod : Z := 16.

Record Event := mkEvent { Name : string; Op : Z }.

End fsnotify.

Definition modifyingEvents : Z :=
  Z.lor (Z.lor (Z.lor fsnotify.Write fsnotify.Create) fsnotify.Rename) fsnotify.Remove.

(** Query protos.  A target is a tagged union: the payload that belongs to
    its discriminator comes with it. *)
Module blaze_query.

Inductive Attribute_Discriminator := Attribute_STRING_LIST | Attribute_STRING | Attribute_LABEL.

Record Attribute := mkAttribute {
  Name : string;
  Type_ : option Attribute_Discriminator;
  StringListValue : list string
}.

Record Rule := mkRule { Rule_Attribute : list Attribute }.

Inductive Target :=
| Target_SOURCE_FILE (SourceFile_Name : string)
| Target_RULE (rule : Rule)
| Target_GENERATED_FILE
| Target_PACKAGE_GROUP
| Target_ENVIRONMENT_GROUP.

End blaze_query.

(** Go's [error] and [*bytes.Buffer]: nil or a value. *)
Definition error : Type := option string.
Definition Buffer : Type := option string.

Definition is_nil {A : Type} (x : option A) : bool :=
  match x with None => true | Some _ => false end.

Inductive Signal := SIGINT | SIGTERM | SIGHUP | SIGQUIT.

(** The listeners installed by [New], in list order. *)
Inductive Lifecycle := liveReload | profiler | outputRunner.

(** Modelled from the spec: the subprocess handle of package [command]
    (start, notify of changes, before rebuild, terminate, is running).  The
    handle remembers which constructor made it, the arguments it was made
    with, and whether its subprocess runs. *)
Record Command := mkCommand {
  notify : bool;
  cmd_startupArgs : list string;
  cmd_bazelArgs : list string;
  cmd_target : string;
  cmd_args : list string;
  running : bool
}.

Definition commandDefaultCommand (startupArgs bazelArgs : list string) (target : string)
    (args : list string) : Command :=
  mkCommand false startupArgs bazelArgs target args false.

Definition commandNotifyCommand (startupArgs bazelArgs : list string) (target : string)
    (args : list string) : Command :=
  mkCommand true startupArgs bazelArgs target args false.

Definition IsSubprocessRunning (c : Command) : bool := running c.

Definition set_running (b : bool) (c : Command) : Command :=
  mkCommand (notify c) (cmd_startupArgs c) (cmd_bazelArgs c) (cmd_target c) (cmd_args c) b.

Record IBazel := mkIBazel {
  debounceDuration : Z;
  cmd : option Command;
  cmds : option (gmap string Command);
  logFiles : gmap string (option string);
  srcDirToWatch : gmap string (list string);
  bldDirToWatch : gmap string (list string);
  prevDir : string;
  firstBuildPassed : bool;
  args : list string;
  bazelArgs : list string;
  startupArgs : list string;
  interruptCount : Z;
  filesWatched : gmap fSNotifyWatcher (gset string);
  lifecycleListeners : list Lifecycle;
  state : State
}.

Definition set_cmd (v : option Command) (i : IBazel) : IBazel :=
  {| debounceDuration := debounceDuration i;
     cmd := v;
     cmds := cmds i;
     logFiles := logFiles i;
     srcDirToWatch := srcDirToWatch i;
     bldDirToWatch := bldDirToWatch i;
     prevDir := prevDir i;
     firstBuildPassed := firstBuildPassed i;
     args := args i;
     bazelArgs := bazelArgs i;
     startupArgs := startupArgs i;
     interruptCount := interruptCount i;
     filesWatched := filesWatched i;
     lifecycleListeners := lifecycleListeners i;
     state := state i |}.

Definition set_cmds (v : option (gmap string Command)) (i : IBazel) : IBazel :=
  {| debounceDuration := debounceDuration i;
     cmd := cmd i;
     cmds := v;
     logFiles := logFiles i;
     srcDirToWatch := srcDirToWatch i;
     bldDirToWatch := bldDirToWatch i;
     prevDir := prevDir i;
     firstBuildPassed := firstBuildPassed i;
     args := args i;
     bazelArgs := bazelArgs i;
     startupArgs := startupArgs i;
     interruptCount := interruptCount i;
     filesWatched := filesWatched i;
     lifecycleListeners := lifecycleListeners i;
     state := state i |}.

Definition set_logFiles (v : gmap string (option string)) (i : IBazel) : IBazel :=
  {| debounceDuration := debounceDuration i;
     cmd := cmd i;
     cmds := cmds i;
     logFiles := v;
     srcDirToWatch := srcDirToWatch i;
     bldDirToWatch := bldDirToWatch i;
     prevDir := prevDir i;
     firstBuildPassed := firstBuildPassed i;
     args := args i;
     bazelArgs := bazelArgs i;
     startupArgs := startupArgs i;
     interruptCount := interruptCount i;
     filesWatched := filesWatched i;
     lifecycleListeners := lifecycleListeners i;
     state := state i |}.

Definition set_srcDirToWatch (v : gmap string (list string)) (i : IBazel) : IBazel :=
  {| debounceDuration := debounceDuration i;
     cmd := cmd i;
     cmds := cmds i;
     logFiles := logFiles i;
     srcDirToWatch := v;
     bldDirToWatch := bldDirToWatch i;
     prevDir := prevDir i;
     firstBuildPassed := firstBuildPassed i;
     args := args i;
     bazelArgs := bazelArgs i;
     startupArgs := startupArgs i;
     interruptCount := interruptCount i;
     filesWatched := filesWatched i;
     lifecycleListeners := lifecycleListeners i;
     state := state i |}.

Definition set_bldDirToWatch (v : gmap string (list string)) (i : IBazel) : IBazel :=
  {| debounceDuration := debounceDuration i;
     cmd := cmd i;
     cmds := cmds i;
     logFiles := logFiles i;
     srcDirToWatch := srcDirToWatch i;
     bldDirToWatch := v;
     prevDir := prevDir i;
     firstBuildPassed := firstBuildPassed i;
     args := args i;
     bazelArgs := bazelArgs i;
     startupArgs := startupArgs i;
     interruptCount := interruptCount i;
     filesWatched := filesWatched i;
     lifecycleListeners := lifecycleListeners i;
     state := state i |}.

Definition set_prevDir (v : string) (i : IBazel) : IBazel :=
  {| debounceDuration := debounceDuration i;
     cmd := cmd i;
     cmds := cmds i;
     logFiles := logFiles i;
     srcDirToWatch := srcDirToWatch i;
     bldDirToWatch := bldDirToWatch i;
     prevDir := v;
     firstBuildPassed := firstBuildPassed i;
     args := args i;
     bazelArgs := bazelArgs i;
     startupArgs := startupArgs i;
     interruptCount := interruptCount i;
     filesWatched := filesWatched i;
     lifecycleListeners := lifecycleListeners i;
     state := state i |}.

Definition set_firstBuildPassed (v : bool) (i : IBazel) : IBazel :=
  {| debounceDuration := debounceDuration i;
     cmd := cmd i;
     cmds := cmds i;
     logFiles := logFiles i;
     srcDirToWatch := srcDirToWatch i;
     bldDirToWatch := bldDirToWatch i;
     prevDir := prevDir i;
     firstBuildPassed := v;
     args := args i;
     bazelArgs := bazelArgs i;
     startupArgs := startupArgs i;
     interruptCount := interruptCount i;
     filesWatched := filesWatched i;
     lifecycleListeners := lifecycleListeners i;
     state := state i |}.

Definition set_args (v : list string) (i : IBazel) : IBazel :=
  {| debounceDuration := debounceDuration i;
     cmd := cmd i;
     cmds := cmds i;
     logFiles := logFiles i;
     srcDirToWatch := srcDirToWatch i;
     bldDirToWatch := bldDirToWatch i;
     prevDir := prevDir i;
     firstBuildPassed := firstBuildPassed i;
     args := v;
     bazelArgs := bazelArgs i;
     startupArgs := startupArgs i;
     interruptCount := interruptCount i;
     filesWatched := filesWatched i;
     lifecycleListeners := lifecycleListeners i;
     state := state i |}.

Definition set_interruptCount (v : Z) (i : IBazel) : IBazel :=
  {| debounceDuration := debounceDuration i;
     cmd := cmd i;
     cmds := cmds i;
     logFiles := logFiles i;
     srcDirToWatch := srcDirToWatch i;
     bldDirToWatch := bldDirToWatch i;
     prevDir := prevDir i;
     firstBuildPassed := firstBuildPassed i;
     args := args i;
     bazelArgs := bazelArgs i;
     startupArgs := startupArgs i;
     interruptCount := v;
     filesWatched := filesWatched i;
     lifecycleListeners := lifecycleListeners i;
     state := state i |}.

Definition set_filesWatched (v : gmap fSNotifyWatcher (gset string)) (i : IBazel) : IBazel :=
  {| debounceDuration := debounceDuration i;
     cmd := cmd i;
     cmds := cmds i;
     logFiles := logFiles i;
     srcDirToWatch := srcDirToWatch i;
     bldDirToWatch := bldDirToWatch i;
     prevDir := prevDir i;
     firstBuildPassed := firstBuildPassed i;
     args := args i;
     bazelArgs := bazelArgs i;
     startupArgs := startupArgs i;
     interruptCount := interruptCount i;
     filesWatched := v;
     lifecycleListeners := lifecycleListeners i;
     state := state i |}.

Definition set_state (v : State) (i : IBazel) : IBazel :=
  {| debounceDuration := debounceDuration i;
     cmd := cmd i;
     cmds := cmds i;
     logFiles := logFiles i;
     srcDirToWatch := srcDirToWatch i;
     bldDirToWatch := bldDirToWatch i;
     prevDir := prevDir i;
     firstBuildPassed := firstBuildPassed i;
     args := args i;
     bazelArgs := bazelArgs i;
     startupArgs := startupArgs i;
     interruptCount := interruptCount i;
     filesWatched := filesWatched i;
     lifecycleListeners := lifecycleListeners i;
     state := v |}.

(** ** The collaborators *)

(** What the world outside the engine answers.  Within one iteration the
    answer of the build tool depends on the request only. *)
Record Env := mkEnv {
  (** [bazel.Query]: the result pointer (nil or a list of targets) and the error *)
  bazel_Query : string -> option (list blaze_query.Target) * error;
  (** [bazel.CQuery]: the result pointer (nil or the configured targets) and the error *)
  bazel_CQuery : string -> option (list blaze_query.Target) * error;
  bazel_Build : list string -> Buffer * error;
  bazel_Test : list string -> Buffer * error;
  FindWorkspace : string * error;
  (** [os.IsNotExist] of the error of [os.Stat] *)
  os_IsNotExist : string -> bool;
  os_OpenFile : string -> error;
  watcher_Add : fSNotifyWatcher -> string -> error;
  watcher_Remove : fSNotifyWatcher -> string -> error;
  command_Start : Command -> Buffer * error;
  command_AfterRebuild : Command -> Buffer;
  (** the flag [-mrunToFiles] *)
  mrunToFiles : bool;
  (** [log.Fatal] belongs to package [log]: [None] when it returns to its
      caller, [Some c] when it ends the process with code [c] *)
  log_Fatal_exit : option Z
}.

(** Every call that leaves the engine, in program order. *)
Inductive Call :=
| Log_NewLine
| Log_Log (msg : string)
| Log_Logf (format : string) (a : list string)
| Log_Errorf (format : string) (a : list string)
| Log_Fatal (msg : string)
| Println (a : string)
| Bazel (method : string) (a : list string)
| WorkspaceFinder_FindWorkspace
| Os_Stat (name : string)
| Os_MkdirAll (path : string)
| Os_OpenFile (name : string)
| Watcher_Add (w : fSNotifyWatcher) (name : string)
| Watcher_Remove (w : fSNotifyWatcher) (name : string)
| TargetDecider (l : Lifecycle) (rule : option blaze_query.Rule)
| ChangeDetected (l : Lifecycle) (targets : list string) (changeType change : string)
| BeforeCommand (l : Lifecycle) (targets : list string) (command : string)
| AfterCommand (l : Lifecycle) (targets : list string) (command : string)
    (success : bool) (output : Buffer)
| Command_Start (c : Command) (logFile : option string)
| Command_AfterRebuild (c : Command) (logFile : option string)
| Command_BeforeRebuild (c : Command)
| Command_Terminate (c : Command)
| Sigs_Send (sig : Signal)
| Time_Sleep (d : Z).

(** The engine, the calls made so far, and the time spent blocked in
    [select] (the time base of the debounce timer), in nanoseconds. *)
Record World := mkWorld { ib : IBazel; calls : list Call; clock : Z }.

(** How a piece of code ends: it returns, it panics, the process exits, or
    it stays blocked in a [select] none of whose cases is ready. *)
Inductive outcome (A : Type) :=
| Done (a : A)
| Panic (why : string)
| Exit (code : Z)
| Blocked.

Arguments Done {A} a.
Arguments Panic {A} why.
Arguments Exit {A} code.
Arguments Blocked {A}.

Definition M (A : Type) : Type := World -> outcome A * World.

Definition ret {A : Type} (a : A) : M A := fun w => (Done a, w).

Definition bind {A B : Type} (c : M A) (f : A -> M B) : M B := fun w =>
  match c w with
  | (Done a, w') => f a w'
  | (Panic why, w') => (Panic why, w')
  | (Exit code, w') => (Exit code, w')
  | (Blocked, w') => (Blocked, w')
  end.

Declare Scope M_scope.
Delimit Scope M_scope with M.
Bind Scope M_scope with M.

Notation "x ← y ; z" := (bind y (fun x => z))
  (at level 20, y at level 100, z at level 200, only parsing) : M_scope.
Notation "' x ← y ; z" := (bind y (fun x => z))
  (at level 20, x pattern, y at level 100, z at level 200, only parsing) : M_scope.
Notation "x ;; z" := (bind x (fun _ => z))
  (at level 100, z at level 200, only parsing, right associativity) : M_scope.

Local Open Scope M_scope.

(** Worlds that differ from [w] by more calls, by a change of the engine,
    or by time spent blocked. *)
Definition emit (cs : list Call) (w : World) : World :=
  mkWorld (ib w) (calls w ++ cs) (clock w).

Definition with_ib (f : IBazel -> IBazel) (w : World) : World :=
  mkWorld (f (ib w)) (calls w) (clock w).

Definition later (d : Z) (w : World) : World :=
  mkWorld (ib w) (calls w) (clock w + d)%Z.

Definition get : M IBazel := fun w => (Done (ib w), w).

Definition modify (f : IBazel -> IBazel) : M unit := fun w => (Done tt, with_ib f w).

Definition call (c : Call) : M unit := fun w => (Done tt, emit [c] w).

Definition elapse (d : Z) : M unit := fun w => (Done tt, later d w).

Definition panic {A : Type} (why : string) : M A := fun w => (Panic why, w).

(** [var osExit = os.Exit] *)
Definition osExit (code : Z) : M unit := fun w => (Exit code, w).

Definition blocked {A : Type} : M A := fun w => (Blocked, w).

Definition nil_dereference : string := "invalid memory address or nil pointer dereference".
Definition out_of_range : string := "index or slice bounds out of range".

(** [for _, x := range l { body x }] *)
Fixpoint for_each {A : Type} (l : list A) (body : A -> M unit) : M unit :=
  match l with
  | [] => ret tt
  | x :: r => body x ;; for_each r body
  end.

Definition when (b : bool) (c : M unit) : M unit := if b then c else ret tt.

(** ** The engine *)

Section Engine.

Context (env : Env).

Definition Second : Z := 1000000000.
Definition Millisecond : Z := 1000000.

(** *** Package [log] *)

Definition log_Fatal (msg : string) : M unit :=
  call (Log_Fatal msg) ;;
  match log_Fatal_exit env with
  | Some code => osExit code
  | None => ret tt
  end.

(** *** Signals *)

(** Modelled from the spec: [Terminate] of a subprocess handle stops the
    subprocess, and is a no-op on one that is stopped. *)
Definition terminate_running (kv : string * Command) : M unit :=
  let '(target, c) := kv in
  when (IsSubprocessRunning c)
    (call (Command_Terminate c) ;;
     modify (fun i => set_cmds ((fun m => <[target := set_running false c]> m) <$> cmds i) i)).

(** [for _, cmd := range i.cmds { if cmd.IsSubprocessRunning() { cmd.Terminate() } }] *)
Definition terminate_cmds : M unit :=
  i ← get;
  for_each (match cmds i with Some m => map_to_list m | None => [] end) terminate_running.

(** [i.cmd != nil && i.cmd.IsSubprocessRunning()] *)
Definition cmd_running (i : IBazel) : bool :=
  match cmd i with
  | Some c => IsSubprocessRunning c
  | None => false
  end.

(** [i.cmd.Terminate()] *)
Definition terminate_cmd : M unit :=
  i ← get;
  match cmd i with
  | Some c => call (Command_Terminate c) ;; modify (set_cmd (Some (set_running false c)))
  | None => panic nil_dereference
  end.

(** The tail of [handleSignals], after the [switch]. *)
Definition count_interrupt : M unit :=
  modify (fun i => set_interruptCount (interruptCount i + 1)%Z i) ;;
  i ← get;
  when (2 <? interruptCount i)%Z
    (call Log_NewLine ;;
     log_Fatal "Exiting from getting SIGINT 3 times" ;;
     osExit 3).

(** [handleSignals], from the signal it receives on [i.sigs]. *)
Definition handleSignals (sig : Signal) : M unit :=
  match sig with
  | SIGINT =>
      terminate_cmds ;;
      i ← get;
      (if cmd_running i then
         call Log_NewLine ;;
         call (Log_Log "Subprocess killed from getting SIGINT (trigger SIGINT again to stop ibazel)") ;;
         terminate_cmd
       else osExit 3) ;;
      count_interrupt
  | SIGTERM =>
      terminate_cmds ;;
      i ← get;
      when (cmd_running i)
        (call Log_NewLine ;;
         call (Log_Log "Subprocess killed from getting SIGTERM") ;;
         terminate_cmd) ;;
      osExit 3
  | SIGHUP =>
      terminate_cmds ;;
      i ← get;
      when (cmd_running i)
        (call Log_NewLine ;;
         call (Log_Log "Subprocess killed from getting SIGHUP") ;;
         terminate_cmd) ;;
      osExit 3
  | SIGQUIT =>
      log_Fatal "Got a signal that wasn't handled. Please file a bug against bazel-watcher that describes how you did this. This is a big problem." ;;
      count_interrupt
  end.

(** *** The build-tool client and the listeners *)

Definition newBazel : M unit :=
  i ← get;
  call (Bazel "New" []) ;;
  call (Bazel "SetStartupArgs" (startupArgs i)) ;;
  call (Bazel "SetArguments" (bazelArgs i)).

Definition targetDecider (target : string) (rule : option blaze_query.Rule) : M unit :=
  i ← get; for_each (lifecycleListeners i) (fun l => call (TargetDecider l rule)).

Definition changeDetected (targets : list string) (changeType change : string) : M unit :=
  i ← get; for_each (lifecycleListeners i) (fun l => call (ChangeDetected l targets changeType change)).

Definition beforeCommand (targets : list string) (command : string) : M unit :=
  i ← get; for_each (lifecycleListeners i) (fun l => call (BeforeCommand l targets command)).

Definition afterCommand (targets : list string) (command : string) (success : bool)
    (output : Buffer) : M unit :=
  i ← get;
  for_each (lifecycleListeners i) (fun l => call (AfterCommand l targets command success output)).

Definition verb (s : string) : string :=
  if String.eqb s "run" then "running"
  else if String.eqb s "Run" then "Running"
  else s +:+ "ing".

Definition build (targets : list string) : M (Buffer * error) :=
  newBazel ;;
  call (Bazel "Cancel" []) ;;
  call (Bazel "WriteToStderr" ["true"]) ;;
  call (Bazel "WriteToStdout" ["true"]) ;;
  call (Bazel "Build" targets) ;;
  let '(outputBuffer, err) := bazel_Build env targets in
  match err with
  | Some e => call (Log_Errorf "Build error: %v" [e]) ;; ret (outputBuffer, err)
  | None => ret (outputBuffer, None)
  end.

Definition test (targets : list string) : M (Buffer * error) :=
  newBazel ;;
  call (Bazel "Cancel" []) ;;
  call (Bazel "WriteToStderr" ["true"]) ;;
  call (Bazel "WriteToStdout" ["true"]) ;;
  call (Bazel "Test" targets) ;;
  let '(outputBuffer, err) := bazel_Test env targets in
  match err with
  | Some e => call (Log_Errorf "Build error: %v" [e]) ;; ret (outputBuffer, err)
  | None => ret (outputBuffer, err)
  end.

Fixpoint contains (l : list string) (e : string) : bool :=
  match l with
  | [] => false
  | x :: r => if String.eqb x e then true else contains r e
  end.

(** The characters the pattern [[^a-zA-Z0-9-]+] leaves in place. *)
Definition log_name_char (c : ascii) : bool :=
  let n := nat_of_ascii c in
  (((48 <=? n) && (n <=? 57)) || ((65 <=? n) && (n <=? 90))
   || ((97 <=? n) && (n <=? 122)) || (n =? 45))%nat.

Fixpoint strip_log_name (s : string) : string :=
  match s with
  | EmptyString => EmptyString
  | String c r => if log_name_char c then String c (strip_log_name r) else strip_log_name r
  end.

Definition openFileForLogs (fileToOpen : string) : M (option string) :=
  if negb (mrunToFiles env) then ret None
  else
    let processedString := strip_log_name fileToOpen in
    call (Os_MkdirAll "/tmp/running/") ;;
    let filename := "/tmp/running/" +:+ processedString +:+ ".txt" in
    call (Os_OpenFile filename) ;;
    match os_OpenFile env filename with
    | Some err2 => call (Println err2) ;; ret None
    | None => ret (Some filename)
    end.

(** *** Run mode *)

(** The loop of [queryRule]: the rule of the first result of type RULE. *)
Fixpoint first_rule (results : list blaze_query.Target) : option blaze_query.Rule :=
  match results with
  | [] => None
  | blaze_query.Target_RULE r :: _ => Some r
  | _ :: rest => first_rule rest
  end.

Definition queryRule (rule : string) : M (option blaze_query.Rule * error) :=
  newBazel ;;
  call (Bazel "CQuery" [rule]) ;;
  let '(res, err) := bazel_CQuery env rule in
  match err with
  | Some e =>
      call (Log_Errorf "Error running Bazel %v" [e]) ;;
      call (Sigs_Send SIGTERM) ;;
      call (Time_Sleep (10 * Second))
  | None => ret tt
  end ;;
  match res with
  | None => panic nil_dereference
  | Some results =>
      match first_rule results with
      | Some r => ret (Some r, None)
      | None => ret (None, Some "No information available")
      end
  end.

(** The loop of [setupRun] over the attributes of the rule. *)
Fixpoint commandNotify_loop (attrs : list blaze_query.Attribute) (commandNotify : bool) : M bool :=
  match attrs with
  | [] => ret commandNotify
  | attr :: rest =>
      if String.eqb (blaze_query.Name attr) "tags" then
        match blaze_query.Type_ attr with
        | None => panic nil_dereference
        | Some blaze_query.Attribute_STRING_LIST =>
            if contains (blaze_query.StringListValue attr) "ibazel_notify_changes"
            then commandNotify_loop rest true
            else commandNotify_loop rest commandNotify
        | Some _ => commandNotify_loop rest commandNotify
        end
      else commandNotify_loop rest commandNotify
  end.

(** [a[len(a)-argsLength:len(a)]], with Go's bounds check. *)
Definition args_tail (a : list string) (argsLength : Z) : option (list string) :=
  let lo := (Z.of_nat (length a) - argsLength)%Z in
  if ((0 <=? lo) && (lo <=? Z.of_nat (length a)))%Z then Some (drop (Z.to_nat lo) a) else None.

Definition setupRun (target : string) (debugArg : list string) (argsLength : Z) : M Command :=
  '(rule, err) ← queryRule target;
  match err with
  | Some e => call (Log_Errorf "Error: %v" [e])
  | None => ret tt
  end ;;
  targetDecider target rule ;;
  match rule with
  | None => panic nil_dereference
  | Some r =>
      commandNotify ← commandNotify_loop (blaze_query.Rule_Attribute r) false;
      i ← get;
      if commandNotify then
        call (Log_Logf "Launching with notifications" []) ;;
        ret (commandNotifyCommand (startupArgs i) (bazelArgs i) target (args i))
      else
        (if (0 <? length debugArg)%nat then
           match args_tail (args i) argsLength with
           | Some t => modify (set_args (debugArg ++ t))
           | None => panic out_of_range
           end
         else if (-1 <? argsLength)%Z then
           match args_tail (args i) argsLength with
           | Some t => modify (set_args t)
           | None => panic out_of_range
           end
         else ret tt) ;;
        i' ← get;
        ret (commandDefaultCommand (startupArgs i') (bazelArgs i') target (args i'))
  end.

(** Modelled from the spec: [Start] of a subprocess handle; the subprocess
    runs when [Start] reports no error. *)
Definition Start (c : Command) (logFile : option string) : M (Command * Buffer * error) :=
  call (Command_Start c logFile) ;;
  let '(outputBuffer, err) := command_Start env c in
  ret (set_running (is_nil err) c, outputBuffer, err).

Definition AfterRebuild (c : Command) (logFile : option string) : M Buffer :=
  call (Command_AfterRebuild c logFile) ;;
  ret (command_AfterRebuild env c).

Definition run (targets : list string) : M (Buffer * error) :=
  i ← get;
  match cmd i with
  | None =>
      match targets with
      | [] => panic out_of_range
      | target0 :: _ =>
          c ← setupRun target0 [] (-1);
          modify (set_cmd (Some c)) ;;
          '(c', outputBuffer, err) ← Start c None;
          modify (set_cmd (Some c')) ;;
          match err with
          | Some e => call (Log_Errorf "Run start failed %v" [e])
          | None => ret tt
          end ;;
          ret (outputBuffer, err)
      end
  | Some c =>
      call (Log_Logf "Notifying of changes" []) ;;
      outputBuffer ← AfterRebuild c None;
      ret (outputBuffer, None)
  end.

Definition lookup_cmd (i : IBazel) (target : string) : option Command :=
  match cmds i with
  | Some m => m !! target
  | None => None
  end.

Definition lookup_logFile (i : IBazel) (target : string) : option string :=
  match logFiles i !! target with
  | Some f => f
  | None => None
  end.

Definition store_cmd (target : string) (c : Command) (i : IBazel) : IBazel :=
  set_cmds (Some (<[target := c]> (default ∅ (cmds i)))) i.

(** The first pass of [runMultiple]: one command object per target. *)
Fixpoint start_all (targets : list string) (idx : nat) (debugArgs : list (list string))
    (argsLength : Z) (outputBuffers : list Buffer) : M (list Buffer * error) :=
  match targets with
  | [] => ret (outputBuffers, None)
  | target :: rest =>
      logFile ← openFileForLogs target;
      modify (fun i => set_logFiles (<[target := logFile]> (logFiles i)) i) ;;
      match debugArgs !! idx with
      | None => panic out_of_range
      | Some debugArg =>
          newcommand ← setupRun target debugArg argsLength;
          modify (store_cmd target newcommand) ;;
          i ← get;
          '(started, outputBuffer, err) ← Start newcommand (lookup_logFile i target);
          modify (store_cmd target started) ;;
          let outputBuffers := outputBuffers ++ [outputBuffer] in
          match err with
          | Some e =>
              call (Log_Logf "Run start failed %v" [e]) ;;
              ret (outputBuffers, err)
          | None => start_all rest (S idx) debugArgs argsLength outputBuffers
          end
      end
  end.

(** The later passes of [runMultiple]. *)
Fixpoint notify_all (targets : list string) (outputBuffers : list Buffer) : M (list Buffer) :=
  match targets with
  | [] => ret outputBuffers
  | target :: rest =>
      i ← get;
      match lookup_cmd i target with
      | None => panic nil_dereference
      | Some c =>
          b ← AfterRebuild c (lookup_logFile i target);
          notify_all rest (outputBuffers ++ [b])
      end
  end.

Definition runMultiple (targets : list string) (debugArgs : list (list string))
    (argsLength : Z) : M (list Buffer * error) :=
  call (Log_Logf "Rebuilding changed targets" []) ;;
  '(outputBufferBuild, errBuild) ← build targets;
  afterCommand targets "build" (is_nil errBuild) outputBufferBuild ;;
  match errBuild with
  | Some _ => ret ([outputBufferBuild], errBuild)
  | None =>
      modify (set_firstBuildPassed true) ;;
      i ← get;
      match cmds i with
      | None =>
          modify (set_cmds (Some ∅)) ;;
          modify (set_logFiles ∅) ;;
          start_all targets 0 debugArgs argsLength []
      | Some _ =>
          call (Log_Logf "Notifying of changes" []) ;;
          outputBuffers ← notify_all targets [];
          ret (outputBuffers, None)
      end
  end.

(** *** Queries and reconciliation *)

Definition Target_String (t : blaze_query.Target) : string :=
  match t with
  | blaze_query.Target_SOURCE_FILE _ => "SOURCE_FILE"
  | blaze_query.Target_RULE _ => "RULE"
  | blaze_query.Target_GENERATED_FILE => "GENERATED_FILE"
  | blaze_query.Target_PACKAGE_GROUP => "PACKAGE_GROUP"
  | blaze_query.Target_ENVIRONMENT_GROUP => "ENVIRONMENT_GROUP"
  end.

(** The loop of [queryForSourceFiles] over the targets of the result. *)
Fixpoint toWatch_loop (workspacePath : string) (targets : list blaze_query.Target)
    (toWatch : list string) : M (list string) :=
  match targets with
  | [] => ret toWatch
  | blaze_query.Target_SOURCE_FILE label :: rest =>
      if strings.HasPrefix label "@" then toWatch_loop workspacePath rest toWatch
      else if strings.HasPrefix label "//external" then toWatch_loop workspacePath rest toWatch
      else
        let label' :=
          strings.Replace1 (strings.TrimPrefix label "//") ":" filepath.Separator in
        toWatch_loop workspacePath rest (toWatch ++ [filepath.Join workspacePath label'])
  | target :: rest =>
      call (Log_Errorf "%v\n" [Target_String target]) ;;
      toWatch_loop workspacePath rest toWatch
  end.

Definition queryForSourceFiles (query : string) : M (list string * error) :=
  newBazel ;;
  call (Bazel "Query" [query]) ;;
  let '(res, err) := bazel_Query env query in
  match err with
  | Some e =>
      call (Log_Errorf "Bazel query failed: %v" [e]) ;;
      call (Sigs_Send SIGTERM) ;;
      call (Time_Sleep (10 * Second))
  | None => ret tt
  end ;;
  call WorkspaceFinder_FindWorkspace ;;
  let '(workspacePath, err) := FindWorkspace env in
  match err with
  | Some e =>
      call (Log_Errorf "Error finding workspace: %v" [e]) ;;
      call (Sigs_Send SIGTERM) ;;
      call (Time_Sleep (10 * Second))
  | None => ret tt
  end ;;
  match res with
  | None => panic nil_dereference
  | Some targets =>
      toWatch ← toWatch_loop workspacePath targets [];
      ret (toWatch, None)
  end.

(** The three maps [watcherAdd] fills: [filesFound], [filesWatched] and
    [uniqueDirectories]. *)
Definition AddState : Type := gset string * gset string * gmap string (list string).

Fixpoint watcherAdd_loop (watcher : fSNotifyWatcher) (toWatch : list string)
    (st : AddState) : M AddState :=
  match toWatch with
  | [] => ret st
  | file :: rest =>
      let '(filesFound, watched, uniqueDirectories) := st in
      call (Os_Stat file) ;;
      let filesFound := if negb (os_IsNotExist env file) then {[file]} ∪ filesFound else filesFound in
      let parentDirectory := fst (filepath.Split file) in
      match uniqueDirectories !! parentDirectory with
      | Some _ =>
          watcherAdd_loop watcher rest (filesFound, {[file]} ∪ watched, uniqueDirectories)
      | None =>
          call (Watcher_Add watcher parentDirectory) ;;
          match watcher_Add env watcher parentDirectory with
          | Some err =>
              when (negb (strings.HasSuffix (filepath.ToSlash file) "/tools/defaults/BUILD"))
                (call (Log_Errorf "Error watching file %q error: %v" [file; err])) ;;
              watcherAdd_loop watcher rest (filesFound, watched, uniqueDirectories)
          | None =>
              watcherAdd_loop watcher rest
                (filesFound, {[file]} ∪ watched, <[parentDirectory := []]> uniqueDirectories)
          end
      end
  end.

Definition watcherAdd (query : string) (watcher : fSNotifyWatcher) (toWatch : list string)
    (st : AddState) : M AddState :=
  st' ← watcherAdd_loop watcher toWatch st;
  when (size (fst (fst st')) =? 0)%nat
    (call (Log_Errorf "Didn't find any files to watch from query %s" [query])) ;;
  ret st'.

(** [i.filesWatched[watcher]]; a missing key reads as the nil map. *)
Definition watch_set (i : IBazel) (watcher : fSNotifyWatcher) : gset string :=
  default ∅ (filesWatched i !! watcher).

(** The body of the loop of [watcherRemove]. *)
Definition unwatch_stale (dirWatched : gmap string (list string)) (watcher : fSNotifyWatcher)
    (file : string) : M unit :=
  let parentDirectory := fst (filepath.Split file) in
  match dirWatched !! parentDirectory with
  | Some _ => ret tt
  | None =>
      call (Watcher_Remove watcher parentDirectory) ;;
      match watcher_Remove env watcher parentDirectory with
      | Some err => call (Log_Errorf "Error unwatching file %q error: %v\n" [file; err])
      | None => ret tt
      end
  end.

Definition watcherRemove (dirWatched : gmap string (list string)) (watcher : fSNotifyWatcher)
    (watched : gset string) : M unit :=
  i ← get;
  for_each (elements (watch_set i watcher)) (unwatch_stale dirWatched watcher) ;;
  modify (fun i => set_filesWatched (<[watcher := watched]> (filesWatched i)) i).

Definition watchFiles (query : string) (watcher : fSNotifyWatcher) : M unit :=
  '(toWatch, err) ← queryForSourceFiles query;
  match err with
  | Some _ => ret tt
  | None =>
      '(filesFound, watched, uniqueDirectories) ← watcherAdd query watcher toWatch (∅, ∅, ∅);
      watcherRemove uniqueDirectories watcher watched
  end.

(** [containsIdx]: the index of [e] in [l], or -1. *)
Fixpoint containsIdx_from (idx : Z) (l : list string) (e : string) : Z :=
  match l with
  | [] => (-1)%Z
  | x :: r => if String.eqb x e then idx else containsIdx_from (idx + 1)%Z r e
  end.

Definition containsIdx (l : list string) (e : string) : Z := containsIdx_from 0 l e.

(** [deleteIdx]: the last element takes the place of the one at [idx].  It
    is only called with an index found by [containsIdx]. *)
Definition deleteIdx (a : list string) (idx : Z) : list string :=
  match last a with
  | Some x => take (length a - 1) (<[Z.to_nat idx := x]> a)
  | None => a
  end.

(** One round of the inner loop of the first half of [dirWatchedByTarget],
    on the entry of one directory ([None]: the key is not in the map). *)
Definition prune_target (cur : option (list string)) (target : string) : option (list string) :=
  let idx := containsIdx (default [] cur) target in
  let cur' := if (idx =? -1)%Z then cur else Some (deleteIdx (default [] cur) idx) in
  if (length (default [] cur') =? 0)%nat then None else cur'.

Definition record_dir (target : string) (dirStorage : gmap string (list string))
    (file : string) : gmap string (list string) :=
  let parentDirectory := fst (filepath.Split file) in
  let l := default [] (dirStorage !! parentDirectory) in
  if (containsIdx l target =? -1)%Z then <[parentDirectory := l ++ [target]]> dirStorage
  else dirStorage.

Definition dirWatchedByTarget (toWatchByTarget : gmap string (list string))
    (targets : list string) (dirStorage : gmap string (list string))
    : gmap string (list string) :=
  let pruned := omap (fun l => fold_left prune_target targets (Some l)) dirStorage in
  fold_left
    (fun ds target => fold_left (record_dir target) (default [] (toWatchByTarget !! target)) ds)
    targets pruned.

(** [&i.bldDirToWatch] and [&i.srcDirToWatch] *)
Inductive dirStorageRef := ref_bldDirToWatch | ref_srcDirToWatch.

Definition load (r : dirStorageRef) (i : IBazel) : gmap string (list string) :=
  match r with
  | ref_bldDirToWatch => bldDirToWatch i
  | ref_srcDirToWatch => srcDirToWatch i
  end.

Definition store (r : dirStorageRef) (v : gmap string (list string)) (i : IBazel) : IBazel :=
  match r with
  | ref_bldDirToWatch => set_bldDirToWatch v i
  | ref_srcDirToWatch => set_srcDirToWatch v i
  end.

(** The first loop of [watchManyFiles]; [None] when it returns early. *)
Fixpoint queryTargets (query : string) (targets : list string)
    (toWatchByTarget : gmap string (list string)) : M (option (gmap string (list string))) :=
  match targets with
  | [] => ret (Some toWatchByTarget)
  | target :: rest =>
      '(toWatch, err) ← queryForSourceFiles (strings.Sprintf1 query target);
      match err with
      | Some _ => ret None
      | None => queryTargets query rest (<[target := toWatch]> toWatchByTarget)
      end
  end.

(** The second loop of [watchManyFiles]. *)
Fixpoint addTargets (query : string) (watcher : fSNotifyWatcher) (targets : list string)
    (toWatchByTarget : gmap string (list string)) (st : AddState) : M AddState :=
  match targets with
  | [] => ret st
  | target :: rest =>
      st' ← watcherAdd query watcher (default [] (toWatchByTarget !! target)) st;
      addTargets query watcher rest toWatchByTarget st'
  end.

Definition watchManyFiles (query : string) (targets : list string) (watcher : fSNotifyWatcher)
    (dirStorage : dirStorageRef) : M unit :=
  r ← queryTargets query targets ∅;
  match r with
  | None => ret tt
  | Some toWatchByTarget =>
      modify (fun i =>
        store dirStorage (dirWatchedByTarget toWatchByTarget targets (load dirStorage i)) i) ;;
      '(filesFound, watched, uniqueDirectories) ←
        addTargets query watcher targets toWatchByTarget (∅, ∅, ∅);
      i ← get;
      watcherRemove (load dirStorage i) watcher watched
  end.

(** *** The state machine *)

(** What the [select] of an iteration receives: an event on one of the two
    channels, after the loop was blocked for [waited] nanoseconds, or the
    tick of the timer made by [time.After(i.debounceDuration)]. *)
Inductive Select :=
| SourceFileEvents (e : fsnotify.Event) (waited : Z)
| buildFileWatcher_Events (e : fsnotify.Event) (waited : Z)
| time_After.

Definition runnableCommand : Type := list string -> M (Buffer * error).
Definition runnableCommands : Type :=
  list string -> list (list string) -> Z -> M (list Buffer * error).

(** [_, ok := i.filesWatched[watcher][name]] *)
Definition watched_by (i : IBazel) (watcher : fSNotifyWatcher) (name : string) : bool :=
  bool_decide (name ∈ watch_set i watcher).

(** [e.Op&modifyingEvents != 0] *)
Definition modifying (e : fsnotify.Event) : bool :=
  negb (Z.land (fsnotify.Op e) modifyingEvents =? 0)%Z.

Definition State_String (s : State) : string :=
  match s with
  | DEBOUNCE_QUERY => "DEBOUNCE_QUERY"
  | QUERY => "QUERY"
  | WAIT => "WAIT"
  | DEBOUNCE_RUN => "DEBOUNCE_RUN"
  | RUN => "RUN"
  | QUIT => "QUIT"
  end.

Definition iteration (command : string) (commandToRun : runnableCommand)
    (targets : list string) (joinedTargets : string) (sel : Select) : M unit :=
  i ← get;
  match state i with
  | WAIT =>
      match sel with
      | SourceFileEvents e waited =>
          elapse waited ;;
          when (watched_by i sourceFileWatcher (fsnotify.Name e) && modifying e)
            (call (Log_Logf "Changed: %q. Rebuilding..." [fsnotify.Name e]) ;;
             changeDetected targets "source" (fsnotify.Name e) ;;
             modify (set_state DEBOUNCE_RUN))
      | buildFileWatcher_Events e waited =>
          elapse waited ;;
          when (watched_by i buildFileWatcher (fsnotify.Name e) && modifying e)
            (call (Log_Logf "Build graph changed: %q. Requerying..." [fsnotify.Name e]) ;;
             changeDetected targets "graph" (fsnotify.Name e) ;;
             modify (set_state DEBOUNCE_QUERY))
      | time_After => blocked
      end
  | DEBOUNCE_QUERY =>
      match sel with
      | buildFileWatcher_Events e waited =>
          elapse waited ;;
          when (watched_by i buildFileWatcher (fsnotify.Name e) && modifying e)
            (changeDetected targets "graph" (fsnotify.Name e)) ;;
          modify (set_state DEBOUNCE_QUERY)
      | time_After =>
          elapse (debounceDuration i) ;;
          modify (set_state QUERY)
      | SourceFileEvents _ _ => blocked
      end
  | QUERY =>
      call (Log_Logf "Querying for files to watch..." []) ;;
      watchFiles (strings.Sprintf1 buildQuery joinedTargets) buildFileWatcher ;;
      watchFiles (strings.Sprintf1 sourceQuery joinedTargets) sourceFileWatcher ;;
      modify (set_state RUN)
  | DEBOUNCE_RUN =>
      match sel with
      | SourceFileEvents e waited =>
          elapse waited ;;
          when (watched_by i sourceFileWatcher (fsnotify.Name e) && modifying e)
            (changeDetected targets "source" (fsnotify.Name e)) ;;
          modify (set_state DEBOUNCE_RUN)
      | time_After =>
          elapse (debounceDuration i) ;;
          modify (set_state RUN)
      | buildFileWatcher_Events _ _ => blocked
      end
  | RUN =>
      call (Log_Logf "%s %s" [strings.Title (verb command); joinedTargets]) ;;
      beforeCommand targets command ;;
      '(outputBuffer, err) ← commandToRun targets;
      afterCommand targets command (is_nil err) outputBuffer ;;
      modify (set_state WAIT)
  | QUIT => ret tt
  end.

Definition iterationMultiple (command : string) (commandToRun : runnableCommands)
    (targets : list string) (debugArgs : list (list string)) (argsLength : Z)
    (sel : Select) : M unit :=
  i ← get;
  call (Log_Logf "State: %s" [State_String (state i)]) ;;
  match state i with
  | WAIT =>
      match sel with
      | SourceFileEvents e waited =>
          elapse waited ;;
          when (watched_by i sourceFileWatcher (fsnotify.Name e) && modifying e)
            (call (Log_Logf "\nChanged: %q. Rebuilding..." [fsnotify.Name e]) ;;
             changeDetected targets "source" (fsnotify.Name e) ;;
             modify (set_state DEBOUNCE_RUN))
      | buildFileWatcher_Events e waited =>
          elapse waited ;;
          when (watched_by i buildFileWatcher (fsnotify.Name e) && modifying e)
            (call (Log_Logf "\nBuild graph changed: %q. Requerying..." [fsnotify.Name e]) ;;
             changeDetected targets "graph" (fsnotify.Name e) ;;
             modify (set_state DEBOUNCE_QUERY))
      | time_After => blocked
      end
  | DEBOUNCE_QUERY =>
      match sel with
      | buildFileWatcher_Events e waited =>
          elapse waited ;;
          when (watched_by i buildFileWatcher (fsnotify.Name e) && modifying e)
            (changeDetected targets "graph" (fsnotify.Name e)) ;;
          modify (set_prevDir (fst (filepath.Split (fsnotify.Name e)))) ;;
          modify (set_state DEBOUNCE_QUERY)
      | time_After =>
          elapse (debounceDuration i) ;;
          modify (set_state QUERY)
      | SourceFileEvents _ _ => blocked
      end
  | QUERY =>
      call (Log_Logf "Querying for BUILD files..." []) ;;
      (* [var toQuery []string] *)
      let toQuery : list string := [] in
      (* the [toQuery :=] inside the conditional declares a new variable,
         which is gone at the closing brace *)
      let _ :=
        if negb (String.eqb (prevDir i) "") then
          let toQuery := default [] (bldDirToWatch i !! prevDir i) in toQuery
        else [] in
      let toQuery := if (length toQuery =? 0)%nat then targets else toQuery in
      watchManyFiles buildQuery toQuery buildFileWatcher ref_bldDirToWatch ;;
      call (Log_Logf "Querying for source files..." []) ;;
      watchManyFiles sourceQuery toQuery sourceFileWatcher ref_srcDirToWatch ;;
      modify (set_prevDir "") ;;
      modify (set_state RUN)
  | DEBOUNCE_RUN =>
      match sel with
      | SourceFileEvents e waited =>
          elapse waited ;;
          when (watched_by i sourceFileWatcher (fsnotify.Name e) && modifying e)
            (changeDetected targets "source" (fsnotify.Name e)) ;;
          modify (set_prevDir (fst (filepath.Split (fsnotify.Name e)))) ;;
          modify (set_state DEBOUNCE_RUN)
      | time_After =>
          elapse (debounceDuration i) ;;
          modify (set_state RUN)
      | buildFileWatcher_Events _ _ => blocked
      end
  | RUN =>
      match cmds i with
      | Some _ =>
          for_each targets (fun target =>
            i' ← get;
            match lookup_cmd i' target with
            | Some c => call (Command_BeforeRebuild c)
            | None => panic nil_dereference
            end)
      | None => ret tt
      end ;;
      let torun :=
        if negb (String.eqb (prevDir i) "") && firstBuildPassed i
        then default [] (srcDirToWatch i !! prevDir i)
        else targets in
      call (Log_Logf "%s %s" [strings.Title (verb command); strings.Join torun " "]) ;;
      beforeCommand torun command ;;
      '(outputBuffers, err) ← commandToRun torun debugArgs argsLength;
      for_each outputBuffers (fun buffer => afterCommand torun command (is_nil err) buffer) ;;
      modify (set_prevDir "") ;;
      modify (set_state WAIT)
  | QUIT => ret tt
  end.

End Engine.

(** ** Vocabulary of the statements *)

(** One call per listener, in list order. *)
Definition fanout (f : Lifecycle -> Call) (w : World) : list Call :=
  map f (lifecycleListeners (ib w)).

(** The states the single-target loop can be in: [loop] enters with
    [QUERY] and runs [iteration] for ever. *)
Inductive reachable (env : Env) (command : string) (commandToRun : runnableCommand)
    (targets : list string) (joinedTargets : string) : World -> Prop :=
| reachable_entry w :
    state (ib w) = QUERY ->
    reachable env command commandToRun targets joinedTargets w
| reachable_iteration w sel w' :
    reachable env command commandToRun targets joinedTargets w ->
    iteration env command commandToRun targets joinedTargets sel w = (Done tt, w') ->
    reachable env command commandToRun targets joinedTargets w'.

(** The deadline of the pending debounce timer: the next iteration of a
    debouncing state arms [time.After(i.debounceDuration)] when it starts. *)
Definition deadline (w : World) : option Z :=
  match state (ib w) with
  | DEBOUNCE_RUN | DEBOUNCE_QUERY => Some (clock w + debounceDuration (ib w))%Z
  | _ => None
  end.

Definition is_ChangeDetected (c : Call) : bool :=
  match c with ChangeDetected _ _ _ _ => true | _ => false end.

Definition is_command_call (c : Call) : bool :=
  match c with
  | BeforeCommand _ _ _ | AfterCommand _ _ _ _ _ => true
  | _ => false
  end.

Definition is_watcher_call (c : Call) : bool :=
  match c with
  | Watcher_Add _ _ | Watcher_Remove _ _ => true
  | _ => false
  end.

(** The calls made by a piece of code started in [w] and ended in [w']. *)
Definition new_calls (w w' : World) : list Call := drop (length (calls w)) (calls w').

(** The translation of a query result as section 4.3 words it: keep the
    entries of type source file, discard the labels of external
    repositories, rewrite the others to paths under the workspace root. *)
Definition source_file_label (t : blaze_query.Target) : option string :=
  match t with
  | blaze_query.Target_SOURCE_FILE label => Some label
  | _ => None
  end.

Definition external_label (label : string) : bool :=
  strings.HasPrefix label "@" || strings.HasPrefix label "//external".

Definition label_path (workspacePath label : string) : string :=
  filepath.Join workspacePath
    (strings.Replace1 (strings.TrimPrefix label "//") ":" filepath.Separator).

Definition translated (workspacePath : string) (targets : list blaze_query.Target)
    : list string :=
  map (label_path workspacePath)
    (List.filter (fun label => negb (external_label label)) (omap source_file_label targets)).

(** The watcher an event comes from, and the channels the [select] of a
    state has a case for. *)
Definition origin (sel : Select) : option (fSNotifyWatcher * fsnotify.Event * Z) :=
  match sel with
  | SourceFileEvents e waited => Some (sourceFileWatcher, e, waited)
  | buildFileWatcher_Events e waited => Some (buildFileWatcher, e, waited)
  | time_After => None
  end.

Definition listens (s : State) (watcher : fSNotifyWatcher) : bool :=
  match s, watcher with
  | WAIT, _ => true
  | DEBOUNCE_RUN, sourceFileWatcher => true
  | DEBOUNCE_QUERY, buildFileWatcher => true
  | _, _ => false
  end.

(** The subprocess handles the engine manages: the single-target handle
    and the handles of the multi-target map. *)
Definition managed (i : IBazel) : list Command :=
  match cmd i with Some c => [c] | None => [] end
  ++ match cmds i with Some m => (map_to_list m).*2 | None => [] end.

Definition stop (c : Command) : Command := set_running false c.

(** The signals [New] registers for. *)
Definition handled (sig : Signal) : bool :=
  match sig with
  | SIGINT | SIGTERM | SIGHUP => true
  | SIGQUIT => false
  end.

(** One round of the loop of [terminate_cmds], on the map. *)
Definition stop_entry (m : gmap string Command) (kv : string * Command) : gmap string Command :=
  if running kv.2 then <[kv.1 := stop kv.2]> m else m.

Definition stop_cmds (i : IBazel) : IBazel :=
  set_cmds ((fun m : gmap string Command => stop <$> m) <$> cmds i) i.

Definition cmds_list (i : IBazel) : list Command :=
  match cmds i with Some m => (map_to_list m).*2 | None => [] end.

Definition terminations (i : IBazel) : list Call :=
  map Command_Terminate (List.filter running (cmds_list i)).

Definition count (i : IBazel) : IBazel := set_interruptCount (interruptCount i + 1)%Z i.

Definition fatal_code (env : Env) : Z := default 3%Z (log_Fatal_exit env).

Definition sigint_message : string :=
  "Subprocess killed from getting SIGINT (trigger SIGINT again to stop ibazel)".

(** The targets the RUN branch of the multi-target loop runs. *)
Definition torun_of (i : IBazel) (targets : list string) : list string :=
  if negb (String.eqb (prevDir i) "") && firstBuildPassed i
  then default [] (srcDirToWatch i !! prevDir i)
  else targets.

(** From [w] to [w'] the trace grew, the listeners are the same, and the
    beforeCommand and afterCommand calls among the new calls are [l]. *)
Definition grows (w w' : World) (l : list Call) : Prop :=
  exists cs,
    calls w' = calls w ++ cs
    /\ List.filter is_command_call cs = l
    /\ lifecycleListeners (ib w') = lifecycleListeners (ib w).

(** A computation that calls neither beforeCommand nor afterCommand. *)
Definition quiet {A : Type} (c : M A) : Prop := forall w, grows w (c w).2 [].

(** The expressions handed to [bazel.Query], in the order of the calls. *)
Definition query_of (c : Call) : option string :=
  match c with
  | Bazel method [q] => if String.eqb method "Query" then Some q else None
  | _ => None
  end.

Definition queries (cs : list Call) : list string := omap query_of cs.

(** [dirStorage[d]]: the targets a directory is watched for; a missing key
    reads as the nil slice. *)
Definition targets_at (dirStorage : gmap string (list string)) (d : string) : list string :=
  default [] (dirStorage !! d).

(** [toWatchByTarget[target]] *)
Definition files_of (toWatchByTarget : gmap string (list string)) (target : string)
    : list string :=
  default [] (toWatchByTarget !! target).

Definition is_Watcher_Remove (c : Call) : bool :=
  match c with Watcher_Remove _ _ => true | _ => false end.

Definition is_Watcher_Add (c : Call) : bool :=
  match c with Watcher_Add _ _ => true | _ => false end.

(** The arrows of the state graph. *)
Definition successor (s s' : State) : bool :=
  match s, s' with
  | QUERY, RUN => true
  | RUN, WAIT => true
  | WAIT, (WAIT | DEBOUNCE_RUN | DEBOUNCE_QUERY) => true
  | DEBOUNCE_RUN, (DEBOUNCE_RUN | RUN) => true
  | DEBOUNCE_QUERY, (DEBOUNCE_QUERY | QUERY) => true
  | QUIT, QUIT => true
  | _, _ => false
  end.

(** Calls on a subprocess handle or on the rule query. *)
Definition is_subprocess_call (c : Call) : bool :=
  match c with
  | Command_Start _ _ | Command_AfterRebuild _ _ | Command_BeforeRebuild _
  | Command_Terminate _ => true
  | _ => false
  end.

(** The attribute [setupRun] looks for: [tags], a string list, with the
    tag [ibazel_notify_changes]. *)
Definition notify_tags (attr : blaze_query.Attribute) : bool :=
  String.eqb (blaze_query.Name attr) "tags"
  && match blaze_query.Type_ attr with
     | Some blaze_query.Attribute_STRING_LIST => true
     | _ => false
     end
  && contains (blaze_query.StringListValue attr) "ibazel_notify_changes".

Definition typed_tags (attr : blaze_query.Attribute) : Prop :=
  blaze_query.Name attr = "tags" -> blaze_query.Type_ attr <> None.

Fixpoint string_chars (s : string) : list ascii :=
  match s with
  | EmptyString => []
  | String c r => c :: string_chars r
  end.

(** The files the query of one target of the multi-target loop yields. *)
Definition files_queried (env : Env) (query target : string) : list string :=
  translated (FindWorkspace env).1
    (default [] (bazel_Query env (strings.Sprintf1 query target)).1).

(** Calls that touch neither a watcher nor a listener. *)
Definition is_lifecycle_call (c : Call) : bool :=
  match c with
  | TargetDecider _ _ | ChangeDetected _ _ _ _ | BeforeCommand _ _ _
  | AfterCommand _ _ _ _ _ => true
  | _ => false
  end.

Definition internal (cs : list Call) : Prop :=
  Forall (fun c => is_watcher_call c = false /\ is_lifecycle_call c = false) cs.

(** The directory part of a path. *)
Definition dir (file : string) : string := fst (filepath.Split file).

(** Sample collaborators and a sample engine for the concrete runs. *)

(** A workspace at [/ws] where every query succeeds with an empty result. *)
Definition env_ws : Env :=
  {| bazel_Query := fun _ => (Some [], None);
     bazel_CQuery := fun _ => (Some [], None);
     bazel_Build := fun _ => (None, None);
     bazel_Test := fun _ => (None, None);
     FindWorkspace := ("/ws", None);
     os_IsNotExist := fun _ => false;
     os_OpenFile := fun _ => None;
     watcher_Add := fun _ _ => None;
     watcher_Remove := fun _ _ => None;
     command_Start := fun _ => (None, None);
     command_AfterRebuild := fun _ => None;
     mrunToFiles := false;
     log_Fatal_exit := None |}.

Definition with_Query (q : string -> option (list blaze_query.Target) * error) (env : Env) : Env :=
  {| bazel_Query := q;
     bazel_CQuery := bazel_CQuery env;
     bazel_Build := bazel_Build env;
     bazel_Test := bazel_Test env;
     FindWorkspace := FindWorkspace env;
     os_IsNotExist := os_IsNotExist env;
     os_OpenFile := os_OpenFile env;
     watcher_Add := watcher_Add env;
     watcher_Remove := watcher_Remove env;
     command_Start := command_Start env;
     command_AfterRebuild := command_AfterRebuild env;
     mrunToFiles := mrunToFiles env;
     log_Fatal_exit := log_Fatal_exit env |}.

Definition with_CQuery (q : string -> option (list blaze_query.Target) * error) (env : Env) : Env :=
  {| bazel_Query := bazel_Query env;
     bazel_CQuery := q;
     bazel_Build := bazel_Build env;
     bazel_Test := bazel_Test env;
     FindWorkspace := FindWorkspace env;
     os_IsNotExist := os_IsNotExist env;
     os_OpenFile := os_OpenFile env;
     watcher_Add := watcher_Add env;
     watcher_Remove := watcher_Remove env;
     command_Start := command_Start env;
     command_AfterRebuild := command_AfterRebuild env;
     mrunToFiles := mrunToFiles env;
     log_Fatal_exit := log_Fatal_exit env |}.

Definition with_Build (b : list string -> Buffer * error) (env : Env) : Env :=
  {| bazel_Query := bazel_Query env;
     bazel_CQuery := bazel_CQuery env;
     bazel_Build := b;
     bazel_Test := bazel_Test env;
     FindWorkspace := FindWorkspace env;
     os_IsNotExist := os_IsNotExist env;
     os_OpenFile := os_OpenFile env;
     watcher_Add := watcher_Add env;
     watcher_Remove := watcher_Remove env;
     command_Start := command_Start env;
     command_AfterRebuild := command_AfterRebuild env;
     mrunToFiles := mrunToFiles env;
     log_Fatal_exit := log_Fatal_exit env |}.

(** The build tool answers every query with four source files, two of
    them of external repositories, and a rule. *)
Definition env_a : Env :=
  with_Query
    (fun _ =>
       (Some [blaze_query.Target_SOURCE_FILE "//a:x";
              blaze_query.Target_SOURCE_FILE "@r//a:x";
              blaze_query.Target_RULE (blaze_query.mkRule []);
              blaze_query.Target_SOURCE_FILE "//external:x";
              blaze_query.Target_SOURCE_FILE "//:BUILD"], None))
    env_ws.

(** Every query fails; the client hands back an empty result with the
    error, or no result at all. *)
Definition env_query_fails : Env :=
  with_Query (fun _ => (Some [], Some "exit status 1")) env_ws.

Definition env_query_nil : Env :=
  with_Query (fun _ => (None, Some "exit status 1")) env_ws.

(** The engine as [New] leaves it, in the state [s]. *)
Definition engine (s : State) : IBazel :=
  {| debounceDuration := 100 * Millisecond;
     cmd := None;
     cmds := None;
     logFiles := ∅;
     srcDirToWatch := ∅;
     bldDirToWatch := ∅;
     prevDir := "";
     firstBuildPassed := false;
     args := [];
     bazelArgs := [];
     startupArgs := [];
     interruptCount := 0;
     filesWatched := ∅;
     lifecycleListeners := [liveReload; profiler; outputRunner];
     state := s |}.

Definition world (i : IBazel) : World := mkWorld i [] 0.

(** A multi-target engine about to re-query after a change in [/ws/a/],
    the directory watched on behalf of [//a:x] alone. *)
Definition requery_a : IBazel :=
  set_prevDir "/ws/a/" (set_bldDirToWatch {["/ws/a/" := ["//a:x"]]} (engine QUERY)).

(** Every rule query answers with a rule without attributes. *)
Definition env_rule : Env :=
  with_CQuery (fun _ => (Some [blaze_query.Target_RULE (blaze_query.mkRule [])], None)) env_ws.

(** The rule query fails and hands back an empty result. *)
Definition env_rule_fails : Env :=
  with_CQuery (fun _ => (Some [], Some "exit status 1")) env_ws.

(** A multi-target engine with one subprocess, which runs. *)
Definition one_running (s : State) : IBazel :=
  set_cmds (Some {["//a:x" := mkCommand false [] [] "//a:x" [] true]}) (engine s).

(** An engine that watches [/ws/a] for both watchers. *)
Definition watching_a (s : State) : IBazel :=
  set_filesWatched
    (<[sourceFileWatcher := {["/ws/a"]}]> (<[buildFileWatcher := {["/ws/a"]}]> ∅))
    (engine s).

(** ** Properties *)

(** *** The monad and the fan-out to the listeners *)

(** *** Running the monad *)

Lemma emit_nil w : emit [] w = w.
Proof. destruct w; unfold emit; simpl. by rewrite app_nil_r. Qed.

Lemma emit_emit cs cs' w : emit cs' (emit cs w) = emit (cs ++ cs') w.
Proof. unfold emit; simpl. by rewrite app_assoc. Qed.

Lemma ib_emit cs w : ib (emit cs w) = ib w.
Proof. reflexivity. Qed.

Lemma ib_later d w : ib (later d w) = ib w.
Proof. reflexivity. Qed.

Lemma ib_with_ib f w : ib (with_ib f w) = f (ib w).
Proof. reflexivity. Qed.

Lemma fanout_emit f cs w : fanout f (emit cs w) = fanout f w.
Proof. reflexivity. Qed.

Lemma fanout_later f d w : fanout f (later d w) = fanout f w.
Proof. reflexivity. Qed.

Lemma run_ret {A B : Type} (a : A) (f : A -> M B) w : bind (ret a) f w = f a w.
Proof. reflexivity. Qed.

Lemma run_get {B : Type} (f : IBazel -> M B) w : bind get f w = f (ib w) w.
Proof. reflexivity. Qed.

Lemma run_call {B : Type} c (f : unit -> M B) w : bind (call c) f w = f tt (emit [c] w).
Proof. reflexivity. Qed.

Lemma run_modify {B : Type} g (f : unit -> M B) w : bind (modify g) f w = f tt (with_ib g w).
Proof. reflexivity. Qed.

Lemma run_elapse {B : Type} d (f : unit -> M B) w : bind (elapse d) f w = f tt (later d w).
Proof. reflexivity. Qed.

Lemma run_assoc {A B C : Type} (c : M A) (f : A -> M B) (g : B -> M C) w :
  bind (bind c f) g w = bind c (fun a => bind (f a) g) w.
Proof. unfold bind. by destruct (c w) as [[a| | |] w1]. Qed.

Lemma run_when {B : Type} (b : bool) (c : M unit) (f : unit -> M B) w :
  bind (when b c) f w = if b then bind c f w else f tt w.
Proof. by destruct b. Qed.

Lemma when_true (c : M unit) : when true c = c.
Proof. reflexivity. Qed.

Lemma when_false (c : M unit) : when false c = ret tt.
Proof. reflexivity. Qed.

Lemma bind_Done {A B : Type} (c : M A) (f : A -> M B) w b w' :
  bind c f w = (Done b, w') ->
  exists a w1, c w = (Done a, w1) /\ f a w1 = (Done b, w').
Proof.
  unfold bind. destruct (c w) as [[a| | |] w1]; intros H; try discriminate.
  by exists a, w1.
Qed.

Lemma bind_eq {A B : Type} (c : M A) (f : A -> M B) w a w1 :
  c w = (Done a, w1) -> bind c f w = f a w1.
Proof. unfold bind. by intros ->. Qed.

Lemma for_each_call {A : Type} (l : list A) (f : A -> Call) w :
  for_each l (fun x => call (f x)) w = (Done tt, emit (map f l) w).
Proof.
  revert w. induction l as [|x l IH]; intros w; simpl.
  - by rewrite emit_nil.
  - rewrite run_call, IH, emit_emit. reflexivity.
Qed.

Lemma changeDetected_eq targets changeType change w :
  changeDetected targets changeType change w
  = (Done tt, emit (fanout (fun l => ChangeDetected l targets changeType change) w) w).
Proof. unfold changeDetected. rewrite run_get. apply for_each_call. Qed.

Lemma beforeCommand_eq targets command w :
  beforeCommand targets command w
  = (Done tt, emit (fanout (fun l => BeforeCommand l targets command) w) w).
Proof. unfold beforeCommand. rewrite run_get. apply for_each_call. Qed.

Lemma afterCommand_eq targets command success output w :
  afterCommand targets command success output w
  = (Done tt, emit (fanout (fun l => AfterCommand l targets command success output) w) w).
Proof. unfold afterCommand. rewrite run_get. apply for_each_call. Qed.

Lemma targetDecider_eq target rule w :
  targetDecider target rule w
  = (Done tt, emit (fanout (fun l => TargetDecider l rule) w) w).
Proof. unfold targetDecider. rewrite run_get. apply for_each_call. Qed.

Lemma run_changeDetected {B : Type} targets changeType change (f : unit -> M B) w :
  bind (changeDetected targets changeType change) f w
  = f tt (emit (fanout (fun l => ChangeDetected l targets changeType change) w) w).
Proof. apply bind_eq, changeDetected_eq. Qed.

Lemma run_beforeCommand {B : Type} targets command (f : unit -> M B) w :
  bind (beforeCommand targets command) f w
  = f tt (emit (fanout (fun l => BeforeCommand l targets command) w) w).
Proof. apply bind_eq, beforeCommand_eq. Qed.

Lemma run_afterCommand {B : Type} targets command success output (f : unit -> M B) w :
  bind (afterCommand targets command success output) f w
  = f tt (emit (fanout (fun l => AfterCommand l targets command success output) w) w).
Proof. apply bind_eq, afterCommand_eq. Qed.

Lemma run_targetDecider {B : Type} target rule (f : unit -> M B) w :
  bind (targetDecider target rule) f w
  = f tt (emit (fanout (fun l => TargetDecider l rule) w) w).
Proof. apply bind_eq, targetDecider_eq. Qed.

Create HintDb run.

#[local] Hint Rewrite @run_ret @run_get @run_call @run_modify @run_elapse @run_assoc
  @run_when when_true when_false @run_changeDetected @run_beforeCommand @run_afterCommand @run_targetDecider
  fanout_emit fanout_later emit_emit ib_emit ib_later ib_with_ib : run.

Ltac run := repeat (autorewrite with run; cbn [app]).

(** *** The state machine of the single-target loop *)

Section Iteration.

Context (env : Env) (command : string) (commandToRun : runnableCommand).
Context (targets : list string) (joinedTargets : string).

Notation step := (iteration env command commandToRun targets joinedTargets).

Lemma iteration_QUERY w sel w1 w2 :
  state (ib w) = QUERY ->
  watchFiles env (strings.Sprintf1 buildQuery joinedTargets) buildFileWatcher
    (emit [Log_Logf "Querying for files to watch..." []] w) = (Done tt, w1) ->
  watchFiles env (strings.Sprintf1 sourceQuery joinedTargets) sourceFileWatcher w1
    = (Done tt, w2) ->
  step sel w = (Done tt, with_ib (set_state RUN) w2).
Proof.
  intros Hs H1 H2. unfold iteration. rewrite run_get, Hs. run.
  rewrite (bind_eq _ _ _ _ _ H1), (bind_eq _ _ _ _ _ H2). reflexivity.
Qed.

Lemma iteration_RUN w sel outputBuffer err w1 :
  state (ib w) = RUN ->
  commandToRun targets
    (emit (Log_Logf "%s %s" [strings.Title (verb command); joinedTargets]
           :: fanout (fun l => BeforeCommand l targets command) w) w)
    = (Done (outputBuffer, err), w1) ->
  step sel w
  = (Done tt,
     with_ib (set_state WAIT)
       (emit (fanout (fun l => AfterCommand l targets command (is_nil err) outputBuffer) w1) w1)).
Proof.
  intros Hs H1. unfold iteration. rewrite run_get, Hs. run.
  rewrite (bind_eq _ _ _ _ _ H1). run. reflexivity.
Qed.

Lemma iteration_WAIT_source w e waited :
  state (ib w) = WAIT ->
  watched_by (ib w) sourceFileWatcher (fsnotify.Name e) = true ->
  modifying e = true ->
  step (SourceFileEvents e waited) w
  = (Done tt,
     with_ib (set_state DEBOUNCE_RUN)
       (emit (Log_Logf "Changed: %q. Rebuilding..." [fsnotify.Name e]
              :: fanout (fun l => ChangeDetected l targets "source" (fsnotify.Name e)) w)
          (later waited w))).
Proof.
  intros Hs Hw Hm. unfold iteration. rewrite run_get, Hs. run.
  rewrite Hw, Hm. cbn [andb]. run. reflexivity.
Qed.

Lemma iteration_WAIT_build w e waited :
  state (ib w) = WAIT ->
  watched_by (ib w) buildFileWatcher (fsnotify.Name e) = true ->
  modifying e = true ->
  step (buildFileWatcher_Events e waited) w
  = (Done tt,
     with_ib (set_state DEBOUNCE_QUERY)
       (emit (Log_Logf "Build graph changed: %q. Requerying..." [fsnotify.Name e]
              :: fanout (fun l => ChangeDetected l targets "graph" (fsnotify.Name e)) w)
          (later waited w))).
Proof.
  intros Hs Hw Hm. unfold iteration. rewrite run_get, Hs. run.
  rewrite Hw, Hm. cbn [andb]. run. reflexivity.
Qed.

Lemma iteration_DEBOUNCE_RUN_source w e waited :
  state (ib w) = DEBOUNCE_RUN ->
  watched_by (ib w) sourceFileWatcher (fsnotify.Name e) = true ->
  modifying e = true ->
  step (SourceFileEvents e waited) w
  = (Done tt,
     with_ib (set_state DEBOUNCE_RUN)
       (emit (fanout (fun l => ChangeDetected l targets "source" (fsnotify.Name e)) w)
          (later waited w))).
Proof.
  intros Hs Hw Hm. unfold iteration. rewrite run_get, Hs. run.
  rewrite Hw, Hm. cbn [andb]. run. reflexivity.
Qed.

Lemma iteration_DEBOUNCE_QUERY_build w e waited :
  state (ib w) = DEBOUNCE_QUERY ->
  watched_by (ib w) buildFileWatcher (fsnotify.Name e) = true ->
  modifying e = true ->
  step (buildFileWatcher_Events e waited) w
  = (Done tt,
     with_ib (set_state DEBOUNCE_QUERY)
       (emit (fanout (fun l => ChangeDetected l targets "graph" (fsnotify.Name e)) w)
          (later waited w))).
Proof.
  intros Hs Hw Hm. unfold iteration. rewrite run_get, Hs. run.
  rewrite Hw, Hm. cbn [andb]. run. reflexivity.
Qed.

Lemma iteration_DEBOUNCE_RUN_timer w :
  state (ib w) = DEBOUNCE_RUN ->
  step time_After w = (Done tt, with_ib (set_state RUN) (later (debounceDuration (ib w)) w)).
Proof. intros Hs. unfold iteration. rewrite run_get, Hs. run. reflexivity. Qed.

Lemma iteration_DEBOUNCE_QUERY_timer w :
  state (ib w) = DEBOUNCE_QUERY ->
  step time_After w = (Done tt, with_ib (set_state QUERY) (later (debounceDuration (ib w)) w)).
Proof. intros Hs. unfold iteration. rewrite run_get, Hs. run. reflexivity. Qed.

(** No iteration assigns [QUIT]. *)
Lemma iteration_not_QUIT w sel w' :
  step sel w = (Done tt, w') -> state (ib w) <> QUIT -> state (ib w') <> QUIT.
Proof.
  unfold iteration. rewrite run_get. intros H Hq.
  destruct (state (ib w)) eqn:Hs; try congruence.
  - destruct sel as [e waited|e waited|]; try discriminate; revert H; run.
    + destruct (_ && _); run; intros [= <-]; discriminate.
    + intros [= <-]; discriminate.
  - revert H. run. intros H.
    apply bind_Done in H as (? & ? & _ & H).
    apply bind_Done in H as (? & ? & _ & H).
    injection H as <-. discriminate.
  - destruct sel as [e waited|e waited|]; try discriminate; revert H; run.
    + destruct (_ && _); run; intros [= <-]; cbn; congruence.
    + destruct (_ && _); run; intros [= <-]; cbn; congruence.
  - destruct sel as [e waited|e waited|]; try discriminate; revert H; run.
    + destruct (_ && _); run; intros [= <-]; discriminate.
    + intros [= <-]; discriminate.
  - revert H. run. intros H.
    apply bind_Done in H as ([b er] & ? & _ & H).
    revert H. run. intros [= <-]. discriminate.
Qed.

Lemma reachable_not_QUIT w :
  reachable env command commandToRun targets joinedTargets w -> state (ib w) <> QUIT.
Proof.
  induction 1 as [w Hs|w sel w' _ IH Hstep].
  - congruence.
  - eapply iteration_not_QUIT; eassumption.
Qed.

(** C1.  In every state the single-target loop can reach, one iteration does
    what the table of the state machine says: QUERY reconciles the build
    watcher and the source watcher and goes to RUN; RUN fans out
    beforeCommand, runs the command, fans out afterCommand with success set
    when the command returned no error, and goes to WAIT; in WAIT a modifying
    event on a watched source file fans out changeDetected with "source" and
    goes to DEBOUNCE_RUN, one on a watched build file fans out changeDetected
    with "graph" and goes to DEBOUNCE_QUERY; in DEBOUNCE_RUN and
    DEBOUNCE_QUERY such an event of the same class fans out changeDetected
    again and stays, and the tick of the debounce timer, debounceDuration
    after the iteration began, goes to RUN and to QUERY. *)
Theorem iteration_follows_table w :
  reachable env command commandToRun targets joinedTargets w ->
  state (ib w) <> QUIT
  /\ (state (ib w) = QUERY -> forall sel w1 w2,
        watchFiles env (strings.Sprintf1 buildQuery joinedTargets) buildFileWatcher
          (emit [Log_Logf "Querying for files to watch..." []] w) = (Done tt, w1) ->
        watchFiles env (strings.Sprintf1 sourceQuery joinedTargets) sourceFileWatcher w1
          = (Done tt, w2) ->
        step sel w = (Done tt, with_ib (set_state RUN) w2))
  /\ (state (ib w) = RUN -> forall sel outputBuffer err w1,
        commandToRun targets
          (emit (Log_Logf "%s %s" [strings.Title (verb command); joinedTargets]
                 :: fanout (fun l => BeforeCommand l targets command) w) w)
          = (Done (outputBuffer, err), w1) ->
        step sel w
        = (Done tt,
           with_ib (set_state WAIT)
             (emit (fanout (fun l =>
                      AfterCommand l targets command (is_nil err) outputBuffer) w1) w1)))
  /\ (state (ib w) = WAIT -> forall e waited,
        modifying e = true ->
        (watched_by (ib w) sourceFileWatcher (fsnotify.Name e) = true ->
         step (SourceFileEvents e waited) w
         = (Done tt,
            with_ib (set_state DEBOUNCE_RUN)
              (emit (Log_Logf "Changed: %q. Rebuilding..." [fsnotify.Name e]
                     :: fanout (fun l =>
                          ChangeDetected l targets "source" (fsnotify.Name e)) w)
                 (later waited w))))
        /\ (watched_by (ib w) buildFileWatcher (fsnotify.Name e) = true ->
            step (buildFileWatcher_Events e waited) w
            = (Done tt,
               with_ib (set_state DEBOUNCE_QUERY)
                 (emit (Log_Logf "Build graph changed: %q. Requerying..." [fsnotify.Name e]
                        :: fanout (fun l =>
                             ChangeDetected l targets "graph" (fsnotify.Name e)) w)
                    (later waited w)))))
  /\ (state (ib w) = DEBOUNCE_RUN ->
        (forall e waited,
           modifying e = true ->
           watched_by (ib w) sourceFileWatcher (fsnotify.Name e) = true ->
           step (SourceFileEvents e waited) w
           = (Done tt,
              with_ib (set_state DEBOUNCE_RUN)
                (emit (fanout (fun l =>
                         ChangeDetected l targets "source" (fsnotify.Name e)) w)
                   (later waited w))))
        /\ step time_After w
           = (Done tt, with_ib (set_state RUN) (later (debounceDuration (ib w)) w)))
  /\ (state (ib w) = DEBOUNCE_QUERY ->
        (forall e waited,
           modifying e = true ->
           watched_by (ib w) buildFileWatcher (fsnotify.Name e) = true ->
           step (buildFileWatcher_Events e waited) w
           = (Done tt,
              with_ib (set_state DEBOUNCE_QUERY)
                (emit (fanout (fun l =>
                         ChangeDetected l targets "graph" (fsnotify.Name e)) w)
                   (later waited w))))
        /\ step time_After w
           = (Done tt, with_ib (set_state QUERY) (later (debounceDuration (ib w)) w))).
Proof.
  intros Hr. split; [by apply reachable_not_QUIT|].
  repeat split; intros;
    eauto using iteration_QUERY, iteration_RUN, iteration_WAIT_source, iteration_WAIT_build,
      iteration_DEBOUNCE_RUN_source, iteration_DEBOUNCE_RUN_timer,
      iteration_DEBOUNCE_QUERY_build, iteration_DEBOUNCE_QUERY_timer.
Qed.

End Iteration.
(** *** Queries *)

Lemma internal_nil : internal [].
Proof. constructor. Qed.

Lemma internal_app cs cs' : internal cs -> internal cs' -> internal (cs ++ cs').
Proof. apply Forall_app_2. Qed.

Lemma internal_cons c cs :
  is_watcher_call c = false -> is_lifecycle_call c = false -> internal cs -> internal (c :: cs).
Proof. intros. by constructor. Qed.

Create HintDb internal.

#[local] Hint Resolve internal_nil internal_app internal_cons : internal.

Ltac solve_internal :=
  repeat first
    [ assumption
    | apply internal_nil
    | apply internal_app
    | apply internal_cons; [reflexivity|reflexivity|] ].

Lemma internal_no_watcher_call cs : internal cs -> List.filter is_watcher_call cs = [].
Proof.
  induction 1 as [|c cs [Hc _] _ IH]; [done|]. simpl. by rewrite Hc.
Qed.

Lemma internal_no_lifecycle_call cs : internal cs -> List.filter is_lifecycle_call cs = [].
Proof.
  induction 1 as [|c cs [_ Hc] _ IH]; [done|]. simpl. by rewrite Hc.
Qed.

Lemma translated_cons_source ws label targets :
  translated ws (blaze_query.Target_SOURCE_FILE label :: targets)
  = (if external_label label then [] else [label_path ws label]) ++ translated ws targets.
Proof.
  unfold translated. simpl. by destruct (external_label label).
Qed.

Lemma translated_cons_other ws t targets :
  source_file_label t = None -> translated ws (t :: targets) = translated ws targets.
Proof. unfold translated. simpl. by intros ->. Qed.

Lemma toWatch_loop_other ws t targets toWatch w :
  source_file_label t = None ->
  toWatch_loop ws (t :: targets) toWatch w
  = toWatch_loop ws targets toWatch (emit [Log_Errorf "%v\n" [Target_String t]] w).
Proof. by destruct t. Qed.

Lemma toWatch_loop_eq ws targets toWatch w :
  exists cs,
    toWatch_loop ws targets toWatch w = (Done (toWatch ++ translated ws targets), emit cs w)
    /\ internal cs.
Proof.
  revert toWatch w.
  induction targets as [|t targets IH]; intros toWatch w.
  - exists []. simpl. rewrite emit_nil, app_nil_r. auto with internal.
  - destruct (source_file_label t) as [label|] eqn:Ht.
    + destruct t; try discriminate. injection Ht as ->.
      rewrite translated_cons_source. unfold external_label. simpl.
      destruct (strings.HasPrefix label "@") eqn:H1; simpl.
      { destruct (IH toWatch w) as (cs & -> & Hcs). eauto. }
      destruct (strings.HasPrefix label "//external") eqn:H2; simpl.
      { destruct (IH toWatch w) as (cs & -> & Hcs). eauto. }
      destruct (IH (toWatch ++ [label_path ws label]) w) as (cs & Heq & Hcs).
      exists cs. split; [|done]. rewrite <- app_assoc in Heq. exact Heq.
    + rewrite toWatch_loop_other, translated_cons_other by done.
      destruct (IH toWatch (emit [Log_Errorf "%v\n" [Target_String t]] w)) as (cs & -> & Hcs).
      eexists; split; [by rewrite emit_emit|]. auto with internal.
Qed.

(** What [queryForSourceFiles] does around the loop: the calls to the build
    tool and to the workspace finder, and the self-signal of the two error
    branches. *)
Lemma queryForSourceFiles_eq env query w :
  exists cs,
    internal cs /\
    queryForSourceFiles env query w
    = match (bazel_Query env query).1 with
      | Some targets => (Done (translated (FindWorkspace env).1 targets, None), emit cs w)
      | None => (Panic nil_dereference, emit cs w)
      end.
Proof.
  unfold queryForSourceFiles.
  destruct (bazel_Query env query) as [res err].
  destruct (FindWorkspace env) as [ws err'].
  unfold newBazel. run. cbn [fst].
  set (w1 := emit _ w).
  assert (Hw1 : exists cs, internal cs /\ w1 = emit cs w)
    by (eexists; split; [|reflexivity]; solve_internal).
  clearbody w1.
  assert (Hsig : forall (msg : string) (e : error) w2,
    (exists cs, internal cs /\ w2 = emit cs w) ->
    exists w3,
      (exists cs, internal cs /\ w3 = emit cs w) /\
      forall B (f : unit -> M B),
        bind (match e with
              | Some e0 =>
                  call (Log_Errorf msg [e0]) ;; call (Sigs_Send SIGTERM) ;;
                  call (Time_Sleep (10 * Second))
              | None => ret tt
              end) f w2 = f tt w3).
  { intros msg e w2 (cs & Hcs & ->). destruct e as [e0|].
    - eexists. split; [|intros; run; reflexivity].
      eexists; split; [|reflexivity]. solve_internal.
    - exists (emit cs w). split; [eauto|]. intros; by run. }
  destruct (Hsig "Bazel query failed: %v" err w1 Hw1) as (w2 & Hw2 & ->).
  run.
  assert (Hw2' : exists cs, internal cs /\ emit [WorkspaceFinder_FindWorkspace] w2 = emit cs w).
  { destruct Hw2 as (cs & Hcs & ->). rewrite emit_emit. eexists; split; [|reflexivity].
    solve_internal. }
  destruct (Hsig "Error finding workspace: %v" err' _ Hw2') as (w3 & (cs3 & Hcs3 & ->) & ->).
  destruct res as [targets|].
  - destruct (toWatch_loop_eq ws targets [] (emit cs3 w)) as (cs & Heq & Hcs).
    rewrite (bind_eq _ _ _ _ _ Heq). run. cbn [app].
    exists (cs3 ++ cs). split; [by apply internal_app|reflexivity].
  - exists cs3. split; [done|reflexivity].
Qed.

(** C9.  From a query result, [queryForSourceFiles] keeps the entries of
    type source file whose label starts neither with "@" nor with
    "//external", in the order of the result, and turns each kept label into
    the workspace root joined with the label, its leading "//" stripped and
    its first ":" replaced by the path separator. *)
Theorem queryForSourceFiles_translates env query targets err w :
  bazel_Query env query = (Some targets, err) ->
  exists w',
    queryForSourceFiles env query w
    = (Done (map (fun label =>
                    filepath.Join (FindWorkspace env).1
                      (strings.Replace1 (strings.TrimPrefix label "//") ":"
                         filepath.Separator))
               (List.filter
                  (fun label =>
                     negb (strings.HasPrefix label "@")
                     && negb (strings.HasPrefix label "//external"))
                  (omap source_file_label targets)),
             None), w')
    /\ ib w' = ib w.
Proof.
  intros Hq. destruct (queryForSourceFiles_eq env query w) as (cs & Hcs & Heq).
  rewrite Hq in Heq. cbn [fst] in Heq. exists (emit cs w). split; [|done].
  rewrite Heq. unfold translated, label_path, external_label.
  erewrite List.filter_ext; [reflexivity|].
  intros label. cbv beta. by rewrite negb_orb.
Qed.
(** *** Reconciliation *)

Lemma new_calls_emit f cs w : new_calls w (with_ib f (emit cs w)) = cs.
Proof. unfold new_calls. simpl. by rewrite drop_app_length. Qed.

Lemma new_calls_emit' cs w : new_calls w (emit cs w) = cs.
Proof. unfold new_calls. simpl. by rewrite drop_app_length. Qed.

(** The loop of [watcherRemove]: one [Remove] for every file whose
    directory is not a key of [dirWatched]. *)
Lemma watcherRemove_loop env (dirWatched : gmap string (list string)) watcher
    (files : list string) w :
  exists cs,
    for_each files (unwatch_stale env dirWatched watcher) w = (Done tt, emit cs w)
    /\ List.filter is_watcher_call cs
       = map (fun file => Watcher_Remove watcher (dir file))
           (List.filter (fun file => is_nil (dirWatched !! dir file)) files)
    /\ List.filter is_lifecycle_call cs = [].
Proof.
  revert w. induction files as [|file files IH]; intros w.
  - exists []. simpl. by rewrite emit_nil.
  - cbn [for_each List.filter]. unfold unwatch_stale at 1. cbv zeta. fold (dir file).
    destruct (dirWatched !! dir file) as [l|] eqn:Hd; cbn [is_nil].
    + rewrite run_ret. apply IH.
    + run. destruct (watcher_Remove env watcher (dir file)) as [err|]; run;
        match goal with
        | |- context [for_each _ _ ?w'] => destruct (IH w') as (cs & -> & Hw & Hl)
        end;
        (eexists; split; [by rewrite emit_emit|]);
        rewrite !List.filter_app, Hw, Hl; by split.
Qed.

Lemma watcherRemove_eq env dirWatched watcher watched w :
  exists cs,
    watcherRemove env dirWatched watcher watched w
    = (Done tt,
       with_ib (fun i => set_filesWatched (<[watcher := watched]> (filesWatched i)) i)
         (emit cs w))
    /\ List.filter is_watcher_call cs
       = map (fun file => Watcher_Remove watcher (dir file))
           (List.filter (fun file => is_nil (dirWatched !! dir file))
              (elements (watch_set (ib w) watcher)))
    /\ List.filter is_lifecycle_call cs = [].
Proof.
  unfold watcherRemove. rewrite run_get.
  destruct (watcherRemove_loop env dirWatched watcher (elements (watch_set (ib w) watcher)) w)
    as (cs & Heq & Hw & Hl).
  exists cs. split; [|by split].
  by rewrite (bind_eq _ _ _ _ _ Heq).
Qed.

Lemma watch_set_insert watcher watched i :
  watch_set (set_filesWatched (<[watcher := watched]> (filesWatched i)) i) watcher = watched.
Proof. unfold watch_set. simpl. by rewrite lookup_insert_eq. Qed.

Lemma filter_all_true {A : Type} (l : list A) : List.filter (fun _ => true) l = l.
Proof. induction l; simpl; congruence. Qed.

(** A result without a file to watch, whether or not the query failed. *)
Lemma watchFiles_no_files env query watcher targets err w :
  bazel_Query env query = (Some targets, err) ->
  translated (FindWorkspace env).1 targets = [] ->
  exists w',
    watchFiles env query watcher w = (Done tt, w')
    /\ In (Log_Errorf "Didn't find any files to watch from query %s" [query]) (new_calls w w')
    /\ watch_set (ib w') watcher = ∅
    /\ List.filter is_watcher_call (new_calls w w')
       = map (fun file => Watcher_Remove watcher (dir file))
           (elements (watch_set (ib w) watcher)).
Proof.
  intros Hq Hempty. unfold watchFiles.
  destruct (queryForSourceFiles_eq env query w) as (cs & Hcs & Heq).
  rewrite Hq in Heq. cbn [fst] in Heq. rewrite Hempty in Heq.
  rewrite (bind_eq _ _ _ _ _ Heq). unfold watcherAdd. cbn [watcherAdd_loop].
  run.
  destruct (watcherRemove_eq env ∅ watcher ∅
              (emit (cs ++ [Log_Errorf "Didn't find any files to watch from query %s" [query]]) w))
    as (cs' & -> & Hw & Hl).
  rewrite emit_emit. eexists. split; [reflexivity|].
  rewrite new_calls_emit. split; [|split].
  - apply in_or_app. left. apply in_or_app. right. by left.
  - cbn [ib with_ib]. apply watch_set_insert.
  - rewrite !List.filter_app, Hw, (internal_no_watcher_call _ Hcs). cbn [List.filter app is_watcher_call].
    rewrite ib_emit. f_equal.
    erewrite List.filter_ext; [apply filter_all_true|].
    intros file. cbv beta. by rewrite lookup_empty.
Qed.

(** *** Events on files that are not watched *)

Lemma set_state_same i : set_state (state i) i = i.
Proof. by destruct i. Qed.

Lemma with_ib_id w : with_ib (fun i => i) w = w.
Proof. by destruct w. Qed.

(** C2, as the code has it.  An event whose name is not in the watch set of
    the watcher it comes from makes no listener hear changeDetected and
    leaves the state value as it is, in the single-target and in the
    multi-target loop.  In WAIT nothing else changes either.  In
    DEBOUNCE_RUN and DEBOUNCE_QUERY the iteration ends all the same, so the
    next one arms a new timer: the deadline becomes the time of receipt plus
    debounceDuration; and the multi-target loop stores the directory of the
    event in prevDir. *)
Theorem unwatched_event env command commandToRun commandsToRun targets joinedTargets
    debugArgs argsLength sel watcher e waited w :
  origin sel = Some (watcher, e, waited) ->
  listens (state (ib w)) watcher = true ->
  watched_by (ib w) watcher (fsnotify.Name e) = false ->
  exists w1 wm,
    iteration env command commandToRun targets joinedTargets sel w = (Done tt, w1)
    /\ iterationMultiple env command commandsToRun targets debugArgs argsLength sel w
       = (Done tt, wm)
    /\ List.filter is_ChangeDetected (new_calls w w1) = []
    /\ List.filter is_ChangeDetected (new_calls w wm) = []
    /\ state (ib w1) = state (ib w)
    /\ state (ib wm) = state (ib w)
    /\ ib w1 = ib w
    /\ clock w1 = (clock w + waited)%Z
    /\ clock wm = (clock w + waited)%Z
    /\ (state (ib w) = WAIT -> ib wm = ib w)
    /\ (state (ib w) <> WAIT ->
        ib wm = set_prevDir (dir (fsnotify.Name e)) (ib w)
        /\ deadline w1 = Some (clock w + waited + debounceDuration (ib w))%Z
        /\ deadline wm = Some (clock w + waited + debounceDuration (ib w))%Z).
Proof.
  intros Ho Hl Hw.
  unfold iteration, iterationMultiple. rewrite !run_get. run.
  destruct sel as [e' t|e' t|]; try discriminate; injection Ho as <- <- <-;
    destruct (state (ib w)) eqn:Hs; try discriminate; run; rewrite Hw; cbn [andb]; run;
    (eexists; eexists; split; [reflexivity|]; split; [reflexivity|]);
    unfold new_calls, deadline; cbn [calls ib clock emit later with_ib state set_state set_prevDir];
    rewrite ?drop_app_length, ?drop_all;
    repeat split; try done; try (rewrite <- Hs; apply set_state_same);
    try (intros _; rewrite <- Hs; by destruct (ib w));
    unfold dir; rewrite <- Hs; by destruct (ib w).
Qed.
(** *** Signals *)

Lemma stop_idle c : running c = false -> stop c = c.
Proof. destruct c; simpl. by intros ->. Qed.

Lemma running_stop c : running (stop c) = false.
Proof. reflexivity. Qed.

Lemma terminate_loop l m w :
  cmds (ib w) = Some m ->
  for_each l terminate_running w
  = (Done tt,
     with_ib (set_cmds (Some (foldl stop_entry m l)))
       (emit (map Command_Terminate (List.filter running l.*2)) w)).
Proof.
  revert m w. induction l as [|[k c] l IH]; intros m w Hm.
  - simpl. rewrite emit_nil. destruct w as [i cs t]. simpl in *.
    unfold with_ib. simpl. f_equal. f_equal. destruct i; simpl in *. by rewrite Hm.
  - cbn [for_each]. unfold terminate_running at 1. unfold IsSubprocessRunning.
    cbn [fmap list_fmap snd List.filter foldl]. unfold stop_entry at 2. cbn [fst snd].
    destruct (running c) eqn:Hc.
    + run. erewrite IH; [|simpl; rewrite Hm; reflexivity].
      cbn [map]. f_equal. destruct w as [i cs t]. unfold with_ib, emit. simpl.
      by rewrite <- app_assoc.
    + run. by rewrite (IH m w Hm).
Qed.

Lemma foldl_stop_entry_lookup (l : list (string * Command)) m k :
  NoDup l.*1 ->
  foldl stop_entry m l !! k
  = match (list_to_map l : gmap string Command) !! k with
    | Some c => if running c then Some (stop c) else m !! k
    | None => m !! k
    end.
Proof.
  revert m. induction l as [|[k1 c1] l IH]; intros m Hnd.
  - simpl. by rewrite lookup_empty.
  - apply NoDup_cons in Hnd as [Hk1 Hnd]. cbn [foldl]. rewrite (IH _ Hnd).
    cbn [list_to_map foldr]. unfold stop_entry. cbn [fst snd].
    destruct (decide (k1 = k)) as [->|Hne].
    + rewrite lookup_insert_eq.
      rewrite (not_elem_of_list_to_map_1 (M:=gmap string) l k Hk1).
      destruct (running c1); [by rewrite lookup_insert_eq|done].
    + rewrite lookup_insert_ne by done.
      destruct (running c1); [|done]. by rewrite lookup_insert_ne.
Qed.

Lemma foldl_stop_entry_map (m : gmap string Command) :
  foldl stop_entry m (map_to_list m) = stop <$> m.
Proof.
  apply map_eq. intros k.
  rewrite foldl_stop_entry_lookup by apply NoDup_fst_map_to_list.
  rewrite list_to_map_to_list, lookup_fmap.
  destruct (m !! k) as [c|] eqn:Hk; [|done]. simpl.
  destruct (running c) eqn:Hc; [done|]. by rewrite stop_idle.
Qed.

Lemma terminate_cmds_eq w :
  terminate_cmds w = (Done tt, with_ib stop_cmds (emit (terminations (ib w)) w)).
Proof.
  unfold terminate_cmds. rewrite run_get. unfold terminations, cmds_list, stop_cmds.
  destruct (cmds (ib w)) as [m|] eqn:Hm.
  - rewrite (terminate_loop _ m w Hm), foldl_stop_entry_map.
    unfold with_ib. cbn [ib emit]. by rewrite Hm.
  - simpl. rewrite emit_nil. destruct w as [i cs t]. unfold with_ib. simpl in *.
    rewrite Hm. simpl. destruct i; simpl in *. by rewrite Hm.
Qed.

Lemma run_terminate_cmds {B : Type} (f : unit -> M B) w :
  bind terminate_cmds f w = f tt (with_ib stop_cmds (emit (terminations (ib w)) w)).
Proof. apply bind_eq, terminate_cmds_eq. Qed.

Lemma count_interrupt_eq env w :
  count_interrupt env w
  = if (2 <? interruptCount (ib w) + 1)%Z
    then (Exit (fatal_code env),
          emit [Log_NewLine; Log_Fatal "Exiting from getting SIGINT 3 times"] (with_ib count w))
    else (Done tt, with_ib count w).
Proof.
  unfold count_interrupt. run. fold count. cbn [interruptCount count set_interruptCount].
  destruct (2 <? interruptCount (ib w) + 1)%Z; [|reflexivity].
  run. unfold log_Fatal, fatal_code. run.
  by destruct (log_Fatal_exit env).
Qed.

Lemma cmds_list_stop i c : In c (cmds_list (stop_cmds i)) -> running c = false.
Proof.
  unfold cmds_list, stop_cmds. simpl. destruct (cmds i) as [m|]; simpl; [|done].
  intros Hin. apply list_elem_of_In, list_elem_of_fmap in Hin as ([k c'] & -> & Hin).
  apply elem_of_map_to_list in Hin. rewrite lookup_fmap in Hin.
  destruct (m !! k); simpl in Hin; [|done]. by injection Hin as <-.
Qed.

Lemma in_terminations i c :
  In (Command_Terminate c) (terminations i) <-> running c = true /\ In c (cmds_list i).
Proof.
  unfold terminations. rewrite in_map_iff. split.
  - intros (c' & [= ->] & Hin). apply filter_In in Hin. tauto.
  - intros [Hr Hin]. exists c. split; [done|]. apply filter_In. tauto.
Qed.

(** [handleSignals] on SIGINT, case by case. *)
Lemma handleSignals_SIGINT_eq env w :
  handleSignals env SIGINT w
  = match cmd (ib w) with
    | Some c0 =>
        if running c0 then
          let w1 :=
            with_ib (fun i => count (set_cmd (Some (stop c0)) (stop_cmds i)))
              (emit (terminations (ib w)
                     ++ [Log_NewLine; Log_Log sigint_message; Command_Terminate c0]) w) in
          if (2 <? interruptCount (ib w) + 1)%Z
          then (Exit (fatal_code env),
                emit [Log_NewLine; Log_Fatal "Exiting from getting SIGINT 3 times"] w1)
          else (Done tt, w1)
        else (Exit 3, with_ib stop_cmds (emit (terminations (ib w)) w))
    | None => (Exit 3, with_ib stop_cmds (emit (terminations (ib w)) w))
    end.
Proof.
  unfold handleSignals. rewrite run_terminate_cmds, run_get.
  change (cmd_running (ib (with_ib stop_cmds (emit (terminations (ib w)) w))))
    with (cmd_running (ib w)).
  unfold cmd_running, IsSubprocessRunning.
  destruct (cmd (ib w)) as [c0|] eqn:Hcmd; [destruct (running c0) eqn:Hrun|].
  - run. unfold terminate_cmd. run. cbn [ib with_ib stop_cmds cmd set_cmds]. rewrite Hcmd. run.
    rewrite count_interrupt_eq. cbn [ib with_ib emit interruptCount set_cmd stop_cmds set_cmds].
    cbv zeta. unfold emit, with_ib. cbn [ib calls clock]. rewrite <- !app_assoc.
    destruct (2 <? interruptCount (ib w) + 1)%Z; reflexivity.
  - reflexivity.
  - reflexivity.
Qed.

Lemma managed_stopped c0 i c :
  In c (managed (count (set_cmd (Some (stop c0)) (stop_cmds i)))) -> running c = false.
Proof.
  unfold managed. cbn [cmd count set_interruptCount set_cmd].
  intros [Hin|Hin]%in_app_iff.
  - by destruct Hin as [<-|[]].
  - by apply (cmds_list_stop i).
Qed.

Lemma managed_stop_cmds i c :
  cmd_running i = false -> In c (managed (stop_cmds i)) -> running c = false.
Proof.
  unfold managed, cmd_running, IsSubprocessRunning. cbn [cmd stop_cmds set_cmds].
  intros Hidle [Hin|Hin]%in_app_iff.
  - destruct (cmd i) as [c0|]; [|done]. by destruct Hin as [<-|[]].
  - by apply (cmds_list_stop i).
Qed.

(** C4, as the code has it.  On the first or the second handled interrupt
    the handler calls Terminate on every managed subprocess that runs, the
    single-target handle and the handles of the multi-target map alike, and
    on no other; afterwards none of them runs.  The process stays alive
    exactly when the single-target handle is set and its subprocess was
    running; otherwise it exits with code 3, also when subprocesses of the
    multi-target map were running. *)
Theorem handleSignals_SIGINT env w :
  (interruptCount (ib w) < 2)%Z ->
  exists w',
    handleSignals env SIGINT w = (if cmd_running (ib w) then Done tt else Exit 3, w')
    /\ (forall c, In (Command_Terminate c) (new_calls w w')
                 <-> running c = true /\ In c (managed (ib w)))
    /\ (forall c, In c (managed (ib w')) -> running c = false).
Proof.
  intros Hcount. rewrite handleSignals_SIGINT_eq.
  pose proof (managed_stop_cmds (ib w)) as Hstop.
  unfold cmd_running, IsSubprocessRunning, managed in *. fold (cmds_list (ib w)).
  destruct (cmd (ib w)) as [c0|] eqn:Hcmd; [destruct (running c0) eqn:Hrun|].
  - cbv zeta. destruct (Z.ltb_spec 2 (interruptCount (ib w) + 1)); [lia|].
    eexists. split; [reflexivity|]. rewrite new_calls_emit. split.
    + intros c. rewrite in_app_iff, in_terminations. cbn [In app]. split.
      * intros [[Hr Hin]|[?|[?|[[= <-]|[]]]]]; try discriminate; tauto.
      * intros [Hr [<-|Hin]]; tauto.
    + intros c. cbn [ib with_ib emit]. apply managed_stopped.
  - eexists. split; [reflexivity|]. rewrite new_calls_emit. split.
    + intros c. rewrite in_terminations. cbn [app In]. split; [tauto|].
      intros [Hr [<-|Hin]]; [congruence|done].
    + intros c. cbn [ib with_ib emit]. by apply Hstop.
  - eexists. split; [reflexivity|]. rewrite new_calls_emit. split.
    + intros c. rewrite in_terminations. cbn [app]. tauto.
    + intros c. cbn [ib with_ib emit]. by apply Hstop.
Qed.

(** [handleSignals] on SIGTERM and on SIGHUP. *)
Lemma handleSignals_SIGTERM_eq env w :
  exists w',
    handleSignals env SIGTERM w = (Exit 3, w')
    /\ interruptCount (ib w') = interruptCount (ib w).
Proof.
  unfold handleSignals. rewrite run_terminate_cmds, run_get.
  change (cmd_running (ib (with_ib stop_cmds (emit (terminations (ib w)) w))))
    with (cmd_running (ib w)).
  destruct (cmd_running (ib w)) eqn:Hrun.
  - run. unfold terminate_cmd. run. cbn [ib with_ib stop_cmds cmd set_cmds].
    unfold cmd_running in Hrun. destruct (cmd (ib w)) as [c0|]; [|done].
    run. eexists. split; reflexivity.
  - run. eexists. split; reflexivity.
Qed.

Lemma handleSignals_SIGHUP_eq env w :
  exists w',
    handleSignals env SIGHUP w = (Exit 3, w')
    /\ interruptCount (ib w') = interruptCount (ib w).
Proof.
  unfold handleSignals. rewrite run_terminate_cmds, run_get.
  change (cmd_running (ib (with_ib stop_cmds (emit (terminations (ib w)) w))))
    with (cmd_running (ib w)).
  destruct (cmd_running (ib w)) eqn:Hrun.
  - run. unfold terminate_cmd. run. cbn [ib with_ib stop_cmds cmd set_cmds].
    unfold cmd_running in Hrun. destruct (cmd (ib w)) as [c0|]; [|done].
    run. eexists. split; reflexivity.
  - run. eexists. split; reflexivity.
Qed.

(** C7, as the code has it.  An interrupt that finds the single-target
    subprocess running adds one to interruptCount.  Every other handled
    signal, an interrupt without that subprocess, Terminate and Hangup,
    exits with code 3 and leaves the counter as it was.  Whenever the
    counter is above 2 after a signal, the handler has not returned: the
    process exits, and with code 3 when [log.Fatal] gives control back. *)
Theorem handleSignals_interruptCount env sig w :
  exists o w',
    handleSignals env sig w = (o, w')
    /\ (sig = SIGINT -> cmd_running (ib w) = true ->
        interruptCount (ib w') = (interruptCount (ib w) + 1)%Z)
    /\ (handled sig = true -> (sig = SIGINT -> cmd_running (ib w) = false) ->
        o = Exit 3 /\ interruptCount (ib w') = interruptCount (ib w))
    /\ ((2 < interruptCount (ib w'))%Z ->
        exists code, o = Exit code /\ (log_Fatal_exit env = None -> code = 3%Z)).
Proof.
  destruct sig.
  - rewrite handleSignals_SIGINT_eq. unfold cmd_running, IsSubprocessRunning.
    destruct (cmd (ib w)) as [c0|]; [destruct (running c0)|].
    + cbv zeta. destruct (Z.ltb_spec 2 (interruptCount (ib w) + 1)) as [Hgt|Hle];
        (eexists; eexists; split; [reflexivity|]);
        cbn [ib with_ib emit count interruptCount set_interruptCount set_cmd stop_cmds set_cmds];
        (split; [done|]); (split; [intros _ Hidle; by specialize (Hidle eq_refl)|]).
      * intros _. exists (fatal_code env). split; [done|]. unfold fatal_code. by intros ->.
      * intros. lia.
    + eexists; eexists; split; [reflexivity|]. repeat split; try done. eauto.
    + eexists; eexists; split; [reflexivity|]. repeat split; try done. eauto.
  - destruct (handleSignals_SIGTERM_eq env w) as (w' & -> & Heq).
    eexists; eexists; split; [reflexivity|]. rewrite Heq. repeat split; try done. eauto.
  - destruct (handleSignals_SIGHUP_eq env w) as (w' & -> & Heq).
    eexists; eexists; split; [reflexivity|]. rewrite Heq. repeat split; try done. eauto.
  - unfold handleSignals, log_Fatal. run.
    destruct (log_Fatal_exit env) as [code|] eqn:Hexit.
    + run. eexists; eexists; split; [reflexivity|]. repeat split; try done.
      intros _. exists code. by split.
    + run. rewrite count_interrupt_eq. cbn [ib emit].
      destruct (Z.ltb_spec 2 (interruptCount (ib w) + 1));
        (eexists; eexists; split; [reflexivity|]);
        (split; [done|]); (split; [done|]).
      * intros _. exists (fatal_code env). unfold fatal_code. rewrite Hexit. by split.
      * cbn [ib with_ib emit count interruptCount set_interruptCount]. intros. lia.
Qed.
(** *** The rule query of run mode *)

Lemma queryRule_eq env target w :
  exists cs,
    internal cs /\
    queryRule env target w
    = match (bazel_CQuery env target).1 with
      | Some results =>
          match first_rule results with
          | Some r => (Done (Some r, None), emit cs w)
          | None => (Done (None, Some "No information available"), emit cs w)
          end
      | None => (Panic nil_dereference, emit cs w)
      end.
Proof.
  unfold queryRule, newBazel. destruct (bazel_CQuery env target) as [res err]. cbn [fst]. run.
  destruct err as [e|]; run.
  - eexists. split; [|destruct res as [results|]; [destruct (first_rule results)|]; reflexivity].
    solve_internal.
  - eexists. split; [|destruct res as [results|]; [destruct (first_rule results)|]; reflexivity].
    solve_internal.
Qed.

(** C10.  When the rule query, failed or not, hands back a result without
    an entry of type RULE, [queryRule] returns a nil rule and an error;
    [setupRun] logs the error, hands the nil rule to the target decider of
    every listener and then reads [rule.Attribute]: it panics.  The first
    RUN of run mode gets there. *)
Theorem setupRun_nil_rule env target results err debugArg argsLength w :
  bazel_CQuery env target = (Some results, err) ->
  first_rule results = None ->
  (exists w1,
     queryRule env target w = (Done (None, Some "No information available"), w1))
  /\ (exists w2,
        setupRun env target debugArg argsLength w = (Panic nil_dereference, w2)
        /\ forall l, In l (lifecycleListeners (ib w)) ->
                     In (TargetDecider l None) (new_calls w w2))
  /\ (forall command rest joinedTargets sel,
        state (ib w) = RUN -> cmd (ib w) = None ->
        exists w3,
          iteration env command (run env) (target :: rest) joinedTargets sel w
          = (Panic nil_dereference, w3)).
Proof.
  intros Hq Hnone.
  assert (Hrule : forall w0, exists cs,
    queryRule env target w0 = (Done (None, Some "No information available"), emit cs w0)).
  { intros w0. destruct (queryRule_eq env target w0) as (cs & _ & Heq).
    rewrite Hq in Heq. cbn [fst] in Heq. rewrite Hnone in Heq. eauto. }
  assert (Hsetup : forall debugArg argsLength w0, exists cs,
    setupRun env target debugArg argsLength w0
    = (Panic nil_dereference,
       emit (cs ++ fanout (fun l => TargetDecider l None) w0) w0)).
  { intros d a w0. destruct (Hrule w0) as (cs & Heq). unfold setupRun.
    rewrite (bind_eq _ _ _ _ _ Heq). run. eexists. reflexivity. }
  split; [|split].
  - destruct (Hrule w) as (cs & ->). eauto.
  - destruct (Hsetup debugArg argsLength w) as (cs & ->). eexists. split; [reflexivity|].
    intros l Hl. rewrite new_calls_emit'. apply in_or_app. right.
    unfold fanout. by apply (in_map (fun l => TargetDecider l None)).
  - intros command rest joinedTargets sel Hs Hcmd.
    unfold iteration. rewrite run_get, Hs. run. unfold run at 1. run.
    cbn [ib emit]. rewrite Hcmd.
    set (w0 := emit _ w). destruct (Hsetup [] (-1)%Z w0) as (cs & Heq).
    unfold bind at 1. unfold bind at 1. rewrite Heq. eauto.
Qed.
(** *** beforeCommand and afterCommand *)

Lemma grows_refl w : grows w w [].
Proof. exists []. by rewrite app_nil_r. Qed.

Lemma grows_trans w w1 w2 l1 l2 :
  grows w w1 l1 -> grows w1 w2 l2 -> grows w w2 (l1 ++ l2).
Proof.
  intros (cs1 & H1 & F1 & L1) (cs2 & H2 & F2 & L2). exists (cs1 ++ cs2).
  rewrite H2, H1, <- app_assoc, List.filter_app, F1, F2, L2, L1. done.
Qed.

Lemma grows_new_calls w w' l : grows w w' l -> List.filter is_command_call (new_calls w w') = l.
Proof. intros (cs & H & F & _). unfold new_calls. by rewrite H, drop_app_length. Qed.

Lemma grows_emit cs w : grows w (emit cs w) (List.filter is_command_call cs).
Proof. by exists cs. Qed.

Lemma grows_with_ib f w :
  (forall i, lifecycleListeners (f i) = lifecycleListeners i) -> grows w (with_ib f w) [].
Proof. intros Hf. exists []. simpl. by rewrite app_nil_r, Hf. Qed.

Lemma quiet_ret {A : Type} (a : A) : quiet (ret a).
Proof. intros w. apply grows_refl. Qed.

Lemma quiet_panic {A : Type} why : quiet (@panic A why).
Proof. intros w. apply grows_refl. Qed.

Lemma quiet_get : quiet get.
Proof. intros w. apply grows_refl. Qed.

Lemma quiet_call c : is_command_call c = false -> quiet (call c).
Proof. intros Hc w. unfold call. cbn [snd]. generalize (grows_emit [c] w). simpl. by rewrite Hc. Qed.

Lemma quiet_modify f :
  (forall i, lifecycleListeners (f i) = lifecycleListeners i) -> quiet (modify f).
Proof. intros Hf w. by apply grows_with_ib. Qed.

Lemma quiet_bind {A B : Type} (c : M A) (f : A -> M B) :
  quiet c -> (forall a, quiet (f a)) -> quiet (bind c f).
Proof.
  intros Hc Hf w. unfold bind. specialize (Hc w).
  destruct (c w) as [[a| | |] w1]; try exact Hc.
  apply (grows_trans _ _ _ [] [] Hc (Hf a w1)).
Qed.

Lemma quiet_when b (c : M unit) : quiet c -> quiet (when b c).
Proof. destruct b; [done|]. intros _. apply quiet_ret. Qed.

Lemma quiet_for_each {A : Type} (l : list A) (body : A -> M unit) :
  (forall x, quiet (body x)) -> quiet (for_each l body).
Proof.
  intros Hb. induction l as [|x l IH]; simpl; [apply quiet_ret|].
  apply quiet_bind; [apply Hb|]. intros _. apply IH.
Qed.

Lemma quiet_targetDecider target rule : quiet (targetDecider target rule).
Proof.
  unfold targetDecider. apply quiet_bind; [apply quiet_get|]. intros i.
  apply quiet_for_each. intros l. by apply quiet_call.
Qed.

Ltac solve_quiet :=
  repeat first
    [ solve [auto]
    | apply quiet_ret
    | apply quiet_panic
    | apply quiet_get
    | apply quiet_targetDecider
    | apply quiet_call; reflexivity
    | apply quiet_modify; intros; reflexivity
    | apply quiet_when
    | apply quiet_for_each; intros
    | apply quiet_bind; [|intros]
    | match goal with
      | |- quiet (match ?x with _ => _ end) => destruct x
      | |- quiet (let '(_, _) := ?x in _) => destruct x
      end ].

Lemma quiet_newBazel : quiet newBazel.
Proof. unfold newBazel. solve_quiet. Qed.

Lemma quiet_build env targets : quiet (build env targets).
Proof. unfold build. pose proof quiet_newBazel. solve_quiet. Qed.

Lemma quiet_test env targets : quiet (test env targets).
Proof. unfold test. pose proof quiet_newBazel. solve_quiet. Qed.

Lemma quiet_queryRule env rule : quiet (queryRule env rule).
Proof. unfold queryRule. pose proof quiet_newBazel. solve_quiet. Qed.

Lemma quiet_commandNotify_loop attrs b : quiet (commandNotify_loop attrs b).
Proof.
  revert b. induction attrs as [|attr attrs IH]; intros b; simpl; [apply quiet_ret|].
  destruct (String.eqb _ _); [|apply IH].
  destruct (blaze_query.Type_ attr) as [[]|]; try apply IH; [|apply quiet_panic].
  destruct (contains _ _); apply IH.
Qed.

Lemma quiet_setupRun env target debugArg argsLength :
  quiet (setupRun env target debugArg argsLength).
Proof.
  unfold setupRun. apply quiet_bind; [apply quiet_queryRule|]. intros [rule err].
  pose proof quiet_commandNotify_loop. solve_quiet.
Qed.

Lemma quiet_Start env c logFile : quiet (Start env c logFile).
Proof. unfold Start. solve_quiet. Qed.

Lemma quiet_AfterRebuild env c logFile : quiet (AfterRebuild env c logFile).
Proof. unfold AfterRebuild. solve_quiet. Qed.

Lemma quiet_run env targets : quiet (run env targets).
Proof.
  unfold run. pose proof quiet_setupRun. pose proof quiet_Start. pose proof quiet_AfterRebuild.
  solve_quiet.
Qed.

Lemma quiet_openFileForLogs env fileToOpen : quiet (openFileForLogs env fileToOpen).
Proof. unfold openFileForLogs. solve_quiet. Qed.

Lemma quiet_start_all env targets idx debugArgs argsLength outputBuffers :
  quiet (start_all env targets idx debugArgs argsLength outputBuffers).
Proof.
  revert idx outputBuffers. induction targets as [|target targets IH]; intros idx bufs; simpl.
  - apply quiet_ret.
  - pose proof quiet_setupRun. pose proof quiet_Start. pose proof quiet_openFileForLogs.
    solve_quiet.
Qed.

Lemma quiet_notify_all env targets outputBuffers : quiet (notify_all env targets outputBuffers).
Proof.
  revert outputBuffers. induction targets as [|target targets IH]; intros bufs; simpl.
  - apply quiet_ret.
  - pose proof quiet_AfterRebuild. solve_quiet.
Qed.

Lemma filter_fanout_command (f : Lifecycle -> Call) w :
  (forall l, is_command_call (f l) = true) ->
  List.filter is_command_call (fanout f w) = fanout f w.
Proof.
  intros Hf. unfold fanout. induction (lifecycleListeners (ib w)) as [|l ls IH]; [done|].
  simpl. by rewrite Hf, IH.
Qed.

Lemma grows_fanout (f : Lifecycle -> Call) w :
  (forall l, is_command_call (f l) = true) -> grows w (emit (fanout f w) w) (fanout f w).
Proof.
  intros Hf. generalize (grows_emit (fanout f w) w). by rewrite filter_fanout_command.
Qed.

Lemma grows_fanout_with_ib (f : Lifecycle -> Call) g w :
  (forall l, is_command_call (f l) = true) ->
  (forall i, lifecycleListeners (g i) = lifecycleListeners i) ->
  grows w (with_ib g (emit (fanout f w) w)) (fanout f w).
Proof.
  intros Hf Hg. exists (fanout f w). simpl. by rewrite filter_fanout_command, Hg.
Qed.

Lemma grows_emit_quiet cs w :
  List.filter is_command_call cs = [] -> grows w (emit cs w) [].
Proof. intros H. generalize (grows_emit cs w). by rewrite H. Qed.

Lemma fanout_grows (f : Lifecycle -> Call) w w' l :
  grows w w' l -> fanout f w' = fanout f w.
Proof. intros (cs & _ & _ & Hl). unfold fanout. by rewrite Hl. Qed.

Lemma build_returns env targets w :
  exists w', build env targets w = (Done (bazel_Build env targets), w').
Proof.
  unfold build, newBazel. run. destruct (bazel_Build env targets) as [b [e|]]; run; eauto.
Qed.

Lemma test_returns env targets w :
  exists w', test env targets w = (Done (bazel_Test env targets), w').
Proof.
  unfold test, newBazel. run. destruct (bazel_Test env targets) as [b [e|]]; run; eauto.
Qed.

(** The RUN branch of [iteration], for a command that calls no listener
    itself. *)
Lemma iteration_RUN_calls env command (commandToRun : runnableCommand) targets
    joinedTargets sel w :
  state (ib w) = RUN ->
  quiet (commandToRun targets) ->
  exists o w',
    iteration env command commandToRun targets joinedTargets sel w = (o, w')
    /\ match (commandToRun targets
               (emit (Log_Logf "%s %s" [strings.Title (verb command); joinedTargets]
                      :: fanout (fun l => BeforeCommand l targets command) w) w)).1 with
       | Done (outputBuffer, err) =>
           o = Done tt
           /\ List.filter is_command_call (new_calls w w')
              = fanout (fun l => BeforeCommand l targets command) w
                ++ fanout (fun l => AfterCommand l targets command (is_nil err) outputBuffer) w
       | _ =>
           o <> Done tt
           /\ List.filter is_command_call (new_calls w w')
              = fanout (fun l => BeforeCommand l targets command) w
       end.
Proof.
  intros Hs Hq. unfold iteration. rewrite run_get, Hs. run.
  set (w1 := emit _ w).
  assert (H1 : grows w w1 (fanout (fun l => BeforeCommand l targets command) w)).
  { generalize (grows_emit (Log_Logf "%s %s" [strings.Title (verb command); joinedTargets]
                  :: fanout (fun l => BeforeCommand l targets command) w) w).
    cbn [List.filter is_command_call]. by rewrite filter_fanout_command. }
  clearbody w1. specialize (Hq w1). unfold bind at 1.
  destruct (commandToRun targets w1) as [[[outputBuffer err]| | |] w2]; cbn [fst snd] in *.
  - run. eexists; eexists; split; [reflexivity|]. split; [done|].
    apply grows_new_calls.
    pose proof (grows_trans _ _ _ _ _ H1 Hq) as H2. rewrite app_nil_r in H2.
    rewrite <- (fanout_grows
      (fun l => AfterCommand l targets command (is_nil err) outputBuffer) _ _ _ H2).
    apply (grows_trans _ _ _ _ _ H2).
    by apply grows_fanout_with_ib.
  - eexists; eexists; split; [reflexivity|]. split; [done|].
    apply grows_new_calls. generalize (grows_trans _ _ _ _ _ H1 Hq). by rewrite app_nil_r.
  - eexists; eexists; split; [reflexivity|]. split; [done|].
    apply grows_new_calls. generalize (grows_trans _ _ _ _ _ H1 Hq). by rewrite app_nil_r.
  - eexists; eexists; split; [reflexivity|]. split; [done|].
    apply grows_new_calls. generalize (grows_trans _ _ _ _ _ H1 Hq). by rewrite app_nil_r.
Qed.

Ltac inv_bind H :=
  let a := fresh "a" in
  let w := fresh "w" in
  let E := fresh "E" in
  apply bind_Done in H as (a & w & E & H).

Lemma start_all_buffers env targets idx debugArgs argsLength outputBuffers w bufs err w' :
  start_all env targets idx debugArgs argsLength outputBuffers w = (Done (bufs, err), w') ->
  exists more, bufs = outputBuffers ++ more /\ (targets <> [] -> more <> []).
Proof.
  revert idx outputBuffers w. induction targets as [|target targets IH]; intros idx obs w H.
  - injection H as <- _ _. exists []. by rewrite app_nil_r.
  - cbn [start_all] in H. inv_bind H. rewrite run_modify in H.
    destruct (debugArgs !! idx) as [debugArg|]; [|discriminate].
    inv_bind H. rewrite run_modify, run_get in H. inv_bind H.
    destruct a1 as [[started outputBuffer] e]. rewrite run_modify in H. cbv zeta in H.
    destruct e as [e|].
    + rewrite run_call in H. injection H as <- _ _. by exists [outputBuffer].
    + apply IH in H as (more & -> & _). exists (outputBuffer :: more).
      by rewrite <- app_assoc.
Qed.

Lemma notify_all_buffers env targets outputBuffers w bufs w' :
  notify_all env targets outputBuffers w = (Done bufs, w') ->
  exists more, bufs = outputBuffers ++ more /\ (targets <> [] -> more <> []).
Proof.
  revert outputBuffers w. induction targets as [|target targets IH]; intros obs w H.
  - injection H as <- _. exists []. by rewrite app_nil_r.
  - cbn [notify_all] in H. rewrite run_get in H.
    destruct (lookup_cmd (ib w) target) as [c|]; [|discriminate].
    inv_bind H. apply IH in H as (more & -> & _). exists (a :: more).
    by rewrite <- app_assoc.
Qed.

(** [runMultiple] fans out one afterCommand, for its build step, whatever
    happens next; and when it returns for at least one target, it returns
    at least one output buffer. *)
Lemma runMultiple_grows env targets debugArgs argsLength w :
  exists o w',
    runMultiple env targets debugArgs argsLength w = (o, w')
    /\ grows w w'
         (fanout (fun l => AfterCommand l targets "build"
                             (is_nil (bazel_Build env targets).2)
                             (bazel_Build env targets).1) w)
    /\ match o with
       | Done (buffers, _) => targets <> [] -> buffers <> []
       | _ => True
       end.
Proof.
  unfold runMultiple. run.
  set (w1 := emit _ w). assert (H1 : grows w w1 []) by by apply grows_emit_quiet. clearbody w1.
  destruct (build_returns env targets w1) as (w2 & Hb).
  pose proof (quiet_build env targets w1) as H2. rewrite Hb in H2. cbn [snd] in H2.
  rewrite (bind_eq _ _ _ _ _ Hb). destruct (bazel_Build env targets) as [bufBuild errBuild].
  cbn [fst snd]. run.
  set (after := fun l => AfterCommand l targets "build" (is_nil errBuild) bufBuild).
  assert (H3 : grows w (emit (fanout after w2) w2) (fanout after w)).
  { pose proof (grows_trans _ _ _ _ _ H1 H2) as H12. cbn [app] in H12.
    rewrite <- (fanout_grows after _ _ _ H12).
    apply (grows_trans _ _ _ [] _ H12). by apply grows_fanout. }
  set (w3 := emit _ w2) in *. clearbody w3.
  destruct errBuild as [e|].
  - eexists; eexists; split; [reflexivity|]. split; [done|]. done.
  - run. destruct (cmds (ib w3)) as [m|] eqn:Hm; cbn [ib with_ib set_firstBuildPassed cmds];
      rewrite Hm; run.
    + set (w4 := emit _ _).
      assert (H4 : grows w w4 (fanout after w)).
      { rewrite <- (app_nil_r (fanout after w)). apply (grows_trans _ _ _ _ _ H3).
        rewrite <- (app_nil_r []).
        eapply grows_trans; [by apply (grows_with_ib (set_firstBuildPassed true))|].
        by apply grows_emit_quiet. }
      clearbody w4.
      pose proof (quiet_notify_all env targets [] w4) as H5.
      unfold bind. destruct (notify_all env targets [] w4) as [[bufs| | |] w5] eqn:Hn;
        cbn [snd] in H5; (eexists; eexists; split; [reflexivity|]);
        (split; [rewrite <- (app_nil_r (fanout after w)); by apply (grows_trans _ _ _ _ _ H4)|]);
        try done.
      apply notify_all_buffers in Hn as (more & -> & Hne). done.
    + set (w4 := with_ib _ _).
      assert (H4 : grows w w4 (fanout after w)).
      { rewrite <- (app_nil_r (fanout after w)). apply (grows_trans _ _ _ _ _ H3).
        unfold w4. rewrite <- (app_nil_r []).
        eapply grows_trans; [by apply (grows_with_ib (set_firstBuildPassed true))|].
        rewrite <- (app_nil_r []).
        eapply grows_trans; by apply grows_with_ib. }
      clearbody w4.
      pose proof (quiet_start_all env targets 0 debugArgs argsLength [] w4) as H5.
      destruct (start_all env targets 0 debugArgs argsLength [] w4) as [[[bufs err]| | |] w5] eqn:Hn;
        cbn [snd] in H5; (eexists; eexists; split; [reflexivity|]);
        (split; [rewrite <- (app_nil_r (fanout after w)); by apply (grows_trans _ _ _ _ _ H4)|]);
        try done.
      apply start_all_buffers in Hn as (more & -> & Hne). done.
Qed.

Lemma for_each_afterCommand targets command success buffers w :
  for_each buffers (fun buffer => afterCommand targets command success buffer) w
  = (Done tt,
     emit (flat_map (fun buffer =>
             fanout (fun l => AfterCommand l targets command success buffer) w) buffers) w).
Proof.
  revert w. induction buffers as [|b bs IH]; intros w; simpl.
  - by rewrite emit_nil.
  - rewrite run_afterCommand, IH, emit_emit. reflexivity.
Qed.

Lemma filter_flat_map_fanout targets command success buffers w :
  List.filter is_command_call
    (flat_map (fun buffer =>
       fanout (fun l => AfterCommand l targets command success buffer) w) buffers)
  = flat_map (fun buffer =>
       fanout (fun l => AfterCommand l targets command success buffer) w) buffers.
Proof.
  induction buffers as [|b bs IH]; [done|]. simpl.
  by rewrite List.filter_app, IH, filter_fanout_command.
Qed.

Lemma iterationMultiple_RUN_calls env command targets debugArgs argsLength sel w :
  state (ib w) = RUN ->
  exists o w',
    iterationMultiple env command (runMultiple env) targets debugArgs argsLength sel w = (o, w')
    /\ let torun := torun_of (ib w) targets in
       let before := fanout (fun l => BeforeCommand l torun command) w in
       let afterBuild :=
         fanout (fun l => AfterCommand l torun "build"
                            (is_nil (bazel_Build env torun).2) (bazel_Build env torun).1) w in
       match o with
       | Done _ =>
           exists (buffers : list Buffer) (err : error),
             (torun <> [] -> buffers <> [])
             /\ List.filter is_command_call (new_calls w w')
                = before ++ afterBuild
                  ++ flat_map (fun buffer =>
                       fanout (fun l => AfterCommand l torun command (is_nil err) buffer) w)
                       buffers
       | _ =>
           List.filter is_command_call (new_calls w w') = []
           \/ List.filter is_command_call (new_calls w w') = before ++ afterBuild
       end.
Proof.
  intros Hs. unfold iterationMultiple. rewrite run_get. run. rewrite Hs.
  fold (torun_of (ib w) targets). generalize (torun_of (ib w) targets). intros torun.
  set (w0 := emit _ w). assert (H0 : grows w w0 []) by by apply grows_emit_quiet.
  clearbody w0.
  set (c0 := match cmds (ib w) with Some _ => _ | None => _ end).
  assert (Hc0 : quiet c0) by (unfold c0; solve_quiet).
  specialize (Hc0 w0). unfold bind at 1.
  destruct (c0 w0) as [[[]| | |] w1]; cbn [snd] in Hc0;
    pose proof (grows_trans _ _ _ _ _ H0 Hc0) as H1; cbn [app] in H1;
    try (eexists; eexists; split; [reflexivity|]; left; by apply grows_new_calls).
  clear c0 Hc0 H0. run.
  set (before := fun l => BeforeCommand l torun command).
  set (w2 := emit _ w1).
  assert (H2 : grows w w2 (fanout before w)).
  { rewrite <- (fanout_grows before _ _ _ H1). apply (grows_trans _ _ _ [] _ H1).
    generalize (grows_emit (Log_Logf "%s %s" [strings.Title (verb command);
                                              strings.Join torun " "]
                            :: fanout before w1) w1).
    cbn [List.filter is_command_call]. by rewrite filter_fanout_command. }
  clearbody w2.
  destruct (runMultiple_grows env torun debugArgs argsLength w2) as (o & w3 & Hrun & H3 & Hne).
  set (afterBuild := fun l => AfterCommand l torun "build"
                       (is_nil (bazel_Build env torun).2) (bazel_Build env torun).1) in *.
  rewrite (fanout_grows afterBuild _ _ _ H2) in H3.
  pose proof (grows_trans _ _ _ _ _ H2 H3) as H23.
  unfold bind at 1. rewrite Hrun. destruct o as [[buffers err]| | |];
    try (eexists; eexists; split; [reflexivity|]; right; by apply grows_new_calls).
  rewrite (bind_eq _ _ _ _ _ (for_each_afterCommand _ _ _ _ _)). run.
  eexists; eexists; split; [reflexivity|]. exists buffers, err. split; [done|].
  apply grows_new_calls. rewrite app_assoc. apply (grows_trans _ _ _ _ _ H23).
  eexists. split; [reflexivity|]. split; [|reflexivity].
  rewrite filter_flat_map_fanout. apply flat_map_ext.
  intros b. by rewrite (fanout_grows _ _ _ _ H23).
Qed.

(** *** Concrete runs *)

(** The first edit of a source file: QUERY, RUN, WAIT, then a write to
    [/ws/a/x] takes the loop to DEBOUNCE_RUN. *)
Lemma iteration_follows_table_witness :
  let step := iteration env_a "build" (build env_a) ["//a:x"] "//a:x" in
  let w2 := (step time_After (step time_After (world (engine QUERY))).2).2 in
  let e := fsnotify.mkEvent "/ws/a/x" fsnotify.Write in
  reachable env_a "build" (build env_a) ["//a:x"] "//a:x" w2
  /\ state (ib w2) = WAIT
  /\ state (ib (step (SourceFileEvents e 30000000) w2).2) = DEBOUNCE_RUN.
Proof.
  intros step w2 e.
  assert (Hr : reachable env_a "build" (build env_a) ["//a:x"] "//a:x" w2).
  { pose (w0 := world (engine QUERY)). pose (w1 := (step time_After w0).2).
    assert (H0 : reachable env_a "build" (build env_a) ["//a:x"] "//a:x" w0)
      by (apply reachable_entry; reflexivity).
    assert (H1 : reachable env_a "build" (build env_a) ["//a:x"] "//a:x" w1)
      by (apply (reachable_iteration _ _ _ _ _ w0 time_After w1 H0); vm_compute; reflexivity).
    apply (reachable_iteration _ _ _ _ _ w1 time_After w2 H1). vm_compute; reflexivity. }
  split; [exact Hr|]. split; [vm_compute; reflexivity|].
  destruct (iteration_follows_table env_a "build" (build env_a) ["//a:x"] "//a:x" w2 Hr)
    as (_ & _ & _ & Hwait & _).
  assert (Hs : state (ib w2) = WAIT) by (vm_compute; reflexivity).
  destruct (Hwait Hs e 30000000%Z eq_refl) as [Hsrc _].
  fold step in Hsrc. rewrite Hsrc; [reflexivity|]. vm_compute; reflexivity.
Defined.

Lemma queryForSourceFiles_translates_witness :
  exists w',
    queryForSourceFiles env_a "q" (world (engine QUERY))
    = (Done (["/ws/a/x"; "/ws/BUILD"], None), w')
    /\ ib w' = ib (world (engine QUERY)).
Proof.
  exact (queryForSourceFiles_translates env_a "q" _ None (world (engine QUERY)) eq_refl).
Defined.

(** The error of a query never leaves [queryForSourceFiles]: the function
    ends in [return toWatch, nil]. *)
Lemma queryForSourceFiles_error_nil env query w toWatch err w' :
  queryForSourceFiles env query w = (Done (toWatch, err), w') -> err = None.
Proof.
  destruct (queryForSourceFiles_eq env query w) as (cs & _ & ->).
  destruct (bazel_Query env query).1; [|discriminate]. by intros [= _ <- _].
Qed.


(** C5, on the code.  The multi-target loop enters QUERY with prevDir set
    to [/ws/a/], which the target-directory map ties to [//a:x] alone; the
    build query and the source query are issued for both targets all the
    same.  prevDir is empty afterwards. *)
Theorem iterationMultiple_QUERY_requeries_all :
  let w := world requery_a in
  let r := iterationMultiple env_ws "run" (runMultiple env_ws) ["//a:x"; "//b:y"]
             [[]; []] 0 time_After w in
  state (ib w) = QUERY
  /\ prevDir (ib w) = "/ws/a/"
  /\ bldDirToWatch (ib w) !! "/ws/a/" = Some ["//a:x"]
  /\ r.1 = Done tt
  /\ queries (calls r.2)
     = ["buildfiles(deps(set(//a:x)))"; "buildfiles(deps(set(//b:y)))";
        "kind('source file', deps(set(//a:x)))"; "kind('source file', deps(set(//b:y)))"]
  /\ prevDir (ib r.2) = "".
Proof. repeat split; vm_compute; reflexivity. Qed.

(** In QUERY the multi-target loop reads prevDir only inside the
    conditional whose variable is dropped: the targets it queries are the
    targets of the loop. *)
Lemma iterationMultiple_QUERY_eq env command commandsToRun targets debugArgs argsLength sel w :
  state (ib w) = QUERY ->
  iterationMultiple env command commandsToRun targets debugArgs argsLength sel w
  = (call (Log_Logf "State: %s" ["QUERY"]) ;;
     call (Log_Logf "Querying for BUILD files..." []) ;;
     watchManyFiles env buildQuery targets buildFileWatcher ref_bldDirToWatch ;;
     call (Log_Logf "Querying for source files..." []) ;;
     watchManyFiles env sourceQuery targets sourceFileWatcher ref_srcDirToWatch ;;
     modify (set_prevDir "") ;;
     modify (set_state RUN)) w.
Proof.
  intros Hs. unfold iterationMultiple. rewrite run_get, Hs. reflexivity.
Qed.



Lemma unwatched_event_witness :
  let w := world (watching_a DEBOUNCE_RUN) in
  let e := fsnotify.mkEvent "/ws/b" fsnotify.Write in
  let sel := SourceFileEvents e 30000000 in
  watched_by (ib w) sourceFileWatcher "/ws/b" = false
  /\ exists w1 wm,
       iteration env_ws "build" (build env_ws) ["//a:x"] "//a:x" sel w = (Done tt, w1)
       /\ iterationMultiple env_ws "build" (runMultiple env_ws) ["//a:x"] [[]] 0 sel w
          = (Done tt, wm)
       /\ state (ib w1) = DEBOUNCE_RUN
       /\ state (ib wm) = DEBOUNCE_RUN
       /\ deadline w1 = Some 130000000%Z
       /\ prevDir (ib wm) = "/ws/".
Proof.
  intros w e sel.
  assert (Hw : watched_by (ib w) sourceFileWatcher (fsnotify.Name e) = false)
    by (vm_compute; reflexivity).
  split; [exact Hw|].
  destruct (unwatched_event env_ws "build" (build env_ws) (runMultiple env_ws) ["//a:x"]
              "//a:x" [[]] 0%Z sel sourceFileWatcher e 30000000%Z w eq_refl eq_refl Hw)
    as (w1 & wm & H1 & Hm & _ & _ & Hs1 & Hsm & _ & _ & _ & _ & Hdeb).
  exists w1, wm. destruct Hdeb as (Hib & Hd1 & _); [discriminate|].
  repeat split; try assumption.
  rewrite Hib. reflexivity.
Defined.

(** An event on a file that is not watched, 30 ms into a debounce of
    100 ms: the deadline moves from 100 ms to 130 ms in both loops, and the
    multi-target loop overwrites prevDir. *)
Lemma unwatched_event_counterexample :
  let w := world (watching_a DEBOUNCE_RUN) in
  let e := fsnotify.mkEvent "/ws/b" fsnotify.Write in
  let sel := SourceFileEvents e 30000000 in
  let w1 := (iteration env_ws "build" (build env_ws) ["//a:x"] "//a:x" sel w).2 in
  let wm := (iterationMultiple env_ws "build" (runMultiple env_ws) ["//a:x"] [[]] 0 sel w).2 in
  watched_by (ib w) sourceFileWatcher (fsnotify.Name e) = false
  /\ deadline w1 <> deadline w
  /\ ~ (deadline wm = deadline w /\ prevDir (ib wm) = prevDir (ib w)).
Proof.
  split; [vm_compute; reflexivity|]. split.
  - vm_compute. discriminate.
  - intros [H _]. vm_compute in H. discriminate.
Qed.

Lemma handleSignals_SIGINT_witness :
  let c := mkCommand false [] [] "//b:y" [] true in
  let w := world (set_cmd (Some c) (one_running WAIT)) in
  (interruptCount (ib w) < 2)%Z
  /\ exists w',
       handleSignals env_ws SIGINT w = (Done tt, w')
       /\ (forall c', In (Command_Terminate c') (new_calls w w')
                      <-> running c' = true /\ In c' (managed (ib w)))
       /\ (forall c', In c' (managed (ib w')) -> running c' = false).
Proof.
  intros c w. split; [reflexivity|].
  exact (handleSignals_SIGINT env_ws w eq_refl).
Defined.

(** The first interrupt of a multi-target engine whose subprocess runs:
    the subprocess is terminated and the process exits with code 3. *)
Lemma handleSignals_SIGINT_counterexample :
  let w := world (one_running WAIT) in
  interruptCount (ib w) = 0%Z
  /\ (exists c, In c (managed (ib w)) /\ running c = true)
  /\ (handleSignals env_ws SIGINT w).1 = Exit 3.
Proof.
  split; [reflexivity|]. split; [|vm_compute; reflexivity].
  exists (mkCommand false [] [] "//a:x" [] true). split; [|reflexivity].
  vm_compute. left. reflexivity.
Qed.

(** Terminate is handled, and the counter stays at 0. *)
Lemma handleSignals_interruptCount_counterexample :
  let w := world (engine WAIT) in
  handled SIGTERM = true
  /\ interruptCount (ib (handleSignals env_ws SIGTERM w).2)
     <> (interruptCount (ib w) + 1)%Z.
Proof. split; [reflexivity|]. vm_compute. discriminate. Qed.

Lemma setupRun_nil_rule_witness :
  bazel_CQuery env_rule_fails "//a:x" = (Some [], Some "exit status 1")
  /\ exists w3,
       iteration env_rule_fails "run" (run env_rule_fails) ["//a:x"] "//a:x" time_After
         (world (engine RUN))
       = (Panic nil_dereference, w3).
Proof.
  split; [reflexivity|].
  exact (proj2 (proj2 (setupRun_nil_rule env_rule_fails "//a:x" [] (Some "exit status 1")
                         [] (-1)%Z (world (engine RUN)) eq_refl eq_refl))
           "run" [] "//a:x" time_After eq_refl eq_refl).
Defined.



(** ** Further properties of the engine *)

(** *** The list helpers *)

Lemma contains_In l e : contains l e = true <-> In e l.
Proof.
  induction l as [|x l IH]; simpl; [split; [discriminate|tauto]|].
  destruct (String.eqb_spec x e) as [->|Hne]; [tauto|].
  rewrite IH. split; [tauto|]. intros [?|?]; [congruence|done].
Qed.

Lemma containsIdx_from_spec (l : list string) e idx :
  (~ In e l /\ containsIdx_from idx l e = (-1)%Z)
  \/ (exists n : nat,
        containsIdx_from idx l e = (idx + Z.of_nat n)%Z
        /\ l !! n = Some e
        /\ forall (m : nat) x, (m < n)%nat -> l !! m = Some x -> x <> e).
Proof.
  revert idx. induction l as [|x l IH]; intros idx; simpl; [left; tauto|].
  destruct (String.eqb_spec x e) as [->|Hne].
  - right. exists O. split; [lia|]. split; [done|]. intros m x Hm. lia.
  - destruct (IH (idx + 1)%Z) as [[Hnot Heq]|(n & Heq & Hn & Hfirst)].
    + left. split; [|done]. intros [?|?]; [congruence|done].
    + right. exists (S n). split; [lia|]. split; [done|].
      intros [|m] y Hm Hy; simpl in Hy; [congruence|]. apply (Hfirst m); [lia|done].
Qed.

Lemma containsIdx_first (l : list string) e :
  (~ In e l /\ containsIdx l e = (-1)%Z)
  \/ (exists n : nat,
        containsIdx l e = Z.of_nat n
        /\ l !! n = Some e
        /\ forall (m : nat) x, (m < n)%nat -> l !! m = Some x -> x <> e).
Proof. apply (containsIdx_from_spec l e 0). Qed.

(** At an index of the list, [deleteIdx] removes the element at that index
    and keeps every other one, though not in order. *)
Lemma deleteIdx_perm (a : list string) (n : nat) x :
  a !! n = Some x ->
  length (deleteIdx a (Z.of_nat n)) = (length a - 1)%nat
  /\ a ≡ₚ x :: deleteIdx a (Z.of_nat n).
Proof.
  intros Hn. unfold deleteIdx. rewrite Nat2Z.id.
  destruct (last a) as [y|] eqn:Hlast.
  2:{ apply last_None in Hlast. subst a. discriminate. }
  apply last_Some in Hlast as (a' & ->).
  rewrite length_app. simpl. replace (length a' + 1 - 1)%nat with (length a') by lia.
  destruct (decide (n < length a')%nat) as [Hlt|Hge].
  - rewrite lookup_app_l in Hn by done.
    rewrite insert_app_l by done.
    rewrite take_app_length' by (by rewrite length_insert).
    split; [by rewrite length_insert|].
    apply list_elem_of_split_length in Hn as (l1 & l2 & -> & ->).
    rewrite insert_app_r_alt by lia. rewrite Nat.sub_diag. simpl.
    rewrite <- app_assoc. simpl.
    rewrite <- Permutation_middle. apply perm_skip.
    apply Permutation_app_head. rewrite Permutation_app_comm. done.
  - assert (n = length a') as ->.
    { apply lookup_lt_Some in Hn. rewrite length_app in Hn. simpl in Hn. lia. }
    rewrite list_lookup_middle in Hn by done. injection Hn as ->.
    rewrite insert_app_r_alt by lia. rewrite Nat.sub_diag. simpl.
    rewrite take_app_length. split; [done|].
    rewrite Permutation_app_comm. done.
Qed.

(** X1.  [contains] and [containsIdx] agree.  On a list without [e] the
    first is false and the second is -1; on a list with [e] the first is
    true and the second is the index of the first element equal to [e]. *)
Theorem containsIdx_contains (l : list string) e :
  (~ In e l /\ contains l e = false /\ containsIdx l e = (-1)%Z)
  \/ (contains l e = true
      /\ exists n : nat,
           containsIdx l e = Z.of_nat n
           /\ l !! n = Some e
           /\ forall (m : nat) x, (m < n)%nat -> l !! m = Some x -> x <> e).
Proof.
  destruct (containsIdx_first l e) as [[Hnot Heq]|(n & Heq & Hn & Hfirst)].
  - left. split; [done|]. split; [|done].
    destruct (contains l e) eqn:Hc; [|done]. by apply contains_In in Hc.
  - right. split; [|by exists n].
    apply contains_In, list_elem_of_In. by apply list_elem_of_lookup_2 in Hn.
Qed.

(** X2.  Deleting the index that [containsIdx] finds for an element of
    the list removes one occurrence of that element and nothing else; the
    order of the others is not kept (the last element moves into the
    gap).  The list is a permutation of the element followed by the
    result, which is one shorter. *)
Theorem deleteIdx_containsIdx (l : list string) e :
  In e l ->
  length (deleteIdx l (containsIdx l e)) = (length l - 1)%nat
  /\ l ≡ₚ e :: deleteIdx l (containsIdx l e).
Proof.
  intros Hin. destruct (containsIdx_first l e) as [[Hnot _]|(n & -> & Hn & _)]; [done|].
  by apply deleteIdx_perm.
Qed.

Lemma deleteIdx_containsIdx_witness :
  deleteIdx ["a"; "b"; "c"; "d"] (containsIdx ["a"; "b"; "c"; "d"] "b") = ["a"; "d"; "c"]
  /\ length (deleteIdx ["a"; "b"; "c"; "d"] (containsIdx ["a"; "b"; "c"; "d"] "b")) = 3%nat
  /\ ["a"; "b"; "c"; "d"] ≡ₚ "b" :: deleteIdx ["a"; "b"; "c"; "d"] (containsIdx ["a"; "b"; "c"; "d"] "b").
Proof.
  split; [reflexivity|].
  apply (deleteIdx_containsIdx ["a"; "b"; "c"; "d"] "b"). right. left. reflexivity.
Defined.

(** *** The target-directory map *)

Lemma deleteIdx_found (l : list string) t :
  In t l ->
  exists n : nat, containsIdx l t = Z.of_nat n /\ l ≡ₚ t :: deleteIdx l (containsIdx l t).
Proof.
  intros Hin. destruct (containsIdx_first l t) as [[Hnot _]|(n & Heq & Hn & _)]; [done|].
  exists n. split; [done|]. rewrite Heq. by apply deleteIdx_perm.
Qed.

(** One round of pruning on a duplicate-free entry: the target goes, the
    others stay. *)
Lemma prune_target_elem cur t0 :
  NoDup (default [] cur) ->
  NoDup (default [] (prune_target cur t0))
  /\ forall t, In t (default [] (prune_target cur t0)) <-> In t (default [] cur) /\ t <> t0.
Proof.
  intros Hnd. unfold prune_target. set (l := default [] cur) in *.
  destruct (containsIdx_first l t0) as [[Hnot ->]|(n & Heq & Hn & _)].
  - cbn [Z.eqb Pos.eqb]. fold l.
    assert (Hl : default [] (if (length l =? 0)%nat then None else cur) = l).
    { destruct (Nat.eqb_spec (length l) 0) as [H0|]; [|done].
      by destruct l. }
    rewrite Hl. split; [done|]. intros t. split; [|tauto].
    intros Hin. split; [done|]. congruence.
  - rewrite Heq. destruct (Z.eqb_spec (Z.of_nat n) (-1)); [lia|]. cbn [default].
    pose proof (deleteIdx_perm l n t0 Hn) as [_ Hperm].
    assert (Hl : default [] (if (length (deleteIdx l (Z.of_nat n)) =? 0)%nat
                            then None else Some (deleteIdx l (Z.of_nat n)))
                 = deleteIdx l (Z.of_nat n)).
    { destruct (Nat.eqb_spec (length (deleteIdx l (Z.of_nat n))) 0) as [H0|]; [|done].
      by destruct (deleteIdx l (Z.of_nat n)). }
    unfold id in *. rewrite Hl. rewrite Hperm in Hnd. apply NoDup_cons in Hnd as [Hnotin Hnd'].
    split; [done|]. intros t. split.
    + intros Hin. split.
      * apply (Permutation_in _ (Permutation_sym Hperm)). by right.
      * intros ->. apply Hnotin. by apply list_elem_of_In.
    + intros [Hin Hne]. apply (Permutation_in _ Hperm) in Hin as [?|?]; [congruence|done].
Qed.

Lemma prune_targets_elem ts cur :
  NoDup (default [] cur) ->
  NoDup (default [] (fold_left prune_target ts cur))
  /\ forall t, In t (default [] (fold_left prune_target ts cur))
               <-> In t (default [] cur) /\ ~ In t ts.
Proof.
  revert cur. induction ts as [|t0 ts IH]; intros cur Hnd; simpl.
  - split; [done|]. tauto.
  - destruct (prune_target_elem cur t0 Hnd) as [Hnd' Hel].
    destruct (IH _ Hnd') as [Hnd'' Hel'']. split; [done|].
    intros t. rewrite Hel'', Hel. split.
    + intros [[Hin Hne] Hts]. split; [done|]. intros [?|?]; [congruence|done].
    + intros [Hin Hno]. split; [split; [done|]|]; intros ?; apply Hno; auto.
Qed.

(** Pruning never leaves an empty list behind. *)
Lemma prune_target_nonempty cur t0 l : prune_target cur t0 = Some l -> l <> [].
Proof.
  unfold prune_target.
  destruct (Nat.eqb_spec (length (default [] (if (containsIdx (default [] cur) t0 =? -1)%Z
             then cur else Some (deleteIdx (default [] cur) (containsIdx (default [] cur) t0))))) 0)
    as [|Hlen]; [discriminate|].
  intros H. rewrite H in Hlen. simpl in Hlen. by destruct l.
Qed.

Lemma prune_targets_nonempty ts cur l :
  ts <> [] -> fold_left prune_target ts cur = Some l -> l <> [].
Proof.
  intros Hts. destruct (exists_last Hts) as (ts' & t0 & ->).
  rewrite fold_left_app. simpl. apply prune_target_nonempty.
Qed.

Lemma targets_at_record_dir target ds file d :
  targets_at (record_dir target ds file) d
  = if bool_decide (d = dir file) && negb (contains (targets_at ds d) target)
    then targets_at ds d ++ [target] else targets_at ds d.
Proof.
  unfold record_dir, targets_at. fold (dir file).
  destruct (containsIdx_first (default [] (ds !! dir file)) target)
    as [[Hnot ->]|(n & -> & Hn & _)].
  - cbn [Z.eqb Pos.eqb]. destruct (bool_decide_reflect (d = dir file)) as [->|Hne].
    + rewrite lookup_insert_eq. cbn [default andb].
      destruct (contains _ target) eqn:Hc; [|done].
      apply contains_In in Hc. done.
    + rewrite lookup_insert_ne by done. done.
  - destruct (Z.eqb_spec (Z.of_nat n) (-1)); [lia|].
    destruct (bool_decide_reflect (d = dir file)) as [->|Hne]; [|done]. cbn [andb].
    assert (Hc : contains (default [] (ds !! dir file)) target = true).
    { apply contains_In. apply list_elem_of_In. by apply list_elem_of_lookup_2 in Hn. }
    by rewrite Hc.
Qed.

Lemma record_dir_elem target ds file d t :
  In t (targets_at (record_dir target ds file) d)
  <-> In t (targets_at ds d) \/ (t = target /\ d = dir file).
Proof.
  rewrite targets_at_record_dir.
  destruct (bool_decide_reflect (d = dir file)) as [->|Hne]; cbn [andb].
  - destruct (contains _ target) eqn:Hc; cbn [negb].
    + apply contains_In in Hc. split; [tauto|]. intros [?|[-> _]]; done.
    + rewrite in_app_iff. cbn [In]. split; [intros [?|[<-|[]]]; tauto|].
      intros [?|[-> _]]; tauto.
  - split; [tauto|]. intros [?|[_ ?]]; done.
Qed.

Lemma record_dirs_elem target files ds d t :
  In t (targets_at (fold_left (record_dir target) files ds) d)
  <-> In t (targets_at ds d) \/ (t = target /\ exists file, In file files /\ dir file = d).
Proof.
  revert ds. induction files as [|file files IH]; intros ds; simpl.
  - split; [tauto|]. intros [?|[_ (? & [] & _)]]. done.
  - rewrite IH, record_dir_elem. split.
    + intros [[?|[-> ->]]|[-> (f & Hf & <-)]]; eauto 8.
    + intros [?|[-> (f & [<-|Hf] & <-)]]; eauto 8.
Qed.

Lemma record_all_elem toWatchByTarget targets ds d t :
  In t (targets_at
          (fold_left (fun ds target =>
                        fold_left (record_dir target) (default [] (toWatchByTarget !! target)) ds)
             targets ds) d)
  <-> In t (targets_at ds d)
      \/ (In t targets /\ exists file, In file (files_of toWatchByTarget t) /\ dir file = d).
Proof.
  revert ds. induction targets as [|target targets IH]; intros ds; simpl.
  - split; [tauto|]. intros [?|[[] _]]. done.
  - rewrite IH, record_dirs_elem. unfold files_of. split.
    + intros [[?|[-> ?]]|[? ?]]; eauto 8.
    + intros [?|[[<-|?] ?]]; eauto 8.
Qed.

Lemma targets_at_pruned targets (dirStorage : gmap string (list string)) d :
  targets_at (omap (fun l => fold_left prune_target targets (Some l)) dirStorage) d
  = match dirStorage !! d with
    | Some l => default [] (fold_left prune_target targets (Some l))
    | None => []
    end.
Proof. unfold targets_at. rewrite lookup_omap. by destruct (dirStorage !! d). Qed.

(** X3.  What [dirWatchedByTarget] leaves in the map, when the lists it
    finds are free of duplicates: a target of the current pass is listed
    for a directory exactly when one of its files lies in that directory;
    a target that is not part of the pass is listed where it was. *)
Theorem dirWatchedByTarget_spec toWatchByTarget targets
    (dirStorage : gmap string (list string)) d t :
  (forall d' l, dirStorage !! d' = Some l -> NoDup l) ->
  In t (targets_at (dirWatchedByTarget toWatchByTarget targets dirStorage) d)
  <-> (~ In t targets /\ In t (targets_at dirStorage d))
      \/ (In t targets /\ exists file, In file (files_of toWatchByTarget t) /\ dir file = d).
Proof.
  intros Hnd. unfold dirWatchedByTarget. rewrite record_all_elem, targets_at_pruned.
  unfold targets_at.
  destruct (dirStorage !! d) as [l|] eqn:Hd; cbn [default].
  - destruct (prune_targets_elem targets (Some l) (Hnd d l Hd)) as [_ Hel].
    rewrite Hel. cbn [default]. tauto.
  - cbn [In]. tauto.
Qed.

Lemma dirWatchedByTarget_spec_witness :
  let dirStorage : gmap string (list string) := {["/ws/a/" := ["//a:x"; "//b:y"]]} in
  let toWatchByTarget : gmap string (list string) := {["//a:x" := ["/ws/c/f"]]} in
  let result := dirWatchedByTarget toWatchByTarget ["//a:x"] dirStorage in
  (In "//a:x" (targets_at result "/ws/c/")
   <-> (~ In "//a:x" ["//a:x"] /\ In "//a:x" (targets_at dirStorage "/ws/c/"))
       \/ (In "//a:x" ["//a:x"]
           /\ exists file, In file (files_of toWatchByTarget "//a:x") /\ dir file = "/ws/c/"))
  /\ targets_at result "/ws/a/" = ["//b:y"]
  /\ targets_at result "/ws/c/" = ["//a:x"].
Proof.
  intros dirStorage toWatchByTarget result. split; [|split; vm_compute; reflexivity].
  apply (dirWatchedByTarget_spec toWatchByTarget ["//a:x"] dirStorage "/ws/c/" "//a:x").
  intros d' l Hl. apply lookup_singleton_Some in Hl as [_ <-].
  apply NoDup_cons. split; [|apply NoDup_singleton].
  intros Hin. apply list_elem_of_singleton in Hin. discriminate.
Defined.

Lemma NoDup_targets_at_record_dir target ds file d :
  NoDup (targets_at ds d) -> NoDup (targets_at (record_dir target ds file) d).
Proof.
  intros Hnd. rewrite targets_at_record_dir.
  destruct (bool_decide (d = dir file)); cbn [andb]; [|done].
  destruct (contains (targets_at ds d) target) eqn:Hc; cbn [negb]; [done|].
  apply NoDup_app. split; [done|]. split; [|apply NoDup_singleton].
  intros x Hx Hx'. apply list_elem_of_singleton in Hx' as ->.
  apply list_elem_of_In, contains_In in Hx. congruence.
Qed.

Lemma lookup_targets_at (m : gmap string (list string)) d l :
  m !! d = Some l -> targets_at m d = l.
Proof. unfold targets_at. by intros ->. Qed.

(** X4.  [dirWatchedByTarget] keeps the lists of the map free of
    duplicates. *)
Theorem dirWatchedByTarget_NoDup toWatchByTarget targets
    (dirStorage : gmap string (list string)) :
  (forall d l, dirStorage !! d = Some l -> NoDup l) ->
  forall d l, dirWatchedByTarget toWatchByTarget targets dirStorage !! d = Some l -> NoDup l.
Proof.
  intros Hnd d l Hl. apply lookup_targets_at in Hl as <-. unfold dirWatchedByTarget.
  set (pruned := omap _ dirStorage).
  assert (Hp : NoDup (targets_at pruned d)).
  { unfold pruned. rewrite targets_at_pruned.
    destruct (dirStorage !! d) as [l|] eqn:Hd; [|apply NoDup_nil_2].
    apply (prune_targets_elem targets (Some l)), (Hnd d l Hd). }
  clearbody pruned. revert pruned Hp.
  induction targets as [|target targets IH]; intros ds Hds; simpl; [done|].
  apply IH. generalize (default [] (toWatchByTarget !! target)). intros files.
  revert ds Hds. induction files as [|file files IHf]; intros ds Hds; simpl; [done|].
  apply IHf. by apply NoDup_targets_at_record_dir.
Qed.

Lemma record_dir_nonempty target (ds : gmap string (list string)) file :
  (forall d l, ds !! d = Some l -> l <> []) ->
  forall d l, record_dir target ds file !! d = Some l -> l <> [].
Proof.
  intros Hds d l. unfold record_dir.
  destruct (_ =? _)%Z; [|apply Hds].
  destruct (decide (fst (filepath.Split file) = d)) as [<-|Hne].
  - rewrite lookup_insert_eq. intros [= <-]. by destruct (default [] _).
  - rewrite lookup_insert_ne by done. apply Hds.
Qed.

(** X5.  After a pass over at least one target no directory of the map is
    left with an empty list of targets. *)
Theorem dirWatchedByTarget_nonempty toWatchByTarget targets
    (dirStorage : gmap string (list string)) d l :
  targets <> [] ->
  dirWatchedByTarget toWatchByTarget targets dirStorage !! d = Some l -> l <> [].
Proof.
  intros Hts. unfold dirWatchedByTarget.
  set (pruned := omap _ dirStorage).
  assert (Hp : forall d l, pruned !! d = Some l -> l <> []).
  { intros d' l'. unfold pruned. rewrite lookup_omap.
    destruct (dirStorage !! d') as [l0|]; [|discriminate]. simpl.
    by apply prune_targets_nonempty. }
  clearbody pruned. revert d l. generalize targets at 1. intros ts. clear Hts.
  revert pruned Hp.
  induction ts as [|target ts IH]; intros ds Hds; simpl; [done|].
  apply IH. generalize (default [] (toWatchByTarget !! target)). intros files.
  revert ds Hds. induction files as [|file files IHf]; intros ds Hds; simpl; [done|].
  apply IHf. by apply record_dir_nonempty.
Qed.

(** *** What a reconciliation pass leaves behind *)

(** The loop of [watcherAdd]: the files it records are files of the list,
    each in a directory the watcher accepted; when the watcher accepts
    every directory, all of them are recorded.  It removes nothing. *)
Lemma watcherAdd_loop_spec env watcher toWatch (st : AddState) w :
  exists cs filesFound watched (uniqueDirectories : gmap string (list string)),
    watcherAdd_loop env watcher toWatch st w
    = (Done (filesFound, watched, uniqueDirectories), emit cs w)
    /\ (forall f, f ∈ watched -> f ∈ st.1.2 \/ In f toWatch)
    /\ ((forall f, f ∈ st.1.2 -> is_Some (st.2 !! dir f)) ->
        forall f, f ∈ watched -> is_Some (uniqueDirectories !! dir f))
    /\ ((forall d, watcher_Add env watcher d = None) ->
        watched = st.1.2 ∪ list_to_set toWatch)
    /\ (st.1.1 = ∅ -> toWatch = [] -> filesFound = ∅)
    /\ List.filter is_Watcher_Remove cs = []
    /\ List.filter is_lifecycle_call cs = [].
Proof.
  revert st w. induction toWatch as [|file toWatch IH]; intros [[ff wd] ud] w.
  - exists [], ff, wd, ud. cbn [watcherAdd_loop fst snd]. rewrite emit_nil.
    split; [done|]. split; [tauto|]. split; [done|].
    split; [intros _; set_solver|]. done.
  - cbn [watcherAdd_loop fst snd]. run. fold (dir file).
    set (ff' := if negb (os_IsNotExist env file) then {[file]} ∪ ff else ff).
    destruct (ud !! dir file) as [l|] eqn:Hud.
    + destruct (IH (ff', {[file]} ∪ wd, ud) (emit [Os_Stat file] w))
        as (cs & ff2 & wd2 & ud2 & -> & Ha & Hb & Hd & _ & Hr & Hl).
      cbn [fst snd] in *. rewrite emit_emit.
      exists ([Os_Stat file] ++ cs), ff2, wd2, ud2. split; [done|].
      split; [|split; [|split; [|split]]].
      * intros f Hf. destruct (Ha f Hf) as [Hin|Hin]; [|right; by right].
        apply elem_of_union in Hin as [->%elem_of_singleton|Hin]; [right; by left|by left].
      * intros Hinv. apply Hb. intros f [->%elem_of_singleton|Hin]%elem_of_union; eauto.
      * intros Hok. rewrite (Hd Hok). cbn [list_to_set]. set_solver.
      * discriminate.
      * split; rewrite ?List.filter_app, ?Hr, ?Hl; done.
    + run. destruct (watcher_Add env watcher (dir file)) as [err|] eqn:Hadd.
      * destruct (negb (strings.HasSuffix (filepath.ToSlash file) "/tools/defaults/BUILD"));
          run;
          match goal with
          | |- context [watcherAdd_loop env watcher toWatch ?st' ?w'] =>
              destruct (IH st' w') as (cs & ff2 & wd2 & ud2 & -> & Ha & Hb & Hd & _ & Hr & Hl)
          end;
          cbn [fst snd] in *; rewrite emit_emit;
          (eexists; exists ff2, wd2, ud2; split; [reflexivity|]);
          (split; [intros f Hf; destruct (Ha f Hf); [by left|right; by right]|]);
          (split; [done|]);
          (split; [intros Hok; rewrite Hok in Hadd; discriminate|]);
          (split; [discriminate|]);
          (split; rewrite ?List.filter_app, ?Hr, ?Hl; done).
      * match goal with
        | |- context [watcherAdd_loop env watcher toWatch ?st' ?w'] =>
            destruct (IH st' w') as (cs & ff2 & wd2 & ud2 & -> & Ha & Hb & Hd & _ & Hr & Hl)
        end.
        cbn [fst snd] in *. rewrite emit_emit.
        eexists; exists ff2, wd2, ud2. split; [reflexivity|].
        split; [|split; [|split; [|split]]].
        -- intros f Hf. destruct (Ha f Hf) as [Hin|Hin]; [|right; by right].
           apply elem_of_union in Hin as [->%elem_of_singleton|Hin]; [right; by left|by left].
        -- intros Hinv. apply Hb.
           intros f [->%elem_of_singleton|Hin]%elem_of_union.
           ++ rewrite lookup_insert_eq. eauto.
           ++ destruct (decide (dir file = dir f)) as [->|Hne];
                [rewrite lookup_insert_eq|rewrite lookup_insert_ne by done]; eauto.
        -- intros Hok. rewrite (Hd Hok). cbn [list_to_set]. set_solver.
        -- discriminate.
        -- split; rewrite ?List.filter_app, ?Hr, ?Hl; done.
Qed.

Lemma filter_Remove_watcher_call cs :
  List.filter is_Watcher_Remove cs = List.filter is_Watcher_Remove (List.filter is_watcher_call cs).
Proof.
  induction cs as [|c cs IH]; [done|]. destruct c; simpl; congruence.
Qed.

Lemma filter_Remove_map watcher (l : list string) :
  List.filter is_Watcher_Remove (map (fun file => Watcher_Remove watcher (dir file)) l)
  = map (fun file => Watcher_Remove watcher (dir file)) l.
Proof. induction l as [|x l IH]; simpl; congruence. Qed.

(** A reconciliation pass on a query result, in one equation: the watch set
    it stores, the directories the watcher accepted, and the directories
    it removes. *)
Lemma watchFiles_eq env query watcher targets err w :
  bazel_Query env query = (Some targets, err) ->
  exists cs watched (uniqueDirectories : gmap string (list string)),
    watchFiles env query watcher w
    = (Done tt,
       with_ib (fun i => set_filesWatched (<[watcher := watched]> (filesWatched i)) i)
         (emit cs w))
    /\ (forall f, f ∈ watched -> In f (translated (FindWorkspace env).1 targets))
    /\ (forall f, f ∈ watched -> is_Some (uniqueDirectories !! dir f))
    /\ ((forall d, watcher_Add env watcher d = None) ->
        watched = list_to_set (translated (FindWorkspace env).1 targets))
    /\ List.filter is_Watcher_Remove cs
       = map (fun file => Watcher_Remove watcher (dir file))
           (List.filter (fun file => is_nil (uniqueDirectories !! dir file))
              (elements (watch_set (ib w) watcher)))
    /\ List.filter is_lifecycle_call cs = [].
Proof.
  intros Hq. unfold watchFiles.
  destruct (queryForSourceFiles_eq env query w) as (cs0 & Hcs0 & Heq).
  rewrite Hq in Heq. cbn [fst] in Heq. rewrite (bind_eq _ _ _ _ _ Heq).
  unfold watcherAdd.
  destruct (watcherAdd_loop_spec env watcher (translated (FindWorkspace env).1 targets)
              (∅, ∅, ∅) (emit cs0 w))
    as (cs1 & ff & wd & ud & Hadd & Ha & Hb & Hd & _ & Hr1 & Hl1).
  cbn [fst snd] in *. run. rewrite (bind_eq _ _ _ _ _ Hadd). run. cbn [fst].
  destruct (size ff =? 0)%nat; run;
    match goal with
    | |- context [watcherRemove env ud watcher wd ?w'] =>
        destruct (watcherRemove_eq env ud watcher wd w') as (cs3 & -> & Hw3 & Hl3)
    end;
    rewrite emit_emit; (eexists; exists wd, ud; split; [reflexivity|]);
    (split; [intros f Hf; destruct (Ha f Hf) as [Hin|Hin]; [set_solver|done]|]);
    (split; [apply Hb; set_solver|]);
    (split; [intros Hok; rewrite (Hd Hok); set_solver|]);
    rewrite !List.filter_app, Hr1, Hl1, Hl3;
    rewrite (filter_Remove_watcher_call cs0), (internal_no_watcher_call _ Hcs0);
    rewrite (filter_Remove_watcher_call cs3), Hw3, filter_Remove_map;
    rewrite (internal_no_lifecycle_call _ Hcs0);
    cbn [List.filter is_Watcher_Remove is_lifecycle_call app]; cbn [ib emit];
    rewrite ?app_nil_r; done.
Qed.

Lemma watch_set_insert_ne watcher watcher' watched i :
  watcher <> watcher' ->
  watch_set (set_filesWatched (<[watcher := watched]> (filesWatched i)) i) watcher'
  = watch_set i watcher'.
Proof. intros Hne. unfold watch_set. simpl. by rewrite lookup_insert_ne. Qed.

(** X6.  After a reconciliation pass on a query result, every file of the
    new watch set is a file of the translated result; when the watcher
    accepts every directory the new watch set is the translated result;
    and the watch set of the other watcher is the one it was. *)
Theorem watchFiles_watch_set env query watcher targets err w :
  bazel_Query env query = (Some targets, err) ->
  exists w',
    watchFiles env query watcher w = (Done tt, w')
    /\ (forall f, f ∈ watch_set (ib w') watcher ->
                  In f (translated (FindWorkspace env).1 targets))
    /\ ((forall d, watcher_Add env watcher d = None) ->
        watch_set (ib w') watcher = list_to_set (translated (FindWorkspace env).1 targets))
    /\ (forall watcher', watcher <> watcher' ->
                         watch_set (ib w') watcher' = watch_set (ib w) watcher').
Proof.
  intros Hq. destruct (watchFiles_eq env query watcher targets err w Hq)
    as (cs & wd & ud & -> & Ha & Hb & Hd & Hr & Hl).
  eexists. split; [reflexivity|]. cbn [ib with_ib emit]. rewrite watch_set_insert.
  split; [done|]. split; [done|]. intros watcher' Hne. by apply watch_set_insert_ne.
Qed.

(** X7.  A reconciliation pass removes from the watcher only directories of
    files that were watched before, and never the directory of a file of
    the new watch set. *)
Theorem watchFiles_removes_stale env query watcher targets err w :
  bazel_Query env query = (Some targets, err) ->
  exists w',
    watchFiles env query watcher w = (Done tt, w')
    /\ forall watcher' d,
         In (Watcher_Remove watcher' d) (new_calls w w') ->
         watcher' = watcher
         /\ (exists f, f ∈ watch_set (ib w) watcher /\ dir f = d)
         /\ forall f, f ∈ watch_set (ib w') watcher -> dir f <> d.
Proof.
  intros Hq. destruct (watchFiles_eq env query watcher targets err w Hq)
    as (cs & wd & ud & -> & Ha & Hb & Hd & Hr & Hl).
  eexists. split; [reflexivity|]. rewrite new_calls_emit. cbn [ib with_ib emit].
  rewrite watch_set_insert. intros watcher' d Hin.
  assert (Hin' : In (Watcher_Remove watcher' d) (List.filter is_Watcher_Remove cs))
    by (by apply filter_In).
  rewrite Hr in Hin'. apply in_map_iff in Hin' as (f & [= <- <-] & Hf).
  apply filter_In in Hf as [Hf Hnone]. split; [done|]. split.
  - exists f. split; [|done]. by apply elem_of_elements, list_elem_of_In.
  - intros f' Hf' Heq. destruct (Hb f' Hf') as [l Hlk]. rewrite Heq in Hlk.
    by rewrite Hlk in Hnone.
Qed.

(** X8.  Reconciling again with the result the watch set came from, on a
    watcher that accepts every directory, removes nothing and stores the
    same watch set. *)
Theorem watchFiles_again env query watcher targets err w :
  bazel_Query env query = (Some targets, err) ->
  (forall d, watcher_Add env watcher d = None) ->
  watch_set (ib w) watcher = list_to_set (translated (FindWorkspace env).1 targets) ->
  exists w',
    watchFiles env query watcher w = (Done tt, w')
    /\ List.filter is_Watcher_Remove (new_calls w w') = []
    /\ watch_set (ib w') watcher = watch_set (ib w) watcher.
Proof.
  intros Hq Hok Hset. destruct (watchFiles_eq env query watcher targets err w Hq)
    as (cs & wd & ud & -> & Ha & Hb & Hd & Hr & Hl).
  eexists. split; [reflexivity|]. rewrite new_calls_emit. cbn [ib with_ib emit].
  rewrite watch_set_insert, (Hd Hok), Hset. split; [|done].
  rewrite Hr, Hset, <- (Hd Hok).
  assert (Hnil : forall l : list string,
            (forall f, In f l -> f ∈ wd) ->
            List.filter (fun file => is_nil (ud !! dir file)) l = []).
  { induction l as [|f l IH]; intros Hin; [done|]. simpl.
    destruct (Hb f (Hin f (or_introl eq_refl))) as [x ->]. simpl.
    apply IH. intros f' Hf'. apply Hin. by right. }
  rewrite Hnil; [done|]. intros f Hf. by apply elem_of_elements, list_elem_of_In.
Qed.

(** *** The reconciliation of the multi-target loop *)

Lemma queryTargets_spec env query targets (tw : gmap string (list string)) w :
  (forall t, In t targets -> (bazel_Query env (strings.Sprintf1 query t)).1 <> None) ->
  exists cs (tw' : gmap string (list string)),
    queryTargets env query targets tw w = (Done (Some tw'), emit cs w)
    /\ internal cs
    /\ (forall t, In t targets -> files_of tw' t = files_queried env query t)
    /\ (forall t, ~ In t targets -> files_of tw' t = files_of tw t).
Proof.
  revert tw w. induction targets as [|target targets IH]; intros tw w Hres.
  - exists [], tw. simpl. rewrite emit_nil. split; [done|]. split; [solve_internal|].
    split; [intros t []|done].
  - cbn [queryTargets].
    destruct (queryForSourceFiles_eq env (strings.Sprintf1 query target) w) as (cs0 & Hcs0 & Heq).
    pose proof (Hres target (or_introl eq_refl)) as Hsome.
    destruct (bazel_Query env (strings.Sprintf1 query target)).1 as [ts|] eqn:Hq; [|done].
    rewrite (bind_eq _ _ _ _ _ Heq).
    destruct (IH (<[target := translated (FindWorkspace env).1 ts]> tw) (emit cs0 w))
      as (cs & tw' & -> & Hcs & Hin & Hout).
    { intros t Ht. apply Hres. by right. }
    rewrite emit_emit. exists (cs0 ++ cs), tw'. split; [done|]. split; [solve_internal|].
    split.
    + intros t [<-|Ht].
      * destruct (in_dec string_dec target targets) as [Hi|Hni]; [by apply Hin|].
        rewrite (Hout _ Hni). unfold files_of, files_queried.
        by rewrite lookup_insert_eq, Hq.
      * by apply Hin.
    + intros t Hni. rewrite Hout by (intros ?; apply Hni; by right).
      unfold files_of. rewrite lookup_insert_ne; [done|]. intros ->. apply Hni. by left.
Qed.

Lemma watcherAdd_spec env query watcher toWatch (st : AddState) w :
  exists cs filesFound watched (uniqueDirectories : gmap string (list string)),
    watcherAdd env query watcher toWatch st w
    = (Done (filesFound, watched, uniqueDirectories), emit cs w)
    /\ (forall f, f ∈ watched -> f ∈ st.1.2 \/ In f toWatch)
    /\ ((forall d, watcher_Add env watcher d = None) ->
        watched = st.1.2 ∪ list_to_set toWatch)
    /\ List.filter is_Watcher_Remove cs = []
    /\ List.filter is_lifecycle_call cs = [].
Proof.
  unfold watcherAdd.
  destruct (watcherAdd_loop_spec env watcher toWatch st w)
    as (cs & ff & wd & ud & Heq & Ha & _ & Hd & _ & Hr & Hl).
  rewrite (bind_eq _ _ _ _ _ Heq). run. cbn [fst].
  destruct (size ff =? 0)%nat; run;
    (eexists; exists ff, wd, ud; split; [reflexivity|]);
    (split; [done|]); (split; [done|]);
    rewrite ?List.filter_app, Hr, Hl; done.
Qed.

Lemma addTargets_spec env query watcher targets (tw : gmap string (list string))
    (st : AddState) w :
  exists cs filesFound watched (uniqueDirectories : gmap string (list string)),
    addTargets env query watcher targets tw st w
    = (Done (filesFound, watched, uniqueDirectories), emit cs w)
    /\ (forall f, f ∈ watched ->
                  f ∈ st.1.2 \/ exists t, In t targets /\ In f (files_of tw t))
    /\ ((forall d, watcher_Add env watcher d = None) ->
        forall f, (f ∈ st.1.2 \/ exists t, In t targets /\ In f (files_of tw t)) ->
                  f ∈ watched)
    /\ List.filter is_Watcher_Remove cs = []
    /\ List.filter is_lifecycle_call cs = [].
Proof.
  revert st w. induction targets as [|target targets IH]; intros st w.
  - destruct st as [[ff wd] ud]. exists [], ff, wd, ud. simpl. rewrite emit_nil.
    split; [done|]. split; [tauto|]. split; [|done].
    intros _ f [?|(t & [] & _)]. done.
  - cbn [addTargets]. fold (files_of tw target).
    destruct (watcherAdd_spec env query watcher (files_of tw target) st w)
      as (cs1 & ff1 & wd1 & ud1 & Heq & Ha1 & Hd1 & Hr1 & Hl1).
    rewrite (bind_eq _ _ _ _ _ Heq).
    destruct (IH (ff1, wd1, ud1) (emit cs1 w)) as (cs & ff & wd & ud & -> & Ha & Hd & Hr & Hl).
    cbn [fst snd] in *. rewrite emit_emit. exists (cs1 ++ cs), ff, wd, ud.
    split; [done|]. split; [|split].
    + intros f Hf. destruct (Ha f Hf) as [Hin|(t & Ht & Hin)].
      * destruct (Ha1 f Hin) as [?|?]; [by left|]. right. exists target. split; [by left|done].
      * right. exists t. split; [by right|done].
    + intros Hok f Hf. apply (Hd Hok). rewrite (Hd1 Hok).
      destruct Hf as [Hin|(t & [<-|Ht] & Hin)].
      * left. set_solver.
      * left. apply elem_of_union_r, elem_of_list_to_set, list_elem_of_In. done.
      * right. eauto.
    + by rewrite !List.filter_app, Hr1, Hr, Hl1, Hl.
Qed.

Lemma load_store ref v i : load ref (store ref v i) = v.
Proof. by destruct ref. Qed.

Lemma load_set_filesWatched ref v i : load ref (set_filesWatched v i) = load ref i.
Proof. by destruct ref. Qed.

Lemma watch_set_store ref v i watcher : watch_set (store ref v i) watcher = watch_set i watcher.
Proof. by destruct ref. Qed.

(** X9.  A reconciliation pass of the multi-target loop, when the client
    hands back a result for every target.  The target-directory map
    becomes the one [dirWatchedByTarget] computes from the files of each
    target; every file of the new watch set is a file of one of the
    targets, and all of them are in it when the watcher accepts every
    directory; a directory is removed from the watcher only when the new
    map lists no target for it, it held a file watched before, and it
    holds no file of the new watch set. *)
Theorem watchManyFiles_spec env query targets watcher ref w :
  (forall t, In t targets -> (bazel_Query env (strings.Sprintf1 query t)).1 <> None) ->
  exists w' (toWatchByTarget : gmap string (list string)),
    watchManyFiles env query targets watcher ref w = (Done tt, w')
    /\ (forall t, In t targets -> files_of toWatchByTarget t = files_queried env query t)
    /\ load ref (ib w') = dirWatchedByTarget toWatchByTarget targets (load ref (ib w))
    /\ (forall f, f ∈ watch_set (ib w') watcher ->
                  exists t, In t targets /\ In f (files_queried env query t))
    /\ ((forall d, watcher_Add env watcher d = None) ->
        forall t f, In t targets -> In f (files_queried env query t) ->
                    f ∈ watch_set (ib w') watcher)
    /\ (forall watcher' d,
          In (Watcher_Remove watcher' d) (new_calls w w') ->
          watcher' = watcher
          /\ load ref (ib w') !! d = None
          /\ (exists f, f ∈ watch_set (ib w) watcher /\ dir f = d)
          /\ forall f, f ∈ watch_set (ib w') watcher -> dir f <> d).
Proof.
  intros Hres. unfold watchManyFiles.
  destruct (queryTargets_spec env query targets ∅ w Hres) as (cs0 & tw & Heq & Hcs0 & Htw & _).
  rewrite (bind_eq _ _ _ _ _ Heq). run.
  set (map' := dirWatchedByTarget tw targets (load ref (ib w))).
  set (w1 := with_ib _ (emit cs0 w)).
  destruct (addTargets_spec env query watcher targets tw (∅, ∅, ∅) w1)
    as (cs1 & ff & wd & ud & Hadd & Ha & Hd & Hr1 & Hl1).
  cbn [fst snd] in *. rewrite (bind_eq _ _ _ _ _ Hadd). run. cbn [ib emit].
  assert (Hload : load ref (ib w1) = map') by apply load_store.
  destruct (watcherRemove_eq env map' watcher wd (emit cs1 w1))
    as (cs2 & Hrem & Hw2 & Hl2).
  assert (Hwd : forall f, f ∈ wd -> exists t, In t targets /\ In f (files_queried env query t)).
  { intros f Hf. destruct (Ha f Hf) as [Hin|(t & Ht & Hin)]; [set_solver|].
    exists t. split; [done|]. by rewrite <- (Htw t Ht). }
  eexists. exists tw. split; [rewrite <- Hload in Hrem; exact Hrem|]. split; [done|].
  cbn [ib with_ib emit]. rewrite watch_set_insert.
  split; [|split; [done|split]].
  - rewrite load_set_filesWatched. exact Hload.
  - intros Hok t f Ht Hf. apply (Hd Hok). right. exists t. split; [done|]. by rewrite Htw.
  - intros watcher' d Hin. unfold new_calls in Hin. cbn [calls with_ib emit] in Hin.
    unfold w1 in Hin. cbn [calls with_ib emit] in Hin.
    rewrite <- !app_assoc, drop_app_length in Hin.
    assert (Hin' : In (Watcher_Remove watcher' d)
                     (List.filter is_Watcher_Remove (cs0 ++ cs1 ++ cs2)))
      by (by apply filter_In).
    rewrite !List.filter_app, Hr1 in Hin'.
    rewrite (filter_Remove_watcher_call cs0), (internal_no_watcher_call _ Hcs0) in Hin'.
    rewrite (filter_Remove_watcher_call cs2), Hw2, filter_Remove_map in Hin'.
    cbn [app] in Hin'. apply in_map_iff in Hin' as (f & [= <- <-] & Hf).
    apply filter_In in Hf as [Hf Hnone].
    assert (Hmap : map' !! dir f = None) by (by destruct (map' !! dir f)).
    split; [done|]. split; [rewrite load_set_filesWatched; by rewrite <- Hmap, <- Hload|]. split.
    + exists f. split; [|done]. apply elem_of_elements, list_elem_of_In.
      cbn [ib emit] in Hf. unfold w1 in Hf. cbn [ib with_ib emit] in Hf.
      by rewrite watch_set_store in Hf.
    + intros f' Hf' Hdir. destruct (Ha f' Hf') as [?|(t & Ht & Hin2)]; [set_solver|].
      assert (Hlisted : In t (targets_at map' (dir f'))).
      { unfold map', dirWatchedByTarget. apply record_all_elem. right. eauto. }
      unfold targets_at in Hlisted. rewrite Hdir, Hmap in Hlisted. done.
Qed.

Lemma watchManyFiles_spec_witness :
  let w := world (engine QUERY) in
  exists w' (toWatchByTarget : gmap string (list string)),
    watchManyFiles env_a buildQuery ["//a:x"] buildFileWatcher ref_bldDirToWatch w
    = (Done tt, w')
    /\ (forall t, In t ["//a:x"] ->
                  files_of toWatchByTarget t = files_queried env_a buildQuery t)
    /\ load ref_bldDirToWatch (ib w')
       = dirWatchedByTarget toWatchByTarget ["//a:x"] (load ref_bldDirToWatch (ib w))
    /\ (forall f, f ∈ watch_set (ib w') buildFileWatcher ->
                  exists t, In t ["//a:x"] /\ In f (files_queried env_a buildQuery t))
    /\ ((forall d, watcher_Add env_a buildFileWatcher d = None) ->
        forall t f, In t ["//a:x"] -> In f (files_queried env_a buildQuery t) ->
                    f ∈ watch_set (ib w') buildFileWatcher)
    /\ (forall watcher' d,
          In (Watcher_Remove watcher' d) (new_calls w w') ->
          watcher' = buildFileWatcher
          /\ load ref_bldDirToWatch (ib w') !! d = None
          /\ (exists f, f ∈ watch_set (ib w) buildFileWatcher /\ dir f = d)
          /\ forall f, f ∈ watch_set (ib w') buildFileWatcher -> dir f <> d).
Proof.
  intros w.
  apply (watchManyFiles_spec env_a buildQuery ["//a:x"] buildFileWatcher ref_bldDirToWatch w).
  intros t _. discriminate.
Defined.

(** *** Concrete runs of the reconciliation and of the map *)

Lemma dirWatchedByTarget_NoDup_witness :
  let dirStorage : gmap string (list string) := {["/ws/a/" := ["//a:x"; "//b:y"]]} in
  let toWatchByTarget : gmap string (list string) := {["//a:x" := ["/ws/a/f"; "/ws/a/g"]]} in
  dirWatchedByTarget toWatchByTarget ["//a:x"] dirStorage !! "/ws/a/"
  = Some ["//b:y"; "//a:x"]
  /\ NoDup ["//b:y"; "//a:x"].
Proof.
  intros dirStorage toWatchByTarget.
  assert (H : dirWatchedByTarget toWatchByTarget ["//a:x"] dirStorage !! "/ws/a/"
              = Some ["//b:y"; "//a:x"]) by (vm_compute; reflexivity).
  split; [exact H|].
  refine (dirWatchedByTarget_NoDup toWatchByTarget ["//a:x"] dirStorage _ "/ws/a/" _ H).
  intros d' l Hl. apply lookup_singleton_Some in Hl as [_ <-].
  apply NoDup_cons. split; [|apply NoDup_singleton].
  intros Hin. apply list_elem_of_singleton in Hin. discriminate.
Defined.

Lemma dirWatchedByTarget_nonempty_witness :
  let dirStorage : gmap string (list string) := {["/ws/z/" := []]} in
  let toWatchByTarget : gmap string (list string) := {["//a:x" := ["/ws/c/f"]]} in
  dirWatchedByTarget toWatchByTarget ["//a:x"] dirStorage !! "/ws/c/" = Some ["//a:x"]
  /\ ["//a:x"] <> ([] : list string).
Proof.
  intros dirStorage toWatchByTarget.
  assert (H : dirWatchedByTarget toWatchByTarget ["//a:x"] dirStorage !! "/ws/c/"
              = Some ["//a:x"]) by (vm_compute; reflexivity).
  split; [exact H|].
  refine (dirWatchedByTarget_nonempty toWatchByTarget ["//a:x"] dirStorage "/ws/c/"
            ["//a:x"] _ H).
  discriminate.
Defined.

Lemma watchFiles_watch_set_witness :
  let w := world (engine QUERY) in
  exists w',
    watchFiles env_a "q" sourceFileWatcher w = (Done tt, w')
    /\ (forall f, f ∈ watch_set (ib w') sourceFileWatcher -> In f ["/ws/a/x"; "/ws/BUILD"])
    /\ ((forall d, watcher_Add env_a sourceFileWatcher d = None) ->
        watch_set (ib w') sourceFileWatcher = list_to_set ["/ws/a/x"; "/ws/BUILD"])
    /\ (forall watcher', sourceFileWatcher <> watcher' ->
                         watch_set (ib w') watcher' = watch_set (ib w) watcher').
Proof.
  intros w. exact (watchFiles_watch_set env_a "q" sourceFileWatcher _ None w eq_refl).
Defined.

Lemma watchFiles_removes_stale_witness :
  let w := world (watching_a QUERY) in
  exists w',
    watchFiles env_a "q" sourceFileWatcher w = (Done tt, w')
    /\ forall watcher' d,
         In (Watcher_Remove watcher' d) (new_calls w w') ->
         watcher' = sourceFileWatcher
         /\ (exists f, f ∈ watch_set (ib w) sourceFileWatcher /\ dir f = d)
         /\ forall f, f ∈ watch_set (ib w') sourceFileWatcher -> dir f <> d.
Proof.
  intros w. exact (watchFiles_removes_stale env_a "q" sourceFileWatcher _ None w eq_refl).
Defined.

Lemma watchFiles_again_witness :
  let w := world (set_filesWatched {[sourceFileWatcher := {["/ws/a/x"; "/ws/BUILD"]}]}
                    (engine QUERY)) in
  exists w',
    watchFiles env_a "q" sourceFileWatcher w = (Done tt, w')
    /\ List.filter is_Watcher_Remove (new_calls w w') = []
    /\ watch_set (ib w') sourceFileWatcher = watch_set (ib w) sourceFileWatcher.
Proof.
  intros w.
  refine (watchFiles_again env_a "q" sourceFileWatcher _ None w eq_refl (fun _ => eq_refl) _).
  vm_compute. reflexivity.
Defined.

(** *** Events *)

(** X10.  An event is a modifying one exactly when its [Op] has the bit of
    Write, Create, Rename or Remove; the bit of Chmod alone does not make
    it one. *)
Theorem modifying_spec e :
  (modifying e = true
   <-> Z.land (fsnotify.Op e) fsnotify.Write <> 0%Z
       \/ Z.land (fsnotify.Op e) fsnotify.Create <> 0%Z
       \/ Z.land (fsnotify.Op e) fsnotify.Rename <> 0%Z
       \/ Z.land (fsnotify.Op e) fsnotify.Remove <> 0%Z)
  /\ modifying (fsnotify.mkEvent (fsnotify.Name e) fsnotify.Chmod) = false.
Proof.
  split; [|reflexivity].
  unfold modifying, modifyingEvents. rewrite !Z.land_lor_distr_r.
  destruct (Z.eqb_spec (Z.lor (Z.lor (Z.lor (Z.land (fsnotify.Op e) fsnotify.Write)
                                         (Z.land (fsnotify.Op e) fsnotify.Create))
                                  (Z.land (fsnotify.Op e) fsnotify.Rename))
                           (Z.land (fsnotify.Op e) fsnotify.Remove)) 0) as [H0|Hne]; cbn [negb].
  - apply Z.lor_eq_0_iff in H0 as [H0 H4]. apply Z.lor_eq_0_iff in H0 as [H0 H3].
    apply Z.lor_eq_0_iff in H0 as [H1 H2]. split; [discriminate|]. tauto.
  - split; [intros _|done].
    destruct (Z.eq_dec (Z.land (fsnotify.Op e) fsnotify.Write) 0%Z) as [H1|]; [|tauto].
    destruct (Z.eq_dec (Z.land (fsnotify.Op e) fsnotify.Create) 0%Z) as [H2|]; [|tauto].
    destruct (Z.eq_dec (Z.land (fsnotify.Op e) fsnotify.Rename) 0%Z) as [H3|]; [|tauto].
    destruct (Z.eq_dec (Z.land (fsnotify.Op e) fsnotify.Remove) 0%Z) as [H4|]; [|tauto].
    exfalso. apply Hne. by rewrite H1, H2, H3, H4.
Qed.

(** X11.  An event that is not a modifying one is ignored on a watched file
    too: no listener hears changeDetected and the state value stays, in
    both loops; in WAIT nothing changes but the time. *)
Theorem not_modifying_event env command commandToRun commandsToRun targets joinedTargets
    debugArgs argsLength sel watcher e waited w :
  origin sel = Some (watcher, e, waited) ->
  listens (state (ib w)) watcher = true ->
  modifying e = false ->
  exists w1 wm,
    iteration env command commandToRun targets joinedTargets sel w = (Done tt, w1)
    /\ iterationMultiple env command commandsToRun targets debugArgs argsLength sel w
       = (Done tt, wm)
    /\ List.filter is_ChangeDetected (new_calls w w1) = []
    /\ List.filter is_ChangeDetected (new_calls w wm) = []
    /\ state (ib w1) = state (ib w)
    /\ state (ib wm) = state (ib w)
    /\ ib w1 = ib w
    /\ (state (ib w) = WAIT -> ib wm = ib w).
Proof.
  intros Ho Hl Hm.
  unfold iteration, iterationMultiple. rewrite !run_get. run.
  destruct sel as [e' t|e' t|]; try discriminate; injection Ho as <- <- <-;
    destruct (state (ib w)) eqn:Hs; try discriminate; run; rewrite Hm, andb_false_r; run;
    (eexists; eexists; split; [reflexivity|]; split; [reflexivity|]);
    unfold new_calls; cbn [calls ib clock emit later with_ib state set_state set_prevDir];
    rewrite ?drop_app_length, ?drop_all;
    repeat split; try done; try (rewrite <- Hs; apply set_state_same);
    try (intros _; rewrite <- Hs; by destruct (ib w)).
Qed.

Lemma not_modifying_event_witness :
  let w := world (watching_a WAIT) in
  let e := fsnotify.mkEvent "/ws/a" fsnotify.Chmod in
  let sel := SourceFileEvents e 5 in
  watched_by (ib w) sourceFileWatcher "/ws/a" = true
  /\ exists w1 wm,
       iteration env_ws "build" (build env_ws) ["//a:x"] "//a:x" sel w = (Done tt, w1)
       /\ iterationMultiple env_ws "build" (runMultiple env_ws) ["//a:x"] [[]] 0 sel w
          = (Done tt, wm)
       /\ List.filter is_ChangeDetected (new_calls w w1) = []
       /\ List.filter is_ChangeDetected (new_calls w wm) = []
       /\ state (ib w1) = state (ib w)
       /\ state (ib wm) = state (ib w)
       /\ ib w1 = ib w
       /\ (state (ib w) = WAIT -> ib wm = ib w).
Proof.
  intros w e sel. split; [vm_compute; reflexivity|].
  exact (not_modifying_event env_ws "build" (build env_ws) (runMultiple env_ws) ["//a:x"]
           "//a:x" [[]] 0%Z sel sourceFileWatcher e 5%Z w eq_refl eq_refl eq_refl).
Defined.

(** X12.  An iteration that returns moves along an arrow of the state
    graph, whatever the command is, in the single-target and in the
    multi-target loop: QUERY to RUN, RUN to WAIT, WAIT to itself or to a
    debouncing state, a debouncing state to itself or on to RUN or QUERY;
    QUIT is never entered.  The multi-target loop leaves QUERY and RUN
    with prevDir empty. *)
Theorem iterations_follow_graph env command commandToRun commandsToRun targets
    joinedTargets debugArgs argsLength sel w :
  (forall w',
     iteration env command commandToRun targets joinedTargets sel w = (Done tt, w') ->
     successor (state (ib w)) (state (ib w')) = true)
  /\ (forall w',
        iterationMultiple env command commandsToRun targets debugArgs argsLength sel w
        = (Done tt, w') ->
        successor (state (ib w)) (state (ib w')) = true
        /\ (state (ib w) = QUERY \/ state (ib w) = RUN -> prevDir (ib w') = "")).
Proof.
  split; intros w'.
  - unfold iteration. rewrite run_get. intros H.
    destruct (state (ib w)) eqn:Hs.
    + destruct sel as [e waited|e waited|]; try discriminate; revert H; run.
      * destruct (_ && _); run; by intros [= <-].
      * by intros [= <-].
    + revert H. run. intros H. inv_bind H. inv_bind H. by injection H as <-.
    + destruct sel as [e waited|e waited|]; try discriminate; revert H; run;
        destruct (_ && _); run; intros [= <-]; cbn [ib with_ib emit later state set_state];
        by rewrite ?Hs.
    + destruct sel as [e waited|e waited|]; try discriminate; revert H; run.
      * destruct (_ && _); run; by intros [= <-].
      * by intros [= <-].
    + revert H. run. intros H. inv_bind H. destruct a as [b er].
      revert H. run. by intros [= <-].
    + injection H as <-. by rewrite Hs.
  - unfold iterationMultiple. rewrite run_get. run. intros H.
    destruct (state (ib w)) eqn:Hs.
    + destruct sel as [e waited|e waited|]; try discriminate; revert H; run.
      * destruct (_ && _); run; intros [= <-]; (split; [done|]); by intros [|].
      * intros [= <-]. split; [done|]. by intros [|].
    + revert H. run. intros H. inv_bind H. revert H. run. intros H. inv_bind H.
      injection H as <-. split; [done|]. done.
    + destruct sel as [e waited|e waited|]; try discriminate; revert H; run;
        destruct (_ && _); run; intros [= <-]; cbn [ib with_ib emit later state set_state];
        rewrite ?Hs; (split; [done|]); by intros [|].
    + destruct sel as [e waited|e waited|]; try discriminate; revert H; run.
      * destruct (_ && _); run; intros [= <-]; (split; [done|]); by intros [|].
      * intros [= <-]. split; [done|]. by intros [|].
    + inv_bind H. revert H. run. intros H. inv_bind H. destruct a0 as [bufs er].
      rewrite (bind_eq _ _ _ _ _ (for_each_afterCommand _ _ _ _ _)) in H.
      revert H. run. intros [= <-]. split; [done|]. done.
    + injection H as <-. cbn [ib emit]. rewrite Hs. split; [done|]. by intros [|].
Qed.

Lemma iterations_follow_graph_witness :
  let w := world (watching_a WAIT) in
  let sel := SourceFileEvents (fsnotify.mkEvent "/ws/a" fsnotify.Write) 5 in
  exists w1 wm,
    iteration env_ws "build" (build env_ws) ["//a:x"] "//a:x" sel w = (Done tt, w1)
    /\ iterationMultiple env_ws "build" (runMultiple env_ws) ["//a:x"] [[]] 0 sel w
       = (Done tt, wm)
    /\ state (ib w1) = DEBOUNCE_RUN
    /\ successor (state (ib w)) (state (ib w1)) = true
    /\ successor (state (ib w)) (state (ib wm)) = true
    /\ (state (ib w) = QUERY \/ state (ib w) = RUN -> prevDir (ib wm) = "").
Proof.
  intros w sel.
  pose proof (iterations_follow_graph env_ws "build" (build env_ws) (runMultiple env_ws)
                ["//a:x"] "//a:x" [[]] 0%Z sel w) as [H1 Hm].
  eexists. eexists.
  split; [vm_compute; reflexivity|]. split; [vm_compute; reflexivity|].
  split; [reflexivity|]. split; [apply H1; vm_compute; reflexivity|].
  apply Hm. vm_compute. reflexivity.
Defined.

(** *** Run mode *)

Lemma filter_fanout_true (p : Call -> bool) (f : Lifecycle -> Call) w :
  (forall l, p (f l) = true) -> List.filter p (fanout f w) = fanout f w.
Proof.
  intros Hf. unfold fanout. induction (lifecycleListeners (ib w)) as [|l ls IH]; [done|].
  simpl. by rewrite Hf, IH.
Qed.

Lemma filter_fanout_false (p : Call -> bool) (f : Lifecycle -> Call) w :
  (forall l, p (f l) = false) -> List.filter p (fanout f w) = [].
Proof.
  intros Hf. unfold fanout. induction (lifecycleListeners (ib w)) as [|l ls IH]; [done|].
  simpl. by rewrite Hf, IH.
Qed.



(** X14.  Terminate and Hangup call Terminate on every managed subprocess
    that runs, and on no other, and then exit with code 3, whatever the
    interrupt counter is. *)
Theorem handleSignals_SIGTERM_SIGHUP env sig w :
  sig = SIGTERM \/ sig = SIGHUP ->
  exists w',
    handleSignals env sig w = (Exit 3, w')
    /\ forall c, In (Command_Terminate c) (new_calls w w')
                 <-> running c = true /\ In c (managed (ib w)).
Proof.
  intros Hsig.
  assert (Hgoal : forall msg,
    exists w',
      bind terminate_cmds (fun _ =>
        bind get (fun i =>
          bind (when (cmd_running i)
                  (bind (call Log_NewLine) (fun _ =>
                     bind (call (Log_Log msg)) (fun _ => terminate_cmd))))
            (fun _ => osExit 3))) w = (Exit 3, w')
      /\ forall c, In (Command_Terminate c) (new_calls w w')
                   <-> running c = true /\ In c (managed (ib w))).
  { intros msg. rewrite run_terminate_cmds, run_get.
    change (cmd_running (ib (with_ib stop_cmds (emit (terminations (ib w)) w))))
      with (cmd_running (ib w)).
    unfold cmd_running, IsSubprocessRunning, managed. fold (cmds_list (ib w)).
    destruct (cmd (ib w)) as [c0|] eqn:Hcmd; [destruct (running c0) eqn:Hrun|].
    - run. unfold terminate_cmd. run. cbn [ib with_ib stop_cmds cmd set_cmds]. rewrite Hcmd.
      run. eexists. split; [reflexivity|]. unfold new_calls.
      cbn [calls with_ib emit]. rewrite <- !app_assoc, drop_app_length.
      intros c. rewrite in_app_iff, in_terminations. cbn [In app]. split.
      + intros [[Hr Hin]|[?|[?|[[= <-]|[]]]]]; try discriminate; tauto.
      + intros [Hr [<-|Hin]]; tauto.
    - run. eexists. split; [reflexivity|]. rewrite new_calls_emit.
      intros c. rewrite in_terminations. cbn [app In]. split; [tauto|].
      intros [Hr [<-|Hin]]; [congruence|done].
    - run. eexists. split; [reflexivity|]. rewrite new_calls_emit.
      intros c. rewrite in_terminations. cbn [app]. tauto. }
  destruct Hsig as [->| ->]; apply Hgoal.
Qed.

Lemma handleSignals_SIGTERM_SIGHUP_witness :
  let w := world (one_running WAIT) in
  exists w',
    handleSignals env_ws SIGHUP w = (Exit 3, w')
    /\ forall c, In (Command_Terminate c) (new_calls w w')
                 <-> running c = true /\ In c (managed (ib w)).
Proof.
  intros w. exact (handleSignals_SIGTERM_SIGHUP env_ws SIGHUP w (or_intror eq_refl)).
Defined.

Lemma commandNotify_loop_spec attrs b w :
  Forall typed_tags attrs ->
  commandNotify_loop attrs b w = (Done (b || existsb notify_tags attrs), w).
Proof.
  intros Hty. revert b. induction Hty as [|attr attrs Hattr _ IH]; intros b; simpl.
  - by rewrite orb_false_r.
  - unfold notify_tags at 1. unfold typed_tags in Hattr.
    destruct (String.eqb_spec (blaze_query.Name attr) "tags") as [Hn|Hn]; cbn [andb].
    + destruct (blaze_query.Type_ attr) as [[]|]; [| | |by specialize (Hattr Hn)]; cbn [andb];
        try (rewrite IH; cbn [orb]; done).
      destruct (contains _ _); rewrite IH; cbn [orb]; [|done].
      by rewrite orb_true_r.
    + by rewrite IH.
Qed.

(** X15.  The handle [setupRun] makes, for a rule that the rule query
    found and whose [tags] attributes carry their type.  With the tag
    [ibazel_notify_changes] in a string-list [tags] attribute it is the
    notifying handle, made with the arguments of the engine, which stay as
    they are.  Without the tag it is the default handle; for an arguments
    length within the arguments of the engine, these become the debug
    arguments of the target followed by the last [argsLength] arguments. *)
Theorem setupRun_handle env target results err r debugArg argsLength w :
  bazel_CQuery env target = (Some results, err) ->
  first_rule results = Some r ->
  Forall typed_tags (blaze_query.Rule_Attribute r) ->
  (existsb notify_tags (blaze_query.Rule_Attribute r) = true ->
   exists cs,
     setupRun env target debugArg argsLength w
     = (Done (commandNotifyCommand (startupArgs (ib w)) (bazelArgs (ib w)) target
                (args (ib w))),
        emit cs w))
  /\ (existsb notify_tags (blaze_query.Rule_Attribute r) = false ->
      forall t, args_tail (args (ib w)) argsLength = Some t ->
      exists cs,
        setupRun env target debugArg argsLength w
        = (Done (commandDefaultCommand (startupArgs (ib w)) (bazelArgs (ib w)) target
                   (debugArg ++ t)),
           with_ib (set_args (debugArg ++ t)) (emit cs w))).
Proof.
  intros Hq Hr Hty.
  assert (Hrule : exists cs, queryRule env target w = (Done (Some r, None), emit cs w)).
  { destruct (queryRule_eq env target w) as (cs & _ & Heq).
    rewrite Hq in Heq. cbn [fst] in Heq. rewrite Hr in Heq. eauto. }
  destruct Hrule as (cs & Hrule). unfold setupRun. rewrite (bind_eq _ _ _ _ _ Hrule). run.
  rewrite (bind_eq _ _ _ _ _ (commandNotify_loop_spec _ false _ Hty)). cbn [orb]. run.
  split.
  - intros ->. run. eexists. reflexivity.
  - intros -> t Ht.
    assert (Hlen : (0 <=? argsLength)%Z = true).
    { unfold args_tail in Ht.
      destruct ((0 <=? Z.of_nat (length (args (ib w))) - argsLength)
                && (Z.of_nat (length (args (ib w))) - argsLength
                    <=? Z.of_nat (length (args (ib w)))))%Z eqn:Hb; [|discriminate].
      apply andb_prop in Hb as [_ Hb]. apply Z.leb_le in Hb. apply Z.leb_le. lia. }
    destruct debugArg as [|d ds]; cbn [length Nat.ltb Nat.leb].
    + assert (Hgt : (-1 <? argsLength)%Z = true)
        by (apply Z.ltb_lt; apply Z.leb_le in Hlen; lia).
      rewrite Hgt, Ht. run. eexists. reflexivity.
    + rewrite Ht. run. eexists. reflexivity.
Qed.

Lemma setupRun_handle_witness :
  let tags := blaze_query.mkAttribute "tags" (Some blaze_query.Attribute_STRING_LIST)
                ["manual"; "ibazel_notify_changes"] in
  let env := with_CQuery
               (fun _ => (Some [blaze_query.Target_RULE (blaze_query.mkRule [tags])], None))
               env_ws in
  exists cs,
    setupRun env "//a:x" [] (-1) (world (engine RUN))
    = (Done (commandNotifyCommand [] [] "//a:x" []), emit cs (world (engine RUN))).
Proof.
  intros tags env.
  refine (proj1 (setupRun_handle env "//a:x" _ None (blaze_query.mkRule [tags]) [] (-1)%Z
                   (world (engine RUN)) eq_refl eq_refl _) eq_refl).
  apply Forall_cons. split; [|apply Forall_nil_2]. intros _. discriminate.
Defined.

(** X16.  The slice of the arguments [setupRun] takes: for a length
    between 0 and the number of arguments it is the last [n] arguments;
    for any other length the slice expression is out of range.  Taken from
    debug arguments followed by [n] arguments, it is those [n] arguments
    again: the debug arguments of one target do not pile up for the next. *)
Theorem args_tail_spec (a : list string) (n : Z) :
  ((0 <= n <= Z.of_nat (length a))%Z ->
   exists pre t, a = pre ++ t /\ length t = Z.to_nat n /\ args_tail a n = Some t)
  /\ ((n < 0 \/ Z.of_nat (length a) < n)%Z -> args_tail a n = None)
  /\ (forall d t : list string, args_tail (d ++ t) (Z.of_nat (length t)) = Some t).
Proof.
  unfold args_tail. split; [|split].
  - intros Hn.
    destruct (Z.leb_spec 0 (Z.of_nat (length a) - n)); [|lia].
    destruct (Z.leb_spec (Z.of_nat (length a) - n) (Z.of_nat (length a))); [|lia].
    cbn [andb]. exists (take (Z.to_nat (Z.of_nat (length a) - n)) a),
                       (drop (Z.to_nat (Z.of_nat (length a) - n)) a).
    split; [by rewrite take_drop|]. split; [|done]. rewrite length_drop. lia.
  - intros Hn.
    destruct (Z.leb_spec 0 (Z.of_nat (length a) - n)); [|done].
    destruct (Z.leb_spec (Z.of_nat (length a) - n) (Z.of_nat (length a))); [lia|done].
  - intros d t. rewrite length_app.
    destruct (Z.leb_spec 0 (Z.of_nat (length d + length t) - Z.of_nat (length t))); [|lia].
    destruct (Z.leb_spec (Z.of_nat (length d + length t) - Z.of_nat (length t))
                (Z.of_nat (length d + length t))); [|lia].
    cbn [andb]. f_equal.
    replace (Z.to_nat (Z.of_nat (length d + length t) - Z.of_nat (length t)))
      with (length d) by lia.
    by rewrite drop_app_length.
Qed.

Lemma string_chars_strip_log_name s :
  string_chars (strip_log_name s) = List.filter log_name_char (string_chars s).
Proof.
  induction s as [|c s IH]; [done|]. simpl. destruct (log_name_char c); simpl; congruence.
Qed.

Lemma string_chars_inj s s' : string_chars s = string_chars s' -> s = s'.
Proof.
  revert s'. induction s as [|c s IH]; intros [|c' s']; simpl; try discriminate; [done|].
  intros [= -> H]. f_equal. by apply IH.
Qed.

(** X17.  [openFileForLogs] without the flag [-mrunToFiles] returns nil and
    touches nothing.  With the flag it opens the file of the target under
    [/tmp/running/], whose name is the label reduced to its letters,
    digits and hyphens, in their order (a label made of such characters
    is its own name), and returns nil when the file cannot be opened. *)
Theorem openFileForLogs_spec env fileToOpen w :
  (mrunToFiles env = false -> openFileForLogs env fileToOpen w = (Done None, w))
  /\ (mrunToFiles env = true ->
      exists name,
        string_chars name = List.filter log_name_char (string_chars fileToOpen)
        /\ (Forall (fun c => log_name_char c = true) (string_chars fileToOpen) ->
            name = fileToOpen)
        /\ openFileForLogs env fileToOpen w
           = (Done (match os_OpenFile env ("/tmp/running/" +:+ name +:+ ".txt") with
                    | Some _ => None
                    | None => Some ("/tmp/running/" +:+ name +:+ ".txt")
                    end),
              emit ([Os_MkdirAll "/tmp/running/";
                     Os_OpenFile ("/tmp/running/" +:+ name +:+ ".txt")]
                    ++ match os_OpenFile env ("/tmp/running/" +:+ name +:+ ".txt") with
                       | Some err2 => [Println err2]
                       | None => []
                       end) w)).
Proof.
  unfold openFileForLogs. split; intros ->; cbn [negb]; [done|].
  exists (strip_log_name fileToOpen). split; [apply string_chars_strip_log_name|].
  split.
  - intros Hall. apply string_chars_inj. rewrite string_chars_strip_log_name.
    induction Hall as [|c cs Hc _ IH]; [done|]. simpl. by rewrite Hc, IH.
  - run. destruct (os_OpenFile env _); run; reflexivity.
Qed.

(** X18.  Once the engine holds a subprocess handle, [run] neither queries
    the rule nor starts a subprocess again, whatever targets it is given:
    it tells the handle of the rebuild and returns its buffer with a nil
    error; the engine stays as it is. *)
Theorem run_with_handle env targets c w :
  cmd (ib w) = Some c ->
  run env targets w
  = (Done (command_AfterRebuild env c, None),
     emit [Log_Logf "Notifying of changes" []; Command_AfterRebuild c None] w).
Proof.
  intros Hc. unfold run. rewrite run_get, Hc. unfold AfterRebuild. run. reflexivity.
Qed.

Lemma run_with_handle_witness :
  let c := mkCommand true [] [] "//a:x" [] true in
  let w := world (set_cmd (Some c) (engine RUN)) in
  run env_ws [] w
  = (Done (None, None),
     emit [Log_Logf "Notifying of changes" []; Command_AfterRebuild c None] w).
Proof. intros c w. exact (run_with_handle env_ws [] c w eq_refl). Defined.

Lemma first_rule_split results r :
  first_rule results = Some r ->
  exists pre post,
    results = pre ++ blaze_query.Target_RULE r :: post /\ first_rule pre = None.
Proof.
  induction results as [|t results IH]; [discriminate|].
  destruct t as [label|r'| | |]; simpl;
    try (intros H; destruct (IH H) as (pre & post & -> & Hpre);
         eexists (_ :: pre), post; split; [reflexivity|exact Hpre]).
  intros [= ->]. by exists [], results.
Qed.

(** X19.  [queryRule] returns the rule of the first result of type RULE,
    with a nil error, also when the rule query reported an error: the
    error is logged and answered with a TERM signal to the process
    itself, and the result is read all the same. *)
Theorem queryRule_first_rule env target results err r w :
  bazel_CQuery env target = (Some results, err) ->
  first_rule results = Some r ->
  exists w',
    queryRule env target w = (Done (Some r, None), w')
    /\ ib w' = ib w
    /\ (In (Sigs_Send SIGTERM) (new_calls w w') <-> err <> None)
    /\ exists pre post,
         results = pre ++ blaze_query.Target_RULE r :: post
         /\ first_rule pre = None.
Proof.
  intros Hq Hr. unfold queryRule, newBazel. rewrite Hq. run.
  destruct err as [e|]; run; rewrite Hr;
    (eexists; split; [reflexivity|]); (split; [reflexivity|]);
    rewrite new_calls_emit'; (split; [|by apply first_rule_split]); cbn [In].
  - split; [done|]. intros _. do 5 right. by left.
  - split; [|done]. intros [?|[?|[?|[?|[]]]]]; discriminate.
Qed.

Lemma queryRule_first_rule_witness :
  let rule := blaze_query.mkRule [] in
  let env := with_CQuery
               (fun _ => (Some [blaze_query.Target_SOURCE_FILE "//a:x";
                                blaze_query.Target_RULE rule], Some "exit status 1"))
               env_ws in
  exists w',
    queryRule env "//a:x" (world (engine RUN)) = (Done (Some rule, None), w')
    /\ ib w' = ib (world (engine RUN))
    /\ (In (Sigs_Send SIGTERM) (new_calls (world (engine RUN)) w')
        <-> Some "exit status 1" <> None)
    /\ exists pre post,
         [blaze_query.Target_SOURCE_FILE "//a:x"; blaze_query.Target_RULE rule]
         = pre ++ blaze_query.Target_RULE rule :: post
         /\ first_rule pre = None.
Proof.
  intros rule env.
  exact (queryRule_first_rule env "//a:x" _ (Some "exit status 1") rule (world (engine RUN))
           eq_refl eq_refl).
Defined.
